(** * Salon Profit Planner: the derivation engine, the undo buffer, the
      scenario store and the user data

    A shallow embedding of [app.py], [utils.py], [database.py] and
    [auth.py].

    Conventions of the embedding.
    - The engine is embedded twice.  Module [Binary64] has it over binary64
      numbers, as Python evaluates it ([52/12] is the float
      4.333333333333333): the statements that give figures, or that tie what
      a call returns to the inputs of the call, are about that module and
      use no law of arithmetic.  Outside the module numbers are exact
      rationals ([Qc], canonical fractions, so that equality is Leibniz
      equality); that embedding carries the statements that do not depend
      on rounding: guards, order, the frame of a call, and the handlers
      around the engine.
    - Every division of the engine sits behind a guard or has the non-zero
      constant [52/12] as divisor, so [Qcdiv]'s value at divisor 0 is never
      observed.
    - Dictionaries that the code iterates ([fixed_costs],
      [variable_costs_percentages], [additional_income], the result's
      [variable_costs]) are insertion-ordered association lists; dictionaries
      with a fixed set of literal keys (a stylist, a trainee, the salary
      settings, the returned metrics) are records.
    - [st.session_state] is threaded explicitly: a function that mutates it
      returns the new state next to its result. *)

From Stdlib Require Import QArith Qcanon List String Bool Arith Lia Permutation.
From Stdlib Require Import Ascii.
From Stdlib Require DecimalString.
From Corelib Require Import PrimFloat.
Import ListNotations.

Open Scope Qc_scope.

(** ** Numbers *)

Definition qc (z : Z) : Qc := Q2Qc (inject_Z z).

(** [x > y] of Python, as a boolean. *)
Definition Qcgtb (x y : Qc) : bool :=
  match y ?= x with
  | Lt => true
  | _ => false
  end.

(** Closed equations between rational constants. *)
Ltac qc_eval := apply Qc_is_canon; vm_compute; reflexivity.

(** Closed disequations between rational constants. *)
Ltac qc_neq :=
  let E := fresh "E" in
  intro E; apply (f_equal this) in E; vm_compute in E; discriminate E.

(** Built-in [max(a, b)]: the first argument unless the second is larger. *)
Definition py_max (a b : Qc) : Qc := if Qcgtb b a then b else a.

(** Built-in [sum]: starts from 0 and adds from the left. *)
Definition py_sum (l : list Qc) : Qc := fold_left Qcplus l 0.

(** ** Dictionaries *)

Definition dict (V : Type) : Type := list (string * V).

Fixpoint dict_get {V : Type} (k : string) (d : dict V) : option V :=
  match d with
  | [] => None
  | (k', v) :: d' => if String.eqb k k' then Some v else dict_get k d'
  end.

(** [d[k] = v]: an existing key keeps its position, a new key goes last. *)
Fixpoint dict_set {V : Type} (k : string) (v : V) (d : dict V) : dict V :=
  match d with
  | [] => [(k, v)]
  | (k', v') :: d' =>
      if String.eqb k k' then (k, v) :: d' else (k', v') :: dict_set k v d'
  end.

Definition dict_keys {V : Type} (d : dict V) : list string := map fst d.
Definition dict_values {V : Type} (d : dict V) : list V := map snd d.
Definition dict_mem {V : Type} (k : string) (d : dict V) : bool :=
  match dict_get k d with
  | Some _ => true
  | None => false
  end.

(** ** The input model *)

Record stylist : Type := mkStylist
  { name : string; sales : Qc; guarantee : Qc }.

Record wage_earner : Type := mkWageEarner
  { w_name : string; wage : Qc }.

Record salary_settings_t : Type := mkSalarySettings
  { service_commission_percentage : Qc;
    retail_commission_percentage : Qc;
    national_insurance_percentage : Qc;
    pension_contribution_percentage : Qc }.

(** The input fields of [st.session_state]. *)
Record session_state : Type := mkSession
  { stylists : list stylist;
    retail_percentage : Qc;
    fixed_costs : dict Qc;
    variable_costs_percentages : dict Qc;
    salary_settings : salary_settings_t;
    trainees : list wage_earner;
    receptionists : list wage_earner;
    additional_income : dict Qc }.

Definition set_variable_costs_percentages (s : session_state) (v : dict Qc)
  : session_state :=
  mkSession (stylists s) (retail_percentage s) (fixed_costs s) v
            (salary_settings s) (trainees s) (receptionists s)
            (additional_income s).

Definition set_additional_income (s : session_state) (v : dict Qc)
  : session_state :=
  mkSession (stylists s) (retail_percentage s) (fixed_costs s)
            (variable_costs_percentages s)
            (salary_settings s) (trainees s) (receptionists s) v.

Definition WAGES : string :=
  "Wages/Salaries (excluding retail commission)"%string.
Definition RETAIL_COMMISSION : string := "Retail Commission"%string.
Definition PROFESSIONAL_STOCK : string := "Professional Stock"%string.
Definition RETAIL_STOCK : string := "Retail Stock"%string.
Definition ROYALTIES : string := "Royalties/Franchise Fee"%string.

(** The key set of [variable_costs_percentages], in the order in which the
    code creates it. *)
Definition variable_cost_names : list string :=
  [WAGES; RETAIL_COMMISSION; PROFESSIONAL_STOCK; RETAIL_STOCK; ROYALTIES].

(** The two keys the engine assigns. *)
Definition derived_key (k : string) : bool :=
  (String.eqb k WAGES || String.eqb k RETAIL_COMMISSION)%bool.

(** ** The derivation engine: [calculate_core_values] *)

(** The dictionary the engine returns. *)
Record metrics : Type := mkMetrics
  { weekly_service_sales : Qc;
    weekly_retail_sales : Qc;
    weekly_total_sales : Qc;
    weekly_salary_cost : Qc;
    weekly_stylist_salary_cost : Qc;
    weekly_trainee_salary_cost : Qc;
    weekly_receptionist_salary_cost : Qc;
    weekly_retail_commission : Qc;
    weekly_ni_cost : Qc;
    weekly_pension_cost : Qc;
    weekly_total_salary_cost : Qc;
    total_service_sales : Qc;
    retail_sales : Qc;
    monthly_service_retail_sales : Qc;
    total_additional_income : Qc;
    total_sales : Qc;
    total_fixed_costs : Qc;
    total_variable_costs : Qc;
    profit : Qc;
    profit_margin : Qc;
    variable_costs : dict Qc;
    total_salary_cost : Qc;
    monthly_retail_commission : Qc;
    total_wage_cost_percentage : Qc }.

Definition weekly_to_monthly : Qc := qc 52 / qc 12.

(** The values the stylist loop computes for one stylist. *)
Record stylist_pay : Type := mkStylistPay
  { service_commission_amount : Qc;
    stylist_retail_sales_weekly : Qc;
    retail_commission_amount : Qc;
    service_earnings : Qc;
    total_earnings : Qc }.

(** Body of [for stylist in st.session_state.stylists]. *)
Definition stylist_payroll
    (weekly_service_sales retail_sales_weekly
     service_commission_percentage retail_commission_percentage : Qc)
    (st : stylist) : stylist_pay :=
  let weekly_stylist_sales := sales st in
  let service_commission_amount :=
    weekly_stylist_sales * (service_commission_percentage / qc 100) in
  let stylist_retail_sales_weekly :=
    if Qcgtb weekly_service_sales 0 then
      let proportion_of_sales := weekly_stylist_sales / weekly_service_sales in
      retail_sales_weekly * proportion_of_sales
    else 0 in
  let retail_commission_amount :=
    stylist_retail_sales_weekly * (retail_commission_percentage / qc 100) in
  let stylist_guarantee := guarantee st in
  let service_earnings := py_max stylist_guarantee service_commission_amount in
  let total_earnings := service_earnings + retail_commission_amount in
  mkStylistPay service_commission_amount stylist_retail_sales_weekly
               retail_commission_amount service_earnings total_earnings.

(** The two accumulators of the stylist loop:
    [(stylist_weekly_salary_cost, total_weekly_retail_commission)]. *)
Definition stylist_loop
    (weekly_service_sales retail_sales_weekly scp rcp : Qc)
    (l : list stylist) : Qc * Qc :=
  fold_left
    (fun acc st =>
       let p := stylist_payroll weekly_service_sales retail_sales_weekly
                                scp rcp st in
       (fst acc + total_earnings p, snd acc + retail_commission_amount p))
    l (0, 0).

(** The trainee and the receptionist loops: [cost += x['wage']]. *)
Definition wage_loop (l : list wage_earner) : Qc :=
  fold_left (fun acc w => acc + wage w) l 0.

(** The base a variable-cost percentage applies to. *)
Definition base_value (retail_sales total_service_sales total_sales : Qc)
    (cost_name : string) : Qc :=
  if (String.eqb cost_name RETAIL_COMMISSION
      || String.eqb cost_name RETAIL_STOCK)%bool
  then retail_sales
  else if String.eqb cost_name PROFESSIONAL_STOCK
       then total_service_sales
       else total_sales.

(** The loop over [variable_costs_percentages.items()], with its two
    accumulators [(variable_costs, total_variable_costs)]. *)
Definition variable_cost_loop
    (retail_sales total_service_sales total_sales : Qc)
    (items : dict Qc) : dict Qc * Qc :=
  fold_left
    (fun acc item =>
       let cost_name := fst item in
       let percentage := snd item in
       let cost_value :=
         base_value retail_sales total_service_sales total_sales cost_name
         * (percentage / qc 100) in
       (dict_set cost_name cost_value (fst acc), snd acc + cost_value))
    items ([], 0).

Definition calculate_core_values (s : session_state)
  : metrics * session_state :=
  let weekly_service_sales := py_sum (map sales (stylists s)) in
  let retail_percentage := retail_percentage s in
  let weekly_retail_sales := weekly_service_sales * (retail_percentage / qc 100) in
  let weekly_total_sales := weekly_service_sales + weekly_retail_sales in
  let total_service_sales := weekly_service_sales * weekly_to_monthly in
  let retail_sales := weekly_retail_sales * weekly_to_monthly in
  let total_additional_income := py_sum (dict_values (additional_income s)) in
  let monthly_service_retail_sales := weekly_total_sales * weekly_to_monthly in
  let total_sales := monthly_service_retail_sales + total_additional_income in
  let total_fixed_costs := py_sum (dict_values (fixed_costs s)) in
  let salary_settings := salary_settings s in
  let service_commission_percentage :=
    service_commission_percentage salary_settings in
  let retail_commission_percentage :=
    retail_commission_percentage salary_settings in
  let national_insurance_percentage :=
    national_insurance_percentage salary_settings in
  let pension_contribution_percentage :=
    pension_contribution_percentage salary_settings in
  let retail_sales_weekly := retail_sales / weekly_to_monthly in
  let stylist_acc :=
    stylist_loop weekly_service_sales retail_sales_weekly
                 service_commission_percentage retail_commission_percentage
                 (stylists s) in
  let stylist_weekly_salary_cost := fst stylist_acc in
  let total_weekly_retail_commission := snd stylist_acc in
  let trainee_weekly_salary_cost := wage_loop (trainees s) in
  let receptionist_weekly_salary_cost := wage_loop (receptionists s) in
  let total_weekly_salary_cost :=
    stylist_weekly_salary_cost + trainee_weekly_salary_cost
    + receptionist_weekly_salary_cost in
  let national_insurance_cost :=
    total_weekly_salary_cost * (national_insurance_percentage / qc 100) in
  let pension_contribution_cost :=
    total_weekly_salary_cost * (pension_contribution_percentage / qc 100) in
  let total_additional_costs :=
    national_insurance_cost + pension_contribution_cost in
  let grand_total_weekly_cost :=
    total_weekly_salary_cost + total_additional_costs in
  let total_salary_cost := grand_total_weekly_cost * weekly_to_monthly in
  let monthly_retail_commission :=
    total_weekly_retail_commission * weekly_to_monthly in
  (* the two assignments into st.session_state.variable_costs_percentages *)
  let vcp1 :=
    if Qcgtb total_sales 0 then
      dict_set WAGES
        ((total_salary_cost - monthly_retail_commission) / total_sales * qc 100)
        (variable_costs_percentages s)
    else variable_costs_percentages s in
  let vcp2 :=
    if Qcgtb retail_sales 0 then
      dict_set RETAIL_COMMISSION
        (monthly_retail_commission / retail_sales * qc 100) vcp1
    else vcp1 in
  let vc_acc :=
    variable_cost_loop retail_sales total_service_sales total_sales vcp2 in
  let variable_costs := fst vc_acc in
  let total_variable_costs := snd vc_acc in
  let profit := total_sales - total_fixed_costs - total_variable_costs in
  let profit_margin :=
    if Qcgtb total_sales 0 then profit / total_sales * qc 100 else 0 in
  (mkMetrics
     weekly_service_sales weekly_retail_sales weekly_total_sales
     total_weekly_salary_cost stylist_weekly_salary_cost
     trainee_weekly_salary_cost receptionist_weekly_salary_cost
     total_weekly_retail_commission national_insurance_cost
     pension_contribution_cost grand_total_weekly_cost
     total_service_sales retail_sales monthly_service_retail_sales
     total_additional_income total_sales total_fixed_costs
     total_variable_costs profit profit_margin variable_costs
     total_salary_cost monthly_retail_commission
     (if Qcgtb total_sales 0 then total_salary_cost / total_sales * qc 100
      else 0),
   set_variable_costs_percentages s vcp2).

(** The per-stylist values of a call, in roster order (the values the stylist
    loop goes through). *)
Definition stylist_pays (s : session_state) : list stylist_pay :=
  let m := fst (calculate_core_values s) in
  map (stylist_payroll (weekly_service_sales m)
         (retail_sales m / weekly_to_monthly)
         (service_commission_percentage (salary_settings s))
         (retail_commission_percentage (salary_settings s)))
      (stylists s).

(** ** [utils.calculate_profit] *)

Definition calculate_profit (service_sales retail_percentage : Qc)
    (fixed_costs variable_costs_percentages : dict Qc) : Qc :=
  let retail_sales := service_sales * (retail_percentage / qc 100) in
  let total_sales := service_sales + retail_sales in
  let total_fixed_costs := py_sum (dict_values fixed_costs) in
  let total_variable_costs :=
    fold_left
      (fun acc item =>
         let cost_name := fst item in
         let percentage := snd item in
         let base_value :=
           if (String.eqb cost_name RETAIL_COMMISSION
               || String.eqb cost_name RETAIL_STOCK)%bool
           then retail_sales
           else total_sales in
         let cost_value := base_value * (percentage / qc 100) in
         acc + cost_value)
      variable_costs_percentages 0 in
  let profit := total_sales - total_fixed_costs - total_variable_costs in
  profit.

(** ** The undo buffer: [save_state_for_undo] and [undo_last_change]

    [save_state_for_undo] stores [copy.deepcopy] of each field, so an entry of
    the stack shares nothing with the session and is modelled by value. *)

(** The dictionary [current_state] that is pushed. *)
Record undo_state : Type := mkUndoState
  { u_stylists : list stylist;
    u_retail_percentage : Qc;
    u_fixed_costs : dict Qc;
    u_variable_costs_percentages : dict Qc;
    u_salary_settings : salary_settings_t;
    u_trainees : list wage_earner;
    u_receptionists : list wage_earner }.

(** The session with its [undo_stack]; the head of the list is index 0, the
    oldest entry. *)
Record app_state : Type := mkApp
  { session : session_state;
    undo_stack : list undo_state }.

(** [l.pop(0)] on a non-empty list: what is left. *)
Definition list_pop_first {A : Type} (l : list A) : list A := tl l.

(** [l.pop()]: the last element and what is left; [None] on the empty list. *)
Definition list_pop {A : Type} (l : list A) : option (list A * A) :=
  match rev l with
  | [] => None
  | x :: r => Some (rev r, x)
  end.

Definition save_state_for_undo (a : app_state) : app_state :=
  let s := session a in
  let current_state :=
    mkUndoState (stylists s) (retail_percentage s) (fixed_costs s)
                (variable_costs_percentages s) (salary_settings s)
                (trainees s) (receptionists s) in
  let stack :=
    if 10 <=? List.length (undo_stack a) then list_pop_first (undo_stack a)
    else undo_stack a in
  mkApp s (stack ++ [current_state]).

Definition undo_last_change (a : app_state) : bool * app_state :=
  match list_pop (undo_stack a) with
  | Some (rest, previous_state) =>
      (true,
       mkApp (mkSession (u_stylists previous_state)
                        (u_retail_percentage previous_state)
                        (u_fixed_costs previous_state)
                        (u_variable_costs_percentages previous_state)
                        (u_salary_settings previous_state)
                        (u_trainees previous_state)
                        (u_receptionists previous_state)
                        (additional_income (session a)))
             rest)
  | None => (false, a)
  end.

(** What a user session does to the buffer: an edit of the inputs (any new
    value of the input fields), a push, an undo. *)
Inductive history_event : Type :=
  | Edit (s : session_state)
  | Push
  | Undo.

Definition history_step (a : app_state) (e : history_event) : app_state :=
  match e with
  | Edit s => mkApp s (undo_stack a)
  | Push => save_state_for_undo a
  | Undo => snd (undo_last_change a)
  end.

Definition history_run (a : app_state) (es : list history_event) : app_state :=
  fold_left history_step es a.

(** The state at start-up: [st.session_state.undo_stack = []]. *)
Definition initial_app (s : session_state) : app_state := mkApp s [].

(** [push_each [s1; ...; sn]]: the session becomes [s1] and is pushed, then
    becomes [s2] and is pushed, and so on. *)
Definition push_each (a : app_state) (l : list session_state) : app_state :=
  fold_left (fun a s => save_state_for_undo (mkApp s (undo_stack a))) l a.

Definition snapshot (s : session_state) : undo_state :=
  mkUndoState (stylists s) (retail_percentage s) (fixed_costs s)
              (variable_costs_percentages s) (salary_settings s)
              (trainees s) (receptionists s).

(** ** The scenario table: [database.save_scenario]

    The table [scenarios] is the list of its rows in insertion order; the
    payload [data_json] is kept abstract, the clock is an argument. *)

Section ScenarioTable.

Variable data : Type.

Record scenario_row : Type := mkRow
  { row_user_id : Z;
    row_name : string;
    row_description : string;
    row_data_json : data;
    row_created_at : nat;
    row_updated_at : nat }.

Definition table : Type := list scenario_row.

Definition row_matches (user_id : Z) (name : string) (r : scenario_row)
  : bool :=
  (Z.eqb (row_user_id r) user_id && String.eqb (row_name r) name)%bool.

Definition row_of_user (user_id : Z) (r : scenario_row) : bool :=
  Z.eqb (row_user_id r) user_id.

(** [db.query(Scenario).filter(user_id == .., name == ..).first()] *)
Definition query_first (user_id : Z) (name : string) (db : table)
  : option scenario_row :=
  find (row_matches user_id name) db.

(** [db.query(Scenario).filter(user_id == ..).count()] *)
Definition scenario_count (user_id : Z) (db : table) : nat :=
  List.length (filter (row_of_user user_id) db).

(** The update of the row [first()] returned, in place. *)
Fixpoint update_first (user_id : Z) (name : string)
    (description : string) (d : data) (now : nat) (db : table) : table :=
  match db with
  | [] => []
  | r :: db' =>
      if row_matches user_id name r
      then mkRow (row_user_id r) (row_name r) description d
                 (row_created_at r) now :: db'
      else r :: update_first user_id name description d now db'
  end.

Definition save_scenario (user_id : Z) (name description : string)
    (d : data) (now : nat) (db : table) : (bool * string) * table :=
  match query_first user_id name db with
  | Some existing_scenario =>
      ((true, "Scenario saved successfully"%string),
       update_first user_id name description d now db)
  | None =>
      let scenario_count := scenario_count user_id db in
      if 3 <=? scenario_count then
        ((false, "Maximum 3 scenarios allowed"%string), db)
      else
        ((true, "Scenario saved successfully"%string),
         db ++ [mkRow user_id name description d now now])
  end.

(** The names an owner has in the table. *)
Definition scenario_names (user_id : Z) (db : table) : list string :=
  map row_name (filter (row_of_user user_id) db).

(** What is stored under [(user_id, name)]: description and payload. *)
Definition stored (user_id : Z) (name : string) (db : table)
  : option (string * data) :=
  match query_first user_id name db with
  | Some r => Some (row_description r, row_data_json r)
  | None => None
  end.

End ScenarioTable.

Arguments mkRow {data}.
Arguments row_user_id {data}.
Arguments row_name {data}.
Arguments row_description {data}.
Arguments row_data_json {data}.
Arguments row_created_at {data}.
Arguments row_updated_at {data}.
Arguments row_matches {data}.
Arguments row_of_user {data}.
Arguments query_first {data}.
Arguments scenario_count {data}.
Arguments update_first {data}.
Arguments save_scenario {data}.
Arguments scenario_names {data}.
Arguments stored {data}.

(** ** The scenario handlers of [scenarios_tab]

    The save handler stores [list.copy()] of the three rosters: a new list
    whose elements are the very dictionaries of the session (a shallow copy),
    and the load handler copies it back the same way.  So a scenario and the
    session can hold the same stylist object, and the rosters are modelled as
    lists of references into a store of objects.  The dictionaries of numbers
    ([salary_settings], [fixed_costs], [variable_costs_percentages]) are
    copied whole by [dict.copy()] and are values. *)

Definition ref : Type := nat.

(** The entry ['metrics'] of a stored scenario. *)
Record scenario_metrics : Type := mkScenarioMetrics
  { monthly_service_sales : Qc;
    monthly_retail_sales : Qc;
    monthly_total_sales : Qc;
    monthly_fixed_costs : Qc;
    monthly_variable_costs : Qc;
    monthly_profit : Qc;
    sm_profit_margin : Qc }.

(** A value of [st.session_state.scenarios]. *)
Record scenario : Type := mkScenario
  { description : string;
    timestamp : string;
    stylist_data : list ref;
    sc_retail_percentage : Qc;
    trainee_data : list ref;
    receptionist_data : list ref;
    sc_salary_settings : salary_settings_t;
    sc_fixed_costs : dict Qc;
    sc_variable_costs_percentages : dict Qc;
    sc_metrics : scenario_metrics }.

(** [st.session_state] as the scenario tab sees it: the object store, the
    input fields, the saved scenarios and the name of the current one. *)
Record page_state : Type := mkPage
  { stylist_objects : ref -> stylist;
    wage_objects : ref -> wage_earner;
    p_stylists : list ref;
    p_retail_percentage : Qc;
    p_fixed_costs : dict Qc;
    p_variable_costs_percentages : dict Qc;
    p_salary_settings : salary_settings_t;
    p_trainees : list ref;
    p_receptionists : list ref;
    p_additional_income : dict Qc;
    scenarios : dict scenario;
    current_scenario_name : string }.

(** The Input Snapshot a page state holds: the rosters dereferenced. *)
Definition inputs_of (p : page_state) : session_state :=
  mkSession (map (stylist_objects p) (p_stylists p))
            (p_retail_percentage p)
            (p_fixed_costs p)
            (p_variable_costs_percentages p)
            (p_salary_settings p)
            (map (wage_objects p) (p_trainees p))
            (map (wage_objects p) (p_receptionists p))
            (p_additional_income p).

(** [calculate_core_values()] run on a page state: it reads the inputs and
    assigns into [variable_costs_percentages] only. *)
Definition calculate_core_values_on (p : page_state) : metrics * page_state :=
  let r := calculate_core_values (inputs_of p) in
  (fst r,
   mkPage (stylist_objects p) (wage_objects p) (p_stylists p)
          (p_retail_percentage p) (p_fixed_costs p)
          (variable_costs_percentages (snd r))
          (p_salary_settings p) (p_trainees p) (p_receptionists p)
          (p_additional_income p) (scenarios p) (current_scenario_name p)).

Inductive save_outcome : Type :=
  | Saved
  | MaximumReached
  | NameMissing.

(** The handler of the button "Save Current Plan as Scenario".  The values of
    the dictionary literal are evaluated in order: the copies first, then the
    seven calls of [calculate_core_values()]. *)
Definition save_current_plan (new_scenario_name scenario_description : string)
    (now : string) (p : page_state) : save_outcome * page_state :=
  if negb (String.eqb new_scenario_name EmptyString) then
    if ((3 <=? List.length (scenarios p))
        && negb (dict_mem new_scenario_name (scenarios p)))%bool
    then (MaximumReached, p)
    else
      let stylist_data := p_stylists p in
      let retail_percentage := p_retail_percentage p in
      let trainee_data := p_trainees p in
      let receptionist_data := p_receptionists p in
      let salary_settings := p_salary_settings p in
      let fixed_costs := p_fixed_costs p in
      let variable_costs_percentages := p_variable_costs_percentages p in
      let c1 := calculate_core_values_on p in
      let c2 := calculate_core_values_on (snd c1) in
      let c3 := calculate_core_values_on (snd c2) in
      let c4 := calculate_core_values_on (snd c3) in
      let c5 := calculate_core_values_on (snd c4) in
      let c6 := calculate_core_values_on (snd c5) in
      let c7 := calculate_core_values_on (snd c6) in
      let metrics :=
        mkScenarioMetrics
          (total_service_sales (fst c1)) (retail_sales (fst c2))
          (total_sales (fst c3)) (total_fixed_costs (fst c4))
          (total_variable_costs (fst c5)) (profit (fst c6))
          (profit_margin (fst c7)) in
      let p' := snd c7 in
      (Saved,
       mkPage (stylist_objects p') (wage_objects p') (p_stylists p')
              (p_retail_percentage p') (p_fixed_costs p')
              (p_variable_costs_percentages p')
              (p_salary_settings p') (p_trainees p') (p_receptionists p')
              (p_additional_income p')
              (dict_set new_scenario_name
                 (mkScenario scenario_description now stylist_data
                    retail_percentage trainee_data receptionist_data
                    salary_settings fixed_costs variable_costs_percentages
                    metrics)
                 (scenarios p'))
              new_scenario_name)
  else (NameMissing, p).

(** The handler of the button "Load Selected Scenario". *)
Definition load_selected_scenario (scenario_to_load : string)
    (p : page_state) : page_state :=
  match dict_get scenario_to_load (scenarios p) with
  | Some scenario_data =>
      mkPage (stylist_objects p) (wage_objects p)
             (stylist_data scenario_data)
             (sc_retail_percentage scenario_data)
             (sc_fixed_costs scenario_data)
             (sc_variable_costs_percentages scenario_data)
             (sc_salary_settings scenario_data)
             (trainee_data scenario_data)
             (receptionist_data scenario_data)
             (p_additional_income p)
             (scenarios p)
             scenario_to_load
  | None => p
  end.

(** Edits of the Team & Sales tab, as far as they reach the inputs.

    [st.session_state.additional_income[income_name] = income_value] *)
Definition edit_additional_income (income_name : string) (income_value : Qc)
    (p : page_state) : page_state :=
  mkPage (stylist_objects p) (wage_objects p) (p_stylists p)
         (p_retail_percentage p) (p_fixed_costs p)
         (p_variable_costs_percentages p)
         (p_salary_settings p) (p_trainees p) (p_receptionists p)
         (dict_set income_name income_value (p_additional_income p))
         (scenarios p) (current_scenario_name p).

(** [st.session_state.stylists[i]['sales'] = new_value]: the stylist object
    itself is written.  ([i] comes from [enumerate] and is in range.) *)
Definition edit_stylist_sales (i : nat) (new_value : Qc) (p : page_state)
  : page_state :=
  match nth_error (p_stylists p) i with
  | Some r =>
      let o := stylist_objects p r in
      mkPage (fun r' => if Nat.eqb r' r
                        then mkStylist (name o) new_value (guarantee o)
                        else stylist_objects p r')
             (wage_objects p) (p_stylists p)
             (p_retail_percentage p) (p_fixed_costs p)
             (p_variable_costs_percentages p)
             (p_salary_settings p) (p_trainees p) (p_receptionists p)
             (p_additional_income p)
             (scenarios p) (current_scenario_name p)
  | None => p
  end.

(** [st.session_state.retail_percentage = new_value] *)
Definition edit_retail_percentage (new_value : Qc) (p : page_state)
  : page_state :=
  mkPage (stylist_objects p) (wage_objects p) (p_stylists p)
         new_value (p_fixed_costs p)
         (p_variable_costs_percentages p)
         (p_salary_settings p) (p_trainees p) (p_receptionists p)
         (p_additional_income p)
         (scenarios p) (current_scenario_name p).

(** ** The handlers of the Team & Sales tab

    The edits below work on the session by value, like the undo buffer: each
    of them pushes a deep copy before it writes. *)

Definition set_stylists (s : session_state) (l : list stylist)
  : session_state :=
  mkSession l (retail_percentage s) (fixed_costs s)
            (variable_costs_percentages s) (salary_settings s)
            (trainees s) (receptionists s) (additional_income s).

Definition set_retail_percentage (s : session_state) (v : Qc)
  : session_state :=
  mkSession (stylists s) v (fixed_costs s)
            (variable_costs_percentages s) (salary_settings s)
            (trainees s) (receptionists s) (additional_income s).

Definition set_fixed_costs (s : session_state) (v : dict Qc)
  : session_state :=
  mkSession (stylists s) (retail_percentage s) v
            (variable_costs_percentages s) (salary_settings s)
            (trainees s) (receptionists s) (additional_income s).

(** How a handler ends: it returns, or an index is out of range. *)
Inductive outcome : Type :=
  | Returned
  | IndexError.

(** [l[i] = f(l[i])] for an index within the list. *)
Fixpoint list_update {A : Type} (i : nat) (f : A -> A) (l : list A) : list A :=
  match l, i with
  | [], _ => []
  | x :: l', O => f x :: l'
  | x :: l', S i' => x :: list_update i' f l'
  end.

(** [l.pop(i)] for an index within the list: what is left. *)
Fixpoint list_remove_at {A : Type} (i : nat) (l : list A) : list A :=
  match l, i with
  | [], _ => []
  | _ :: l', O => l'
  | x :: l', S i' => x :: list_remove_at i' l'
  end.

(** [str(n)] for a natural number. *)
Definition py_str (n : nat) : string :=
  DecimalString.NilEmpty.string_of_uint (Nat.to_uint n).

(** [update_stylist_sales(i, new_value)] *)
Definition update_stylist_sales (i : nat) (new_value : Qc) (a : app_state)
  : outcome * app_state :=
  let a1 := save_state_for_undo a in
  match nth_error (stylists (session a1)) i with
  | Some _ =>
      (Returned,
       mkApp (set_stylists (session a1)
                (list_update i
                   (fun st => mkStylist (name st) new_value (guarantee st))
                   (stylists (session a1))))
             (undo_stack a1))
  | None => (IndexError, a1)
  end.

(** [update_retail_percentage(new_value)] *)
Definition update_retail_percentage (new_value : Qc) (a : app_state)
  : app_state :=
  let a1 := save_state_for_undo a in
  mkApp (set_retail_percentage (session a1) new_value) (undo_stack a1).

(** The button "Add Stylist". *)
Definition add_stylist (a : app_state) : app_state :=
  let a1 := save_state_for_undo a in
  mkApp (set_stylists (session a1)
           (stylists (session a1)
            ++ [mkStylist
                  (String.append "Stylist "
                     (py_str (List.length (stylists (session a1)) + 1)))
                  0 0]))
        (undo_stack a1).

(** The delete button of row [i]; it is only there when the roster has more
    than one stylist. *)
Definition delete_stylist (i : nat) (a : app_state) : outcome * app_state :=
  if 1 <? List.length (stylists (session a)) then
    let a1 := save_state_for_undo a in
    match nth_error (stylists (session a1)) i with
    | Some _ =>
        (Returned,
         mkApp (set_stylists (session a1)
                  (list_remove_at i (stylists (session a1))))
               (undo_stack a1))
    | None => (IndexError, a1)
    end
  else (Returned, a).

(** The number input of a fixed cost on the Costs tab, when its value
    differs from the stored one. *)
Definition update_fixed_cost (cost_name : string) (cost_value : Qc)
    (a : app_state) : app_state :=
  let a1 := save_state_for_undo a in
  mkApp (set_fixed_costs (session a1)
           (dict_set cost_name cost_value (fixed_costs (session a1))))
        (undo_stack a1).

(** A number input of the additional income on the Team & Sales tab:
    [st.session_state.additional_income[income_name] = income_value].
    Nothing is pushed before the write. *)
Definition update_additional_income (income_name : string)
    (income_value : Qc) (a : app_state) : app_state :=
  mkApp (set_additional_income (session a)
           (dict_set income_name income_value
              (additional_income (session a))))
        (undo_stack a).

(** The edits of the inputs that the handlers above make, and the undo. *)
Inductive edit_event : Type :=
  | AddStylist
  | DeleteStylist (i : nat)
  | SetSales (i : nat) (v : Qc)
  | SetRetailPercentage (v : Qc)
  | SetFixedCost (cost_name : string) (v : Qc)
  | UndoLast.

Definition edit_step (a : app_state) (e : edit_event) : app_state :=
  match e with
  | AddStylist => add_stylist a
  | DeleteStylist i => snd (delete_stylist i a)
  | SetSales i v => snd (update_stylist_sales i v a)
  | SetRetailPercentage v => update_retail_percentage v a
  | SetFixedCost k v => update_fixed_cost k v a
  | UndoLast => snd (undo_last_change a)
  end.

Definition edit_run (a : app_state) (es : list edit_event) : app_state :=
  fold_left edit_step es a.

(** Whether an event pushes the state it finds: every edit does, except a
    delete on a roster of one, which has no button. *)
Definition pushes (a : app_state) (e : edit_event) : bool :=
  match e with
  | UndoLast => false
  | DeleteStylist _ => 1 <? List.length (stylists (session a))
  | _ => true
  end.

(** ** The scenario table: [delete_scenario] and [load_scenarios] *)

Section ScenarioTableOps.

Variable data : Type.

(** [db.delete(scenario)] for the row [first()] returned. *)
Fixpoint delete_first (user_id : Z) (name : string) (db : table data)
  : table data :=
  match db with
  | [] => []
  | r :: db' =>
      if row_matches user_id name r then db'
      else r :: delete_first user_id name db'
  end.

Definition delete_scenario (user_id : Z) (name : string) (db : table data)
  : bool * table data :=
  match query_first user_id name db with
  | Some scenario => (true, delete_first user_id name db)
  | None => (false, db)
  end.

(** [updated_at.strftime("%Y-%m-%d %H:%M")] *)
Variable strftime : nat -> string.

(** A value of the dictionary [load_scenarios] returns: the description, the
    timestamp and the stored payload.  (The payloads the application stores
    have no key 'description' or 'timestamp', so the spread of the payload
    overrides neither.) *)
Record loaded_scenario : Type := mkLoaded
  { ls_description : string;
    ls_timestamp : string;
    ls_data : data }.

Definition load_scenarios (user_id : Z) (db : table data)
  : dict loaded_scenario :=
  let scenarios := filter (row_of_user user_id) db in
  fold_left
    (fun result scenario =>
       dict_set (row_name scenario)
         (mkLoaded (row_description scenario)
                   (strftime (row_updated_at scenario))
                   (row_data_json scenario))
         result)
    scenarios [].

(** The calls a session makes on the table. *)
Inductive table_op : Type :=
  | OpSave (user_id : Z) (name description : string) (d : data) (now : nat)
  | OpDelete (user_id : Z) (name : string).

Definition table_step (db : table data) (op : table_op) : table data :=
  match op with
  | OpSave user_id name description d now =>
      snd (save_scenario user_id name description d now db)
  | OpDelete user_id name => snd (delete_scenario user_id name db)
  end.

Definition table_run (db : table data) (ops : list table_op) : table data :=
  fold_left table_step ops db.

End ScenarioTableOps.

Arguments delete_first {data}.
Arguments delete_scenario {data}.
Arguments mkLoaded {data}.
Arguments ls_description {data}.
Arguments ls_timestamp {data}.
Arguments ls_data {data}.
Arguments load_scenarios {data}.
Arguments OpSave {data}.
Arguments OpDelete {data}.
Arguments table_step {data}.
Arguments table_run {data}.

(** ** Stored user data: [save_user_data], [load_user_data],
       [initialize_user_data], and the session functions of [auth.py]

    The values the application keeps per user are JSON-compatible Python
    values.  The column [data_json] holds [json.dumps] of such a value and
    every reader applies [json.loads]; the model keeps the value itself. *)

#[warnings="-register-all"]
Inductive pyval : Type :=
  | PInt (z : Z)
  | PFloat (q : Qc)
  | PBool (b : bool)
  | PStr (s : string)
  | PList (l : list pyval)
  | PDict (d : list (string * pyval)).

(** [del d[k]] *)
Fixpoint dict_del {V : Type} (k : string) (d : dict V) : dict V :=
  match d with
  | [] => []
  | (k', v') :: d' =>
      if String.eqb k k' then d' else (k', v') :: dict_del k d'
  end.

Record user_data_row : Type := mkUserData
  { ud_user_id : Z;
    ud_data_type : string;
    ud_data_json : pyval;
    ud_updated_at : nat }.

Definition user_data_table : Type := list user_data_row.

Definition ud_matches (user_id : Z) (data_type : string) (r : user_data_row)
  : bool :=
  (Z.eqb (ud_user_id r) user_id && String.eqb (ud_data_type r) data_type)%bool.

Fixpoint ud_update_first (user_id : Z) (data_type : string) (data : pyval)
    (now : nat) (db : user_data_table) : user_data_table :=
  match db with
  | [] => []
  | r :: db' =>
      if ud_matches user_id data_type r
      then mkUserData (ud_user_id r) (ud_data_type r) data now :: db'
      else r :: ud_update_first user_id data_type data now db'
  end.

Definition save_user_data (user_id : Z) (data_type : string) (data : pyval)
    (now : nat) (db : user_data_table) : user_data_table :=
  match find (ud_matches user_id data_type) db with
  | Some existing_data => ud_update_first user_id data_type data now db
  | None => db ++ [mkUserData user_id data_type data now]
  end.

Definition load_user_data (user_id : Z) (data_type : string)
    (db : user_data_table) : option pyval :=
  match find (ud_matches user_id data_type) db with
  | Some user_data => Some (ud_data_json user_data)
  | None => None
  end.

(** The dictionary [default_data] of [initialize_user_data], which is also
    the dictionary [data_types] of [load_user_session_data]. *)
Definition default_data : dict pyval :=
  [ ("stylists"%string,
     PList [PDict [("name"%string, PStr "Stylist 1");
                   ("sales"%string, PInt 0); ("guarantee"%string, PInt 0)]]);
    ("retail_percentage"%string, PFloat 0);
    ("trainees"%string,
     PList [PDict [("name"%string, PStr "Trainee 1");
                   ("wage"%string, PInt 0)]]);
    ("receptionists"%string,
     PList [PDict [("name"%string, PStr "Reception 1");
                   ("wage"%string, PInt 0)]]);
    ("fixed_costs"%string,
     PDict [("Rent"%string, PInt 0); ("Rates, Refuse & Bid"%string, PInt 0);
            ("Water & sewerage"%string, PInt 0); ("R & R"%string, PInt 0);
            ("Utilities"%string, PInt 0); ("Telephone"%string, PInt 0);
            ("Insurance"%string, PInt 0);
            ("Cleaning, laundry etc"%string, PInt 0);
            ("Card fees"%string, PInt 0);
            ("Stationery & printing"%string, PInt 0);
            ("Advertising budget"%string, PInt 0);
            ("PR & promotions budget"%string, PInt 0);
            ("Sundries"%string, PInt 0);
            ("Legal, prof & accountancy"%string, PInt 0);
            ("Bank charges"%string, PInt 0); ("Other 1"%string, PInt 0);
            ("Other 2"%string, PInt 0)]);
    ("variable_costs_percentages"%string,
     PDict [(WAGES, PFloat 0); (RETAIL_COMMISSION, PFloat 0);
            (PROFESSIONAL_STOCK, PFloat 0); (RETAIL_STOCK, PFloat 0);
            (ROYALTIES, PFloat 0)]);
    ("salary_settings"%string,
     PDict [("service_commission_percentage"%string, PFloat 0);
            ("retail_commission_percentage"%string, PFloat 0);
            ("national_insurance_percentage"%string, PFloat 0);
            ("pension_contribution_percentage"%string, PFloat 0)]);
    ("additional_income"%string,
     PDict [("Marketing Support"%string, PInt 0);
            ("Retro Payments"%string, PInt 0);
            ("Training Income"%string, PInt 0);
            ("Rental Income"%string, PInt 0); ("Other 1"%string, PInt 0);
            ("Other 2"%string, PInt 0)]) ].

Definition initialize_user_data (user_id : Z) (now : nat)
    (db : user_data_table) : user_data_table :=
  fold_left
    (fun db item => db ++ [mkUserData user_id (fst item) (snd item) now])
    default_data db.

(** [st.session_state], as far as [auth.py] uses it: the four keys of the
    login, and every other key with its value. *)
Record web_session : Type := mkWeb
  { ws_user_id : option Z;
    ws_username : option string;
    ws_salon_name : option string;
    ws_authenticated : option bool;
    ws_values : dict pyval }.

(** The list [data_types] of [save_user_session_data]. *)
Definition saved_data_types : list string :=
  ["stylists"; "retail_percentage"; "trainees"; "receptionists";
   "fixed_costs"; "variable_costs_percentages"; "salary_settings";
   "additional_income"]%string.

(** The list [data_keys] of [logout]. *)
Definition logout_data_keys : list string :=
  ["stylists"; "retail_percentage"; "trainees"; "receptionists";
   "fixed_costs"; "variable_costs_percentages"; "salary_settings";
   "additional_income"; "scenarios"]%string.

Definition logout (ws : web_session) : web_session :=
  mkWeb None None None None
        (fold_left (fun d key => if dict_mem key d then dict_del key d else d)
                   logout_data_keys (ws_values ws)).

Definition load_user_session_data (ws : web_session) (db : user_data_table)
  : web_session :=
  match ws_user_id ws with
  | None => ws
  | Some user_id =>
      mkWeb (ws_user_id ws) (ws_username ws) (ws_salon_name ws)
            (ws_authenticated ws)
            (fold_left
               (fun d item =>
                  let data_type := fst item in
                  let default_value := snd item in
                  if dict_mem data_type d then d
                  else
                    let loaded_data := load_user_data user_id data_type db in
                    dict_set data_type
                      (match loaded_data with
                       | Some v => v
                       | None => default_value
                       end) d)
               default_data (ws_values ws))
  end.

Definition save_user_session_data (ws : web_session) (now : nat)
    (db : user_data_table) : user_data_table :=
  match ws_user_id ws with
  | None => db
  | Some user_id =>
      fold_left
        (fun db data_type =>
           match dict_get data_type (ws_values ws) with
           | Some v => save_user_data user_id data_type v now db
           | None => db
           end)
        saved_data_types db
  end.

(** What the login form writes after [authenticate_user] succeeded. *)
Definition login_session (ws : web_session) (user_id : Z)
    (username salon_name : string) : web_session :=
  mkWeb (Some user_id) (Some username) (Some salon_name) (Some true)
        (ws_values ws).

(** ** The session cache of scenarios *)

(** [s.replace(' ', '_')] *)
Fixpoint replace_spaces (s : string) : string :=
  match s with
  | EmptyString => EmptyString
  | String c s' =>
      String (if Ascii.eqb c " "%char then "_"%char else c) (replace_spaces s')
  end.

Definition get_embedded_storage_key (scenario_name : string) : string :=
  String.append "salon_scenario_" (replace_spaces scenario_name).

(** The cache is the session key [scenario_cache]: absent ([None]) until one
    of the two functions creates it. *)
Definition save_scenario_to_session_cache {V : Type} (scenario_name : string)
    (scenario_data : V) (scenario_cache : option (dict V))
  : option (dict V) :=
  let cache_key := get_embedded_storage_key scenario_name in
  let cache :=
    match scenario_cache with
    | None => []
    | Some c => c
    end in
  Some (dict_set cache_key scenario_data cache).

Definition load_scenario_from_session_cache {V : Type}
    (scenario_name : string) (scenario_cache : option (dict V))
  : option V * option (dict V) :=
  let cache_key := get_embedded_storage_key scenario_name in
  let cache :=
    match scenario_cache with
    | None => []
    | Some c => c
    end in
  (dict_get cache_key cache, Some cache).

(** ** The delete handler of [scenarios_tab] *)

Inductive delete_outcome : Type :=
  | Deleted
  | RefusedActive
  | NotStored.

(** The handler of the button "Delete Selected Scenario". *)
Definition delete_selected_scenario (scenario_to_load : string)
    (p : page_state) : delete_outcome * page_state :=
  if dict_mem scenario_to_load (scenarios p) then
    if String.eqb scenario_to_load (current_scenario_name p) then
      (RefusedActive, p)
    else
      (Deleted,
       mkPage (stylist_objects p) (wage_objects p) (p_stylists p)
              (p_retail_percentage p) (p_fixed_costs p)
              (p_variable_costs_percentages p)
              (p_salary_settings p) (p_trainees p) (p_receptionists p)
              (p_additional_income p)
              (dict_del scenario_to_load (scenarios p))
              (current_scenario_name p))
  else (NotStored, p).

(** The three buttons of the scenario tab. *)
Inductive scenario_event : Type :=
  | PressSave (name description now : string)
  | PressLoad (name : string)
  | PressDelete (name : string).

Definition scenario_step (p : page_state) (e : scenario_event) : page_state :=
  match e with
  | PressSave name description now =>
      snd (save_current_plan name description now p)
  | PressLoad name => load_selected_scenario name p
  | PressDelete name => snd (delete_selected_scenario name p)
  end.

Definition scenario_run (p : page_state) (es : list scenario_event)
  : page_state :=
  fold_left scenario_step es p.

(** ** The engine in binary64

    Python evaluates the engine in binary64: [52/12] is the float
    4.333333333333333, and every sum, product and quotient is rounded.  The
    module below is [calculate_core_values] once more, line by line, over
    Rocq's primitive binary64 numbers, for the statements that give figures
    or that tie what a call returns to the inputs.  The integers the
    application holds (sales, guarantees, wages, costs) are far below 2^53,
    where Python's integer arithmetic and binary64 arithmetic on the same
    values agree, so every number is a float here. *)

Module Binary64.

Local Open Scope float_scope.

(** [x > y] of Python. *)
Definition py_gt (x y : float) : bool := y <? x.

(** Built-in [max(a, b)]: the first argument unless the second is larger. *)
Definition py_max (a b : float) : float := if py_gt b a then b else a.

(** Built-in [sum], and [acc += x] in a loop from 0: adds from the left. *)
Definition py_sum (l : list float) : float := fold_left PrimFloat.add l 0.

Record stylist : Type := mkStylist
  { name : string; sales : float; guarantee : float }.

Record wage_earner : Type := mkWageEarner
  { w_name : string; wage : float }.

Record salary_settings_t : Type := mkSalarySettings
  { service_commission_percentage : float;
    retail_commission_percentage : float;
    national_insurance_percentage : float;
    pension_contribution_percentage : float }.

Record session_state : Type := mkSession
  { stylists : list stylist;
    retail_percentage : float;
    fixed_costs : dict float;
    variable_costs_percentages : dict float;
    salary_settings : salary_settings_t;
    trainees : list wage_earner;
    receptionists : list wage_earner;
    additional_income : dict float }.

Definition set_variable_costs_percentages (s : session_state)
    (v : dict float) : session_state :=
  mkSession (stylists s) (retail_percentage s) (fixed_costs s) v
            (salary_settings s) (trainees s) (receptionists s)
            (additional_income s).

Record metrics : Type := mkMetrics
  { weekly_service_sales : float;
    weekly_retail_sales : float;
    weekly_total_sales : float;
    weekly_salary_cost : float;
    weekly_stylist_salary_cost : float;
    weekly_trainee_salary_cost : float;
    weekly_receptionist_salary_cost : float;
    weekly_retail_commission : float;
    weekly_ni_cost : float;
    weekly_pension_cost : float;
    weekly_total_salary_cost : float;
    total_service_sales : float;
    retail_sales : float;
    monthly_service_retail_sales : float;
    total_additional_income : float;
    total_sales : float;
    total_fixed_costs : float;
    total_variable_costs : float;
    profit : float;
    profit_margin : float;
    variable_costs : dict float;
    total_salary_cost : float;
    monthly_retail_commission : float;
    total_wage_cost_percentage : float }.

Definition weekly_to_monthly : float := 52 / 12.

Record stylist_pay : Type := mkStylistPay
  { service_commission_amount : float;
    stylist_retail_sales_weekly : float;
    retail_commission_amount : float;
    service_earnings : float;
    total_earnings : float }.

(** Body of [for stylist in st.session_state.stylists]. *)
Definition stylist_payroll
    (weekly_service_sales retail_sales_weekly
     service_commission_percentage retail_commission_percentage : float)
    (st : stylist) : stylist_pay :=
  let weekly_stylist_sales := sales st in
  let service_commission_amount :=
    weekly_stylist_sales * (service_commission_percentage / 100) in
  let stylist_retail_sales_weekly :=
    if py_gt weekly_service_sales 0 then
      let proportion_of_sales := weekly_stylist_sales / weekly_service_sales in
      retail_sales_weekly * proportion_of_sales
    else 0 in
  let retail_commission_amount :=
    stylist_retail_sales_weekly * (retail_commission_percentage / 100) in
  let stylist_guarantee := guarantee st in
  let service_earnings := py_max stylist_guarantee service_commission_amount in
  let total_earnings := service_earnings + retail_commission_amount in
  mkStylistPay service_commission_amount stylist_retail_sales_weekly
               retail_commission_amount service_earnings total_earnings.

(** The two accumulators of the stylist loop:
    [(stylist_weekly_salary_cost, total_weekly_retail_commission)]. *)
Definition stylist_loop
    (weekly_service_sales retail_sales_weekly scp rcp : float)
    (l : list stylist) : float * float :=
  fold_left
    (fun acc st =>
       let p := stylist_payroll weekly_service_sales retail_sales_weekly
                                scp rcp st in
       (fst acc + total_earnings p, snd acc + retail_commission_amount p))
    l (0, 0).

(** The trainee and the receptionist loops: [cost += x['wage']]. *)
Definition wage_loop (l : list wage_earner) : float :=
  fold_left (fun acc w => acc + wage w) l 0.

(** The base a variable-cost percentage applies to. *)
Definition base_value (retail_sales total_service_sales total_sales : float)
    (cost_name : string) : float :=
  if (String.eqb cost_name RETAIL_COMMISSION
      || String.eqb cost_name RETAIL_STOCK)%bool
  then retail_sales
  else if String.eqb cost_name PROFESSIONAL_STOCK
       then total_service_sales
       else total_sales.

(** The loop over [variable_costs_percentages.items()], with its two
    accumulators [(variable_costs, total_variable_costs)]. *)
Definition variable_cost_loop
    (retail_sales total_service_sales total_sales : float)
    (items : dict float) : dict float * float :=
  fold_left
    (fun acc item =>
       let cost_name := fst item in
       let percentage := snd item in
       let cost_value :=
         base_value retail_sales total_service_sales total_sales cost_name
         * (percentage / 100) in
       (dict_set cost_name cost_value (fst acc), snd acc + cost_value))
    items ([], 0).

Definition calculate_core_values (s : session_state)
  : metrics * session_state :=
  let weekly_service_sales := py_sum (map sales (stylists s)) in
  let retail_percentage := retail_percentage s in
  let weekly_retail_sales := weekly_service_sales * (retail_percentage / 100) in
  let weekly_total_sales := weekly_service_sales + weekly_retail_sales in
  let total_service_sales := weekly_service_sales * weekly_to_monthly in
  let retail_sales := weekly_retail_sales * weekly_to_monthly in
  let total_additional_income := py_sum (dict_values (additional_income s)) in
  let monthly_service_retail_sales := weekly_total_sales * weekly_to_monthly in
  let total_sales := monthly_service_retail_sales + total_additional_income in
  let total_fixed_costs := py_sum (dict_values (fixed_costs s)) in
  let salary_settings := salary_settings s in
  let service_commission_percentage :=
    service_commission_percentage salary_settings in
  let retail_commission_percentage :=
    retail_commission_percentage salary_settings in
  let national_insurance_percentage :=
    national_insurance_percentage salary_settings in
  let pension_contribution_percentage :=
    pension_contribution_percentage salary_settings in
  let retail_sales_weekly := retail_sales / weekly_to_monthly in
  let stylist_acc :=
    stylist_loop weekly_service_sales retail_sales_weekly
                 service_commission_percentage retail_commission_percentage
                 (stylists s) in
  let stylist_weekly_salary_cost := fst stylist_acc in
  let total_weekly_retail_commission := snd stylist_acc in
  let trainee_weekly_salary_cost := wage_loop (trainees s) in
  let receptionist_weekly_salary_cost := wage_loop (receptionists s) in
  let total_weekly_salary_cost :=
    stylist_weekly_salary_cost + trainee_weekly_salary_cost
    + receptionist_weekly_salary_cost in
  let national_insurance_cost :=
    total_weekly_salary_cost * (national_insurance_percentage / 100) in
  let pension_contribution_cost :=
    total_weekly_salary_cost * (pension_contribution_percentage / 100) in
  let total_additional_costs :=
    national_insurance_cost + pension_contribution_cost in
  let grand_total_weekly_cost :=
    total_weekly_salary_cost + total_additional_costs in
  let total_salary_cost := grand_total_weekly_cost * weekly_to_monthly in
  let monthly_retail_commission :=
    total_weekly_retail_commission * weekly_to_monthly in
  (* the two assignments into st.session_state.variable_costs_percentages *)
  let vcp1 :=
    if py_gt total_sales 0 then
      dict_set WAGES
        ((total_salary_cost - monthly_retail_commission) / total_sales * 100)
        (variable_costs_percentages s)
    else variable_costs_percentages s in
  let vcp2 :=
    if py_gt retail_sales 0 then
      dict_set RETAIL_COMMISSION
        (monthly_retail_commission / retail_sales * 100) vcp1
    else vcp1 in
  let vc_acc :=
    variable_cost_loop retail_sales total_service_sales total_sales vcp2 in
  let variable_costs := fst vc_acc in
  let total_variable_costs := snd vc_acc in
  let profit := total_sales - total_fixed_costs - total_variable_costs in
  let profit_margin :=
    if py_gt total_sales 0 then profit / total_sales * 100 else 0 in
  (mkMetrics
     weekly_service_sales weekly_retail_sales weekly_total_sales
     total_weekly_salary_cost stylist_weekly_salary_cost
     trainee_weekly_salary_cost receptionist_weekly_salary_cost
     total_weekly_retail_commission national_insurance_cost
     pension_contribution_cost grand_total_weekly_cost
     total_service_sales retail_sales monthly_service_retail_sales
     total_additional_income total_sales total_fixed_costs
     total_variable_costs profit profit_margin variable_costs
     total_salary_cost monthly_retail_commission
     (if py_gt total_sales 0 then total_salary_cost / total_sales * 100
      else 0),
   set_variable_costs_percentages s vcp2).

(** The values the stylist loop goes through, in roster order. *)
Definition stylist_pays (s : session_state) : list stylist_pay :=
  let weekly_service_sales := py_sum (map sales (stylists s)) in
  let weekly_retail_sales :=
    weekly_service_sales * (retail_percentage s / 100) in
  let retail_sales := weekly_retail_sales * weekly_to_monthly in
  map (stylist_payroll weekly_service_sales
         (retail_sales / weekly_to_monthly)
         (service_commission_percentage (salary_settings s))
         (retail_commission_percentage (salary_settings s)))
      (stylists s).

End Binary64.

(** ** Sample values *)

Ltac qc_le := apply Qcle_alt; vm_compute; discriminate.
Ltac qc_lt := apply Qclt_alt; vm_compute; reflexivity.

(** [NoDup] of a list of string literals. *)
Ltac nodup_strings :=
  vm_compute;
  repeat (constructor; [ cbn; intuition discriminate | ]);
  constructor.

(** A salon with two stylists, a trainee and a receptionist. *)
Definition sample_session : session_state :=
  mkSession
    [mkStylist "Stylist 1" (qc 1000) (qc 300); mkStylist "Stylist 2" (qc 600) 0]
    (qc 20)
    [("Rent"%string, qc 1000); ("Utilities"%string, qc 200)]
    [(WAGES, 0); (RETAIL_COMMISSION, 0); (PROFESSIONAL_STOCK, qc 8);
     (RETAIL_STOCK, qc 50); (ROYALTIES, 0)]
    (mkSalarySettings (qc 40) (qc 10) (qc 12) (qc 3))
    [mkWageEarner "Trainee 1" (qc 100)]
    [mkWageEarner "Reception 1" (qc 150)]
    [("Rental Income"%string, qc 200)].

(** The same salon on the scenario tab, with nothing saved yet. *)
Definition sample_page : page_state :=
  mkPage (fun r => if Nat.eqb r 0 then mkStylist "Stylist 1" (qc 1000) (qc 300)
                   else mkStylist "Stylist 2" (qc 600) 0)
         (fun r => if Nat.eqb r 0 then mkWageEarner "Trainee 1" (qc 100)
                   else mkWageEarner "Reception 1" (qc 150))
         [0%nat; 1%nat] (qc 20)
         [("Rent"%string, qc 1000); ("Utilities"%string, qc 200)]
         [(WAGES, 0); (RETAIL_COMMISSION, 0); (PROFESSIONAL_STOCK, qc 8);
          (RETAIL_STOCK, qc 50); (ROYALTIES, 0)]
         (mkSalarySettings (qc 40) (qc 10) (qc 12) (qc 3))
         [0%nat] [1%nat] [("Rental Income"%string, qc 200)]
         [] "Current Plan".

(** A scenario table with two owners. *)
Definition sample_table : table nat :=
  [mkRow 1%Z "Plan A" "first" 10%nat 0%nat 0%nat;
   mkRow 2%Z "Plan A" "other owner" 20%nat 1%nat 1%nat;
   mkRow 1%Z "Plan B" "second" 30%nat 2%nat 2%nat].

(** A session of user 7 that holds two of the data types and a key of its
    own. *)
Definition sample_web_session : web_session :=
  mkWeb (Some 7%Z) (Some "anna"%string) (Some "My Salon"%string) (Some true)
        [("retail_percentage"%string, PFloat (qc 20));
         ("stylists"%string,
          PList [PDict [("name"%string, PStr "Stylist 1");
                        ("sales"%string, PInt 1000);
                        ("guarantee"%string, PInt 300)]]);
         ("show_login"%string, PBool true)].

(** The salon of the one-stylist example in binary64, with a rent of 1000
    and a table of percentages of the initial shape. *)
Definition one_stylist_session : Binary64.session_state :=
  Binary64.mkSession
    [Binary64.mkStylist "Stylist 1" 1000 0] 20
    [("Rent"%string, 1000%float)]
    [(WAGES, 0%float); (RETAIL_COMMISSION, 0%float);
     (PROFESSIONAL_STOCK, 0%float); (RETAIL_STOCK, 0%float);
     (ROYALTIES, 0%float)]
    (Binary64.mkSalarySettings 40 10 0 0)
    [Binary64.mkWageEarner "Trainee 1" 0]
    [Binary64.mkWageEarner "Reception 1" 0]
    [("Rental Income"%string, 0%float)].

(** The sample salon in binary64. *)
Definition sample_session_b64 : Binary64.session_state :=
  Binary64.mkSession
    [Binary64.mkStylist "Stylist 1" 1000 300;
     Binary64.mkStylist "Stylist 2" 600 0]
    20
    [("Rent"%string, 1000%float); ("Utilities"%string, 200%float)]
    [(WAGES, 0%float); (RETAIL_COMMISSION, 0%float);
     (PROFESSIONAL_STOCK, 8%float); (RETAIL_STOCK, 50%float);
     (ROYALTIES, 0%float)]
    (Binary64.mkSalarySettings 40 10 12 3)
    [Binary64.mkWageEarner "Trainee 1" 100]
    [Binary64.mkWageEarner "Reception 1" 150]
    [("Rental Income"%string, 200%float)].

(** * Properties *)

(** ** Numbers and dictionaries *)

Lemma Qcgtb_spec (x y : Qc) : Qcgtb x y = true <-> y < x.
Proof.
  unfold Qcgtb. rewrite Qclt_alt.
  destruct (y ?= x); split; intro H; congruence.
Qed.

Lemma Qcgtb_irrefl (x : Qc) : Qcgtb x x = false.
Proof.
  destruct (Qcgtb x x) eqn:E; [ | reflexivity ].
  apply Qcgtb_spec in E. exfalso. exact (Qclt_not_le _ _ E (Qcle_refl x)).
Qed.

Lemma weekly_to_monthly_exact : weekly_to_monthly = Q2Qc (13 # 3).
Proof. qc_eval. Qed.

Lemma weekly_to_monthly_nonzero : weekly_to_monthly <> 0.
Proof. qc_neq. Qed.

Lemma fold_left_Qcplus (l : list Qc) (a : Qc) :
  fold_left Qcplus l a = a + py_sum l.
Proof.
  unfold py_sum. revert a.
  induction l as [ | x l IH ]; intro a; simpl.
  - ring.
  - rewrite (IH (a + x)), (IH (0 + x)). ring.
Qed.

Lemma py_sum_cons (x : Qc) (l : list Qc) : py_sum (x :: l) = x + py_sum l.
Proof.
  unfold py_sum at 1. simpl. rewrite fold_left_Qcplus. ring.
Qed.

Lemma py_sum_nil : py_sum [] = 0.
Proof. reflexivity. Qed.

Lemma py_sum_app (l1 l2 : list Qc) : py_sum (l1 ++ l2) = py_sum l1 + py_sum l2.
Proof.
  induction l1 as [ | x l1 IH ]; simpl.
  - rewrite py_sum_nil. ring.
  - rewrite !py_sum_cons, IH. ring.
Qed.

Lemma py_sum_zero (l : list Qc) : Forall (fun x => x = 0) l -> py_sum l = 0.
Proof.
  induction 1 as [ | x l Hx _ IH ].
  - reflexivity.
  - rewrite py_sum_cons, Hx, IH. ring.
Qed.

Lemma wage_loop_sum (l : list wage_earner) : wage_loop l = py_sum (map wage l).
Proof.
  unfold wage_loop, py_sum. generalize 0.
  induction l as [ | w l IH ]; intro a; simpl; [ reflexivity | apply IH ].
Qed.

Lemma dict_get_set_same {V : Type} (k : string) (v : V) (d : dict V) :
  dict_get k (dict_set k v d) = Some v.
Proof.
  induction d as [ | [k' v'] d IH ]; simpl.
  - now rewrite String.eqb_refl.
  - destruct (String.eqb k k') eqn:E; simpl.
    + now rewrite String.eqb_refl.
    + now rewrite E.
Qed.

Lemma dict_get_set_other {V : Type} (k k0 : string) (v : V) (d : dict V) :
  String.eqb k0 k = false ->
  dict_get k0 (dict_set k v d) = dict_get k0 d.
Proof.
  intro Hne.
  induction d as [ | [k' v'] d IH ]; simpl.
  - now rewrite Hne.
  - destruct (String.eqb k k') eqn:E; simpl.
    + apply String.eqb_eq in E. subst k'. now rewrite Hne.
    + now rewrite IH.
Qed.

(** Assigning under [k] changes no entry that a filter blind to [k] keeps. *)
Lemma filter_dict_set {V : Type} (f : string -> bool) (k : string) (v : V)
    (d : dict V) :
  f k = false ->
  filter (fun kv => f (fst kv)) (dict_set k v d)
  = filter (fun kv => f (fst kv)) d.
Proof.
  intro Hk.
  induction d as [ | [k' v'] d IH ]; simpl.
  - now rewrite Hk.
  - destruct (String.eqb k k') eqn:E; simpl.
    + apply String.eqb_eq in E. subst k'. now rewrite Hk.
    + now rewrite IH.
Qed.

Lemma dict_set_fresh {V : Type} (k : string) (v : V) (d : dict V) :
  ~ In k (dict_keys d) -> dict_set k v d = d ++ [(k, v)].
Proof.
  induction d as [ | [k' v'] d IH ]; simpl; intro H; [ reflexivity | ].
  destruct (String.eqb k k') eqn:E.
  - apply String.eqb_eq in E. exfalso. apply H. now left.
  - rewrite IH; [ reflexivity | ]. intro Hin. apply H. now right.
Qed.

Lemma dict_keys_set_present {V : Type} (k : string) (v : V) (d : dict V) :
  In k (dict_keys d) -> dict_keys (dict_set k v d) = dict_keys d.
Proof.
  induction d as [ | [k' v'] d IH ]; simpl; intro H; [ contradiction | ].
  destruct (String.eqb k k') eqn:E; simpl.
  - apply String.eqb_eq in E. now subst.
  - f_equal. apply IH. destruct H as [H | H]; [ | exact H ].
    subst k'. rewrite String.eqb_refl in E. discriminate.
Qed.

(** ** The engine: what each returned figure is *)

Section Engine.

Variable s : session_state.

Local Abbreviation m := (fst (calculate_core_values s)).
Local Abbreviation s' := (snd (calculate_core_values s)).

Lemma weekly_service_sales_eq :
  weekly_service_sales m = py_sum (map sales (stylists s)).
Proof. reflexivity. Qed.

Lemma weekly_retail_sales_eq :
  weekly_retail_sales m
  = weekly_service_sales m * (retail_percentage s / qc 100).
Proof. reflexivity. Qed.

Lemma weekly_total_sales_eq :
  weekly_total_sales m = weekly_service_sales m + weekly_retail_sales m.
Proof. reflexivity. Qed.

Lemma total_service_sales_eq :
  total_service_sales m = weekly_service_sales m * weekly_to_monthly.
Proof. reflexivity. Qed.

Lemma retail_sales_eq :
  retail_sales m = weekly_retail_sales m * weekly_to_monthly.
Proof. reflexivity. Qed.

Lemma total_additional_income_eq :
  total_additional_income m = py_sum (dict_values (additional_income s)).
Proof. reflexivity. Qed.

Lemma total_sales_eq :
  total_sales m
  = weekly_total_sales m * weekly_to_monthly + total_additional_income m.
Proof. reflexivity. Qed.

Lemma total_fixed_costs_eq :
  total_fixed_costs m = py_sum (dict_values (fixed_costs s)).
Proof. reflexivity. Qed.

Lemma weekly_salary_cost_eq :
  weekly_salary_cost m
  = weekly_stylist_salary_cost m + weekly_trainee_salary_cost m
    + weekly_receptionist_salary_cost m.
Proof. reflexivity. Qed.

Lemma weekly_total_salary_cost_eq :
  weekly_total_salary_cost m
  = weekly_salary_cost m + (weekly_ni_cost m + weekly_pension_cost m).
Proof. reflexivity. Qed.

Lemma total_salary_cost_eq :
  total_salary_cost m = weekly_total_salary_cost m * weekly_to_monthly.
Proof. reflexivity. Qed.

Lemma monthly_retail_commission_eq :
  monthly_retail_commission m
  = weekly_retail_commission m * weekly_to_monthly.
Proof. reflexivity. Qed.

Lemma profit_eq :
  profit m = total_sales m - total_fixed_costs m - total_variable_costs m.
Proof. reflexivity. Qed.

Lemma profit_margin_eq :
  profit_margin m
  = if Qcgtb (total_sales m) 0 then profit m / total_sales m * qc 100
    else 0.
Proof. reflexivity. Qed.

Lemma total_wage_cost_percentage_eq :
  total_wage_cost_percentage m
  = if Qcgtb (total_sales m) 0
    then total_salary_cost m / total_sales m * qc 100
    else 0.
Proof. reflexivity. Qed.

(** The table of percentages after the call, from the one before it. *)
Lemma updated_percentages_eq :
  variable_costs_percentages s'
  = let vcp1 :=
      if Qcgtb (total_sales m) 0 then
        dict_set WAGES
          ((total_salary_cost m - monthly_retail_commission m)
           / total_sales m * qc 100)
          (variable_costs_percentages s)
      else variable_costs_percentages s in
    if Qcgtb (retail_sales m) 0 then
      dict_set RETAIL_COMMISSION
        (monthly_retail_commission m / retail_sales m * qc 100) vcp1
    else vcp1.
Proof. reflexivity. Qed.

Lemma variable_costs_eq :
  (variable_costs m, total_variable_costs m)
  = variable_cost_loop (retail_sales m) (total_service_sales m)
      (total_sales m) (variable_costs_percentages s').
Proof.
  unfold calculate_core_values. cbn [fst snd variable_costs
    total_variable_costs retail_sales total_service_sales total_sales
    variable_costs_percentages set_variable_costs_percentages].
  symmetry. apply surjective_pairing.
Qed.

End Engine.

(** ** The feedback step *)

(** The monthly figures of the feedback step are the weekly ones times
    52/12, and the weekly salary cost is base + NI + pension. *)
Lemma feedback_step_inputs (s : session_state) :
  let m := fst (calculate_core_values s) in
  total_salary_cost m
  = (weekly_salary_cost m + weekly_ni_cost m + weekly_pension_cost m)
    * (qc 52 / qc 12)
  /\ monthly_retail_commission m = weekly_retail_commission m * (qc 52 / qc 12)
  /\ weekly_ni_cost m
     = weekly_salary_cost m
       * (national_insurance_percentage (salary_settings s) / qc 100)
  /\ weekly_pension_cost m
     = weekly_salary_cost m
       * (pension_contribution_percentage (salary_settings s) / qc 100).
Proof.
  intro m. split; [ | repeat split; reflexivity ].
  unfold m. rewrite total_salary_cost_eq, weekly_total_salary_cost_eq.
  unfold weekly_to_monthly. ring.
Qed.

(** ** The frame of a call *)

(** C4.  A call of [calculate_core_values] changes nothing of the session but
    entries of [variable_costs_percentages] under the two derived keys: the
    rosters, the retail percentage, the fixed costs, the salary settings and
    the additional income are the same afterwards, the three user-editable
    percentages are the same, and the entries of the table under all other
    keys are the same, in the same order. *)
Theorem calculate_core_values_frame (s : session_state) :
  let s' := snd (calculate_core_values s) in
  stylists s' = stylists s
  /\ trainees s' = trainees s
  /\ receptionists s' = receptionists s
  /\ retail_percentage s' = retail_percentage s
  /\ fixed_costs s' = fixed_costs s
  /\ salary_settings s' = salary_settings s
  /\ additional_income s' = additional_income s
  /\ dict_get PROFESSIONAL_STOCK (variable_costs_percentages s')
     = dict_get PROFESSIONAL_STOCK (variable_costs_percentages s)
  /\ dict_get RETAIL_STOCK (variable_costs_percentages s')
     = dict_get RETAIL_STOCK (variable_costs_percentages s)
  /\ dict_get ROYALTIES (variable_costs_percentages s')
     = dict_get ROYALTIES (variable_costs_percentages s)
  /\ filter (fun kv => negb (derived_key (fst kv)))
            (variable_costs_percentages s')
     = filter (fun kv => negb (derived_key (fst kv)))
              (variable_costs_percentages s).
Proof.
  intro s'.
  repeat (split; [ reflexivity | ]).
  unfold s'. rewrite updated_percentages_eq. cbv zeta.
  set (m := fst (calculate_core_values s)).
  destruct (Qcgtb (retail_sales m) 0), (Qcgtb (total_sales m) 0);
    repeat split;
    repeat first
      [ reflexivity
      | rewrite dict_get_set_other by reflexivity
      | rewrite (filter_dict_set (fun k => negb (derived_key k)))
          by reflexivity ].
Qed.

(** The two derived entries can both change: the frame is not smaller. *)
Example both_derived_entries_change :
  let s :=
    mkSession [mkStylist "A"%string (qc 1000) 0] (qc 20) []
              [(WAGES, 0); (RETAIL_COMMISSION, 0); (PROFESSIONAL_STOCK, 0);
               (RETAIL_STOCK, 0); (ROYALTIES, 0)]
              (mkSalarySettings (qc 40) (qc 10) 0 0) [] [] [] in
  let s' := snd (calculate_core_values s) in
  dict_get WAGES (variable_costs_percentages s') <> Some 0
  /\ dict_get RETAIL_COMMISSION (variable_costs_percentages s') <> Some 0.
Proof.
  cbv zeta. split; intro E; vm_compute in E; discriminate E.
Qed.

(** ** The variable-cost breakdown *)

Lemma dict_keys_app {V : Type} (d1 d2 : dict V) :
  dict_keys (d1 ++ d2) = dict_keys d1 ++ dict_keys d2.
Proof. apply map_app. Qed.

Lemma dict_get_map_values {V W : Type} (f : string -> V -> W) (k : string)
    (d : dict V) :
  dict_get k (map (fun item => (fst item, f (fst item) (snd item))) d)
  = option_map (f k) (dict_get k d).
Proof.
  induction d as [ | [k' v'] d IH ]; simpl; [ reflexivity | ].
  destruct (String.eqb k k') eqn:E; [ | exact IH ].
  apply String.eqb_eq in E. now subst.
Qed.

Lemma variable_cost_names_NoDup : NoDup variable_cost_names.
Proof.
  unfold variable_cost_names.
  repeat (constructor;
          [ simpl; intro H;
            repeat (destruct H as [H | H]; [ discriminate H | ]); exact H | ]).
  constructor.
Qed.

(** ** The engine in binary64 *)

Section Binary64Engine.

Import Binary64.
Local Open Scope float_scope.

(** *** Loops as sums

    A loop [acc += f(x)] from 0 adds in the order in which [sum] adds, so the
    two give the same float; no law of arithmetic is used. *)

Lemma b64_fold_add_map {A : Type} (f : A -> float) (l : list A) (a : float) :
  fold_left (fun acc x => acc + f x) l a = fold_left PrimFloat.add (map f l) a.
Proof.
  revert a. induction l as [ | x l IH ]; intro a; cbn [fold_left map].
  - reflexivity.
  - apply IH.
Qed.

Lemma b64_wage_loop_sum (l : list wage_earner) :
  wage_loop l = py_sum (map wage l).
Proof. apply b64_fold_add_map. Qed.

Lemma b64_stylist_loop_from (w r scp rcp : float) (l : list stylist)
    (a b : float) :
  fold_left
    (fun acc st =>
       (fst acc + total_earnings (stylist_payroll w r scp rcp st),
        snd acc + retail_commission_amount (stylist_payroll w r scp rcp st)))
    l (a, b)
  = (fold_left PrimFloat.add
       (map (fun st => total_earnings (stylist_payroll w r scp rcp st)) l) a,
     fold_left PrimFloat.add
       (map (fun st => retail_commission_amount
                         (stylist_payroll w r scp rcp st)) l)
       b).
Proof.
  revert a b. induction l as [ | st l IH ]; intros a b; cbn [fold_left map].
  - reflexivity.
  - cbn [fst snd]. apply IH.
Qed.

Lemma b64_stylist_loop_sum (w r scp rcp : float) (l : list stylist) :
  stylist_loop w r scp rcp l
  = (py_sum (map (fun st => total_earnings (stylist_payroll w r scp rcp st))
                 l),
     py_sum (map (fun st => retail_commission_amount
                              (stylist_payroll w r scp rcp st)) l)).
Proof. apply b64_stylist_loop_from. Qed.

Lemma b64_py_sum_zero (l : list float) :
  Forall (fun x => x = 0) l -> py_sum l = 0.
Proof.
  unfold py_sum. induction 1 as [ | x l Hx _ IH ]; cbn [fold_left].
  - reflexivity.
  - subst x. exact IH.
Qed.

Lemma b64_wage_loop_zero (l : list wage_earner) :
  Forall (fun w => wage w = 0) l -> wage_loop l = 0.
Proof.
  intro H. rewrite b64_wage_loop_sum. apply b64_py_sum_zero.
  apply Forall_map. exact H.
Qed.

(** The variable-cost loop on a table with distinct keys: the breakdown has
    one entry per entry of the table, in its order, and the total is their
    sum in that order. *)
Lemma b64_variable_cost_loop_from (r sv t : float) (items acc_d : dict float)
    (acc_t : float) :
  NoDup (dict_keys acc_d ++ dict_keys items) ->
  fold_left
    (fun acc item =>
       (dict_set (fst item)
          (base_value r sv t (fst item) * (snd item / 100)) (fst acc),
        snd acc + base_value r sv t (fst item) * (snd item / 100)))
    items (acc_d, acc_t)
  = (acc_d
     ++ map (fun item =>
               (fst item, base_value r sv t (fst item) * (snd item / 100)))
            items,
     fold_left PrimFloat.add
       (map (fun item => base_value r sv t (fst item) * (snd item / 100))
            items)
       acc_t).
Proof.
  revert acc_d acc_t.
  induction items as [ | [k p] items IH ]; intros acc_d acc_t Hnd.
  - cbn [fold_left map]. rewrite app_nil_r. reflexivity.
  - cbn [fold_left fst snd map].
    assert (Hk : ~ In k (dict_keys acc_d)).
    { intro Hin. apply NoDup_remove_2 in Hnd. apply Hnd.
      apply in_or_app. now left. }
    rewrite (dict_set_fresh k _ acc_d Hk).
    rewrite IH.
    + rewrite <- app_assoc. reflexivity.
    + rewrite dict_keys_app. cbn [dict_keys map fst app].
      rewrite <- app_assoc. exact Hnd.
Qed.

Lemma b64_variable_cost_loop_spec (r sv t : float) (items : dict float) :
  NoDup (dict_keys items) ->
  variable_cost_loop r sv t items
  = (map (fun item =>
            (fst item, base_value r sv t (fst item) * (snd item / 100)))
         items,
     py_sum (map (fun item => base_value r sv t (fst item) * (snd item / 100))
                 items)).
Proof.
  intro Hnd. exact (b64_variable_cost_loop_from r sv t items [] 0 Hnd).
Qed.

(** *** What a call returns, from the inputs *)

Section Figures.

Variable s : session_state.

Local Abbreviation m := (fst (calculate_core_values s)).
Local Abbreviation s' := (snd (calculate_core_values s)).

Lemma b64_weekly_service_sales_eq :
  weekly_service_sales m = py_sum (map sales (stylists s)).
Proof. reflexivity. Qed.

Lemma b64_weekly_retail_sales_eq :
  weekly_retail_sales m = weekly_service_sales m * (retail_percentage s / 100).
Proof. reflexivity. Qed.

Lemma b64_total_service_sales_eq :
  total_service_sales m = weekly_service_sales m * (52 / 12).
Proof. reflexivity. Qed.

Lemma b64_retail_sales_eq :
  retail_sales m = weekly_retail_sales m * (52 / 12).
Proof. reflexivity. Qed.

Lemma b64_total_sales_eq :
  total_sales m
  = (weekly_service_sales m + weekly_retail_sales m) * (52 / 12)
    + py_sum (dict_values (additional_income s)).
Proof. reflexivity. Qed.

Lemma b64_stylist_acc_eq :
  (weekly_stylist_salary_cost m, weekly_retail_commission m)
  = stylist_loop (weekly_service_sales m) (retail_sales m / (52 / 12))
      (service_commission_percentage (salary_settings s))
      (retail_commission_percentage (salary_settings s))
      (stylists s).
Proof.
  unfold calculate_core_values.
  cbn [fst snd weekly_stylist_salary_cost weekly_retail_commission
       weekly_service_sales retail_sales].
  symmetry. apply surjective_pairing.
Qed.

Lemma b64_weekly_salary_cost_eq :
  weekly_salary_cost m
  = weekly_stylist_salary_cost m + wage_loop (trainees s)
    + wage_loop (receptionists s).
Proof. reflexivity. Qed.

Lemma b64_total_salary_cost_eq :
  total_salary_cost m
  = (weekly_salary_cost m
     + (weekly_salary_cost m
        * (national_insurance_percentage (salary_settings s) / 100)
        + weekly_salary_cost m
          * (pension_contribution_percentage (salary_settings s) / 100)))
    * (52 / 12).
Proof. reflexivity. Qed.

Lemma b64_monthly_retail_commission_eq :
  monthly_retail_commission m = weekly_retail_commission m * (52 / 12).
Proof. reflexivity. Qed.

Lemma b64_profit_eq :
  profit m = total_sales m - total_fixed_costs m - total_variable_costs m.
Proof. reflexivity. Qed.

Lemma b64_total_fixed_costs_eq :
  total_fixed_costs m = py_sum (dict_values (fixed_costs s)).
Proof. reflexivity. Qed.

Lemma b64_updated_percentages_eq :
  variable_costs_percentages s'
  = let vcp1 :=
      if 0 <? total_sales m then
        dict_set WAGES
          ((total_salary_cost m - monthly_retail_commission m)
           / total_sales m * 100)
          (variable_costs_percentages s)
      else variable_costs_percentages s in
    if 0 <? retail_sales m then
      dict_set RETAIL_COMMISSION
        (monthly_retail_commission m / retail_sales m * 100) vcp1
    else vcp1.
Proof. reflexivity. Qed.

Lemma b64_variable_costs_eq :
  (variable_costs m, total_variable_costs m)
  = variable_cost_loop (retail_sales m) (total_service_sales m)
      (total_sales m) (variable_costs_percentages s').
Proof.
  unfold calculate_core_values. cbn [fst snd variable_costs
    total_variable_costs retail_sales total_service_sales total_sales
    variable_costs_percentages set_variable_costs_percentages].
  symmetry. apply surjective_pairing.
Qed.

End Figures.

(** *** The feedback step *)

(** C1.  On every call, [calculate_core_values] leaves under the key
    'Wages/Salaries (excluding retail commission)' the value
    (monthly salary cost - monthly retail commission) / total monthly sales
    * 100 when total monthly sales > 0, and the value that was there
    otherwise; under 'Retail Commission' it leaves
    monthly retail commission / monthly retail sales * 100 when monthly
    retail sales > 0, and the value that was there otherwise.  The four
    monthly figures are those of the inputs of the call, written out below
    in the order in which the code computes them, and they are the figures
    the call returns. *)
Theorem feedback_step_percentages (s : session_state) :
  let settings := salary_settings s in
  let factor := 52 / 12 in
  let weekly_service_sales_ := py_sum (map sales (stylists s)) in
  let weekly_retail_sales_ :=
    weekly_service_sales_ * (retail_percentage s / 100) in
  let monthly_retail_sales := weekly_retail_sales_ * factor in
  let total_monthly_sales :=
    (weekly_service_sales_ + weekly_retail_sales_) * factor
    + py_sum (dict_values (additional_income s)) in
  let retail_commission := fun st =>
    (if 0 <? weekly_service_sales_
     then monthly_retail_sales / factor * (sales st / weekly_service_sales_)
     else 0)
    * (retail_commission_percentage settings / 100) in
  let stylist_total := fun st =>
    py_max (guarantee st)
           (sales st * (service_commission_percentage settings / 100))
    + retail_commission st in
  let base_weekly_salary_cost :=
    py_sum (map stylist_total (stylists s))
    + py_sum (map wage (trainees s))
    + py_sum (map wage (receptionists s)) in
  let monthly_salary_cost :=
    (base_weekly_salary_cost
     + (base_weekly_salary_cost
        * (national_insurance_percentage settings / 100)
        + base_weekly_salary_cost
          * (pension_contribution_percentage settings / 100)))
    * factor in
  let monthly_retail_commission_ :=
    py_sum (map retail_commission (stylists s)) * factor in
  let m := fst (calculate_core_values s) in
  let s' := snd (calculate_core_values s) in
  dict_get WAGES (variable_costs_percentages s')
  = (if 0 <? total_monthly_sales
     then Some ((monthly_salary_cost - monthly_retail_commission_)
                / total_monthly_sales * 100)
     else dict_get WAGES (variable_costs_percentages s))
  /\ dict_get RETAIL_COMMISSION (variable_costs_percentages s')
     = (if 0 <? monthly_retail_sales
        then Some (monthly_retail_commission_ / monthly_retail_sales * 100)
        else dict_get RETAIL_COMMISSION (variable_costs_percentages s))
  /\ total_sales m = total_monthly_sales
  /\ retail_sales m = monthly_retail_sales
  /\ total_salary_cost m = monthly_salary_cost
  /\ monthly_retail_commission m = monthly_retail_commission_.
Proof.
  cbv zeta.
  assert (Hts : total_sales (fst (calculate_core_values s))
                = (py_sum (map sales (stylists s))
                   + py_sum (map sales (stylists s))
                     * (retail_percentage s / 100)) * (52 / 12)
                  + py_sum (dict_values (additional_income s)))
    by reflexivity.
  assert (Hrs : retail_sales (fst (calculate_core_values s))
                = py_sum (map sales (stylists s))
                  * (retail_percentage s / 100) * (52 / 12))
    by reflexivity.
  pose proof (b64_stylist_acc_eq s) as Hacc.
  rewrite b64_stylist_loop_sum in Hacc.
  assert (Hst : weekly_stylist_salary_cost (fst (calculate_core_values s))
                = py_sum
                    (map (fun st =>
                            total_earnings
                              (stylist_payroll
                                 (weekly_service_sales
                                    (fst (calculate_core_values s)))
                                 (retail_sales (fst (calculate_core_values s))
                                  / (52 / 12))
                                 (service_commission_percentage
                                    (salary_settings s))
                                 (retail_commission_percentage
                                    (salary_settings s)) st))
                         (stylists s)))
    by exact (f_equal fst Hacc).
  assert (Hrc : weekly_retail_commission (fst (calculate_core_values s))
                = py_sum
                    (map (fun st =>
                            retail_commission_amount
                              (stylist_payroll
                                 (weekly_service_sales
                                    (fst (calculate_core_values s)))
                                 (retail_sales (fst (calculate_core_values s))
                                  / (52 / 12))
                                 (service_commission_percentage
                                    (salary_settings s))
                                 (retail_commission_percentage
                                    (salary_settings s)) st))
                         (stylists s)))
    by exact (f_equal snd Hacc).
  clear Hacc.
  rewrite Hrs, (b64_weekly_service_sales_eq s) in Hst, Hrc.
  assert (Htsc : total_salary_cost (fst (calculate_core_values s))
                 = _) by exact (b64_total_salary_cost_eq s).
  rewrite (b64_weekly_salary_cost_eq s), !b64_wage_loop_sum, Hst in Htsc.
  assert (Hmrc : monthly_retail_commission (fst (calculate_core_values s))
                 = _) by exact (b64_monthly_retail_commission_eq s).
  rewrite Hrc in Hmrc.
  rewrite b64_updated_percentages_eq. cbv zeta.
  rewrite Htsc, Hmrc, Hts, Hrs.
  split; [ | split; [ | repeat split ] ].
  - destruct (0 <? py_sum (map sales (stylists s))
                   * (retail_percentage s / 100) * (52 / 12)),
      (0 <? (py_sum (map sales (stylists s))
             + py_sum (map sales (stylists s))
               * (retail_percentage s / 100)) * (52 / 12)
            + py_sum (dict_values (additional_income s)));
      repeat first
        [ reflexivity
        | apply dict_get_set_same
        | rewrite dict_get_set_other by reflexivity ].
  - destruct (0 <? py_sum (map sales (stylists s))
                   * (retail_percentage s / 100) * (52 / 12)),
      (0 <? (py_sum (map sales (stylists s))
             + py_sum (map sales (stylists s))
               * (retail_percentage s / 100)) * (52 / 12)
            + py_sum (dict_values (additional_income s)));
      repeat first
        [ reflexivity
        | apply dict_get_set_same
        | rewrite dict_get_set_other by reflexivity ].
Qed.

(** *** The variable-cost breakdown *)

(** The feedback step writes under the two derived keys only. *)
Lemma b64_updated_percentages_other (s : session_state) (k : string) :
  derived_key k = false ->
  dict_get k (variable_costs_percentages (snd (calculate_core_values s)))
  = dict_get k (variable_costs_percentages s).
Proof.
  intro Hk. unfold derived_key in Hk. apply orb_false_iff in Hk.
  destruct Hk as [Hw Hr].
  rewrite b64_updated_percentages_eq. cbv zeta.
  destruct (0 <? retail_sales (fst (calculate_core_values s))),
    (0 <? total_sales (fst (calculate_core_values s)));
    repeat first
      [ reflexivity
      | rewrite dict_get_set_other by assumption ].
Qed.

(** The feedback step keeps the key set of a table that holds the two
    derived keys. *)
Lemma b64_updated_percentages_keys (s : session_state) :
  In WAGES (dict_keys (variable_costs_percentages s)) ->
  In RETAIL_COMMISSION (dict_keys (variable_costs_percentages s)) ->
  dict_keys (variable_costs_percentages (snd (calculate_core_values s)))
  = dict_keys (variable_costs_percentages s).
Proof.
  intros Hw Hr. rewrite b64_updated_percentages_eq. cbv zeta.
  destruct (0 <? retail_sales (fst (calculate_core_values s))),
    (0 <? total_sales (fst (calculate_core_values s)));
    repeat first
      [ reflexivity
      | rewrite dict_keys_set_present
      | assumption ].
Qed.

(** C3.  When the table of percentages has the five categories as its keys,
    the breakdown [calculate_core_values] returns has the same five keys;
    the value under each key is base * (percentage / 100), where the
    percentage is the one the table holds after the feedback step (for the
    three categories the user edits, the percentage of the input) and the
    base is, from the inputs of the call, monthly retail sales for 'Retail
    Commission' and 'Retail Stock', monthly service sales for 'Professional
    Stock' and total monthly sales, additional income included, for the two
    others; and [total_variable_costs] is the sum of the five values, added
    in the order of the table. *)
Theorem variable_cost_breakdown (s : session_state)
    (Hkeys : Permutation (dict_keys (variable_costs_percentages s))
                         variable_cost_names) :
  let factor := 52 / 12 in
  let weekly_service_sales_ := py_sum (map sales (stylists s)) in
  let weekly_retail_sales_ :=
    weekly_service_sales_ * (retail_percentage s / 100) in
  let monthly_service_sales := weekly_service_sales_ * factor in
  let monthly_retail_sales := weekly_retail_sales_ * factor in
  let total_monthly_sales :=
    (weekly_service_sales_ + weekly_retail_sales_) * factor
    + py_sum (dict_values (additional_income s)) in
  let base := fun cost_name =>
    if (String.eqb cost_name "Retail Commission"
        || String.eqb cost_name "Retail Stock")%bool
    then monthly_retail_sales
    else if String.eqb cost_name "Professional Stock"
         then monthly_service_sales
         else total_monthly_sales in
  let m := fst (calculate_core_values s) in
  let s' := snd (calculate_core_values s) in
  (forall k,
      dict_get k (variable_costs m)
      = option_map (fun percentage => base k * (percentage / 100))
                   (dict_get k (variable_costs_percentages s')))
  /\ (forall k,
         k <> WAGES -> k <> RETAIL_COMMISSION ->
         dict_get k (variable_costs_percentages s')
         = dict_get k (variable_costs_percentages s))
  /\ dict_keys (variable_costs m) = dict_keys (variable_costs_percentages s)
  /\ Permutation (dict_keys (variable_costs m)) variable_cost_names
  /\ total_variable_costs m = py_sum (dict_values (variable_costs m))
  /\ base RETAIL_COMMISSION = monthly_retail_sales
  /\ base RETAIL_STOCK = monthly_retail_sales
  /\ base PROFESSIONAL_STOCK = monthly_service_sales
  /\ base WAGES = total_monthly_sales
  /\ base ROYALTIES = total_monthly_sales.
Proof.
  cbv zeta.
  assert (Hw : In WAGES (dict_keys (variable_costs_percentages s))).
  { apply (Permutation_in _ (Permutation_sym Hkeys)). simpl. auto. }
  assert (Hr : In RETAIL_COMMISSION
                  (dict_keys (variable_costs_percentages s))).
  { apply (Permutation_in _ (Permutation_sym Hkeys)). simpl. auto. }
  pose proof (b64_updated_percentages_keys s Hw Hr) as Hk'.
  assert (Hnd : NoDup (dict_keys (variable_costs_percentages
                                    (snd (calculate_core_values s))))).
  { rewrite Hk'.
    exact (Permutation_NoDup (Permutation_sym Hkeys)
             variable_cost_names_NoDup). }
  pose proof (b64_variable_costs_eq s) as Hloop.
  rewrite (b64_variable_cost_loop_spec _ _ _ _ Hnd) in Hloop.
  assert (Hvc : variable_costs (fst (calculate_core_values s)) = _)
    by exact (f_equal fst Hloop).
  assert (Htot : total_variable_costs (fst (calculate_core_values s)) = _)
    by exact (f_equal snd Hloop).
  clear Hloop. cbn [fst snd] in Hvc, Htot.
  assert (Hkk : dict_keys (variable_costs (fst (calculate_core_values s)))
                = dict_keys (variable_costs_percentages
                               (snd (calculate_core_values s)))).
  { rewrite Hvc. unfold dict_keys. rewrite map_map. reflexivity. }
  split; [ | split; [ | split; [ | split; [ | split ] ] ] ].
  - intro k. rewrite Hvc.
    exact (dict_get_map_values
             (fun cost_name percentage =>
                base_value (retail_sales (fst (calculate_core_values s)))
                  (total_service_sales (fst (calculate_core_values s)))
                  (total_sales (fst (calculate_core_values s))) cost_name
                * (percentage / 100))
             k _).
  - intros k Hkw Hkr. apply b64_updated_percentages_other.
    unfold derived_key. apply orb_false_iff.
    split; apply String.eqb_neq; assumption.
  - rewrite Hkk. exact Hk'.
  - rewrite Hkk, Hk'. exact Hkeys.
  - rewrite Htot, Hvc. unfold dict_values. rewrite map_map. reflexivity.
  - repeat split.
Qed.

(** *** The one-stylist example *)

(** C2, as the code computes it.  One stylist with weekly sales 1000 and
    guarantee 0, retail percentage 20, service commission 40 per cent, retail
    commission 10 per cent, no national insurance or pension, every wage and
    every additional income 0; any fixed costs and any table of percentages.
    The weekly figures are the ones of the example, exactly; total monthly
    sales are exactly 5200; the profit is 5200 less the fixed costs less the
    variable costs.  The weekly-to-monthly factor is the binary64 quotient
    52/12 = 4.333333333333333, and the monthly salary cost, 420 times it, is
    1819.9999999999998: 2^-42 less than 1820. *)
Theorem one_stylist_example (stylist_name : string)
    (fc vcp ai : dict float) (tr re : list wage_earner)
    (Htr : Forall (fun w => wage w = 0) tr)
    (Hre : Forall (fun w => wage w = 0) re)
    (Hai : Forall (fun x => x = 0) (dict_values ai)) :
  let s :=
    mkSession [mkStylist stylist_name 1000 0] 20 fc vcp
              (mkSalarySettings 40 10 0 0) tr re ai in
  let m := fst (calculate_core_values s) in
  weekly_retail_sales m = 200
  /\ stylist_pays s = [mkStylistPay 400 200 20 400 420]
  /\ weekly_salary_cost m = 420
  /\ weekly_total_salary_cost m = 420
  /\ weekly_to_monthly = 0x1.1555555555555p+2
  /\ total_salary_cost m = 420 * weekly_to_monthly
  /\ total_salary_cost m = 0x1.c6fffffffffffp+10
  /\ 1820 - total_salary_cost m = 0x1p-42
  /\ total_sales m = 5200
  /\ profit m = 5200 - py_sum (dict_values fc) - total_variable_costs m.
Proof.
  cbv zeta.
  set (s := mkSession [mkStylist stylist_name 1000 0] 20 fc vcp
                      (mkSalarySettings 40 10 0 0) tr re ai).
  assert (Hwrs : weekly_retail_sales (fst (calculate_core_values s)) = 200)
    by reflexivity.
  assert (Hpays : stylist_pays s = [mkStylistPay 400 200 20 400 420])
    by reflexivity.
  pose proof (b64_stylist_acc_eq s) as Hacc.
  assert (Hst : weekly_stylist_salary_cost (fst (calculate_core_values s))
                = 420)
    by (etransitivity; [ exact (f_equal fst Hacc) | reflexivity ]).
  clear Hacc.
  assert (Hwsc : weekly_salary_cost (fst (calculate_core_values s)) = 420).
  { rewrite (b64_weekly_salary_cost_eq s), Hst.
    change (trainees s) with tr. change (receptionists s) with re.
    rewrite (b64_wage_loop_zero tr Htr), (b64_wage_loop_zero re Hre).
    reflexivity. }
  assert (Htsc : total_salary_cost (fst (calculate_core_values s))
                 = 420 * weekly_to_monthly).
  { rewrite (b64_total_salary_cost_eq s), Hwsc. reflexivity. }
  assert (Hts : total_sales (fst (calculate_core_values s)) = 5200).
  { rewrite (b64_total_sales_eq s), (b64_weekly_retail_sales_eq s).
    rewrite (b64_weekly_service_sales_eq s).
    change (additional_income s) with ai.
    rewrite (b64_py_sum_zero _ Hai). reflexivity. }
  split; [ exact Hwrs | ]. split; [ exact Hpays | ].
  split; [ exact Hwsc | ].
  split.
  { change (weekly_total_salary_cost (fst (calculate_core_values s)))
      with (weekly_salary_cost (fst (calculate_core_values s))
            + (weekly_salary_cost (fst (calculate_core_values s)) * (0 / 100)
               + weekly_salary_cost (fst (calculate_core_values s))
                 * (0 / 100))).
    rewrite Hwsc. reflexivity. }
  split; [ reflexivity | ]. split; [ exact Htsc | ].
  split; [ rewrite Htsc; reflexivity | ].
  split; [ rewrite Htsc; reflexivity | ].
  split; [ exact Hts | ].
  rewrite (b64_profit_eq s), Hts. reflexivity.
Qed.

(** C2 at the salon of the example with a rent of 1000. *)
Lemma one_stylist_example_witness :
  let fc := [("Rent"%string, 1000)] in
  let vcp := [(WAGES, 0); (RETAIL_COMMISSION, 0); (PROFESSIONAL_STOCK, 0);
              (RETAIL_STOCK, 0); (ROYALTIES, 0)] in
  let ai := [("Rental Income"%string, 0)] in
  let tr := [mkWageEarner "Trainee 1" 0] in
  let re := [mkWageEarner "Reception 1" 0] in
  let s :=
    mkSession [mkStylist "Stylist 1" 1000 0] 20 fc vcp
              (mkSalarySettings 40 10 0 0) tr re ai in
  let m := fst (calculate_core_values s) in
  Forall (fun w => wage w = 0) tr
  /\ Forall (fun w => wage w = 0) re
  /\ Forall (fun x => x = 0) (dict_values ai)
  /\ stylist_pays s = [mkStylistPay 400 200 20 400 420]
  /\ total_salary_cost m = 0x1.c6fffffffffffp+10
  /\ total_sales m = 5200
  /\ profit m = 5200 - py_sum (dict_values fc) - total_variable_costs m.
Proof.
  intros fc vcp ai tr re s m.
  assert (Htr : Forall (fun w => wage w = 0) tr)
    by (repeat constructor).
  assert (Hre : Forall (fun w => wage w = 0) re)
    by (repeat constructor).
  assert (Hai : Forall (fun x => x = 0) (dict_values ai))
    by (repeat constructor).
  destruct (one_stylist_example "Stylist 1" fc vcp ai tr re Htr Hre Hai)
    as (_ & Hpays & _ & _ & _ & _ & Htsc & _ & Hts & Hprofit).
  split; [ exact Htr | ]. split; [ exact Hre | ]. split; [ exact Hai | ].
  split; [ exact Hpays | ]. split; [ exact Htsc | ].
  split; [ exact Hts | exact Hprofit ].
Defined.

(** C2 as stated fails: the monthly salary cost of the example is not
    1820. *)
Lemma one_stylist_counterexample :
  ~ (total_salary_cost (fst (calculate_core_values one_stylist_session))
     = 1820).
Proof.
  intro E.
  apply (f_equal (fun x => PrimFloat.eqb x 1820)) in E.
  vm_compute in E. discriminate E.
Qed.

(** C3 at the sample salon: 'Professional Stock' at 8 per cent of monthly
    service sales, 'Retail Stock' at 50 per cent of monthly retail sales. *)
Lemma variable_cost_breakdown_witness :
  let m := fst (calculate_core_values sample_session_b64) in
  Permutation (dict_keys (variable_costs_percentages sample_session_b64))
              variable_cost_names
  /\ dict_get PROFESSIONAL_STOCK (variable_costs m)
     = Some ((1000 + 600) * (52 / 12) * (8 / 100))
  /\ dict_get RETAIL_STOCK (variable_costs m)
     = Some ((1000 + 600) * (20 / 100) * (52 / 12) * (50 / 100))
  /\ dict_get ROYALTIES (variable_costs m)
     = Some ((((1000 + 600) + (1000 + 600) * (20 / 100)) * (52 / 12) + 200)
             * (0 / 100))
  /\ dict_keys (variable_costs m) = variable_cost_names
  /\ total_variable_costs m = py_sum (dict_values (variable_costs m)).
Proof.
  intro m.
  assert (Hkeys : Permutation
                    (dict_keys (variable_costs_percentages sample_session_b64))
                    variable_cost_names)
    by exact (Permutation_refl _).
  destruct (variable_cost_breakdown sample_session_b64 Hkeys)
    as (Hget & _ & Hk & _ & Htot & _).
  split; [ exact Hkeys | ].
  split; [ exact (Hget PROFESSIONAL_STOCK) | ].
  split; [ exact (Hget RETAIL_STOCK) | ].
  split; [ exact (Hget ROYALTIES) | ].
  split; [ exact Hk | exact Htot ].
Defined.

End Binary64Engine.

(** ** The stylist loop *)

Lemma stylist_loop_from (w r scp rcp : Qc) (l : list stylist) (a b : Qc) :
  fold_left
    (fun acc st =>
       (fst acc + total_earnings (stylist_payroll w r scp rcp st),
        snd acc + retail_commission_amount (stylist_payroll w r scp rcp st)))
    l (a, b)
  = (a + py_sum (map total_earnings (map (stylist_payroll w r scp rcp) l)),
     b + py_sum (map retail_commission_amount
                     (map (stylist_payroll w r scp rcp) l))).
Proof.
  revert a b.
  induction l as [ | st l IH ]; intros a b; cbn [fold_left map fst snd].
  - rewrite py_sum_nil. f_equal; ring.
  - rewrite IH, !py_sum_cons. f_equal; ring.
Qed.

Lemma stylist_loop_sum (w r scp rcp : Qc) (l : list stylist) :
  stylist_loop w r scp rcp l
  = (py_sum (map total_earnings (map (stylist_payroll w r scp rcp) l)),
     py_sum (map retail_commission_amount
                 (map (stylist_payroll w r scp rcp) l))).
Proof.
  pose proof (stylist_loop_from w r scp rcp l 0 0) as H.
  etransitivity; [ exact H | ]. f_equal; ring.
Qed.

(** The stylist salary cost and the retail commission of a week are the sums
    of the per-stylist totals and retail commissions. *)
Lemma weekly_stylist_figures (s : session_state) :
  weekly_stylist_salary_cost (fst (calculate_core_values s))
  = py_sum (map total_earnings (stylist_pays s))
  /\ weekly_retail_commission (fst (calculate_core_values s))
     = py_sum (map retail_commission_amount (stylist_pays s)).
Proof.
  pose proof (stylist_loop_sum
                (weekly_service_sales (fst (calculate_core_values s)))
                (retail_sales (fst (calculate_core_values s))
                 / weekly_to_monthly)
                (service_commission_percentage (salary_settings s))
                (retail_commission_percentage (salary_settings s))
                (stylists s)) as H.
  split.
  - apply (f_equal fst) in H. exact H.
  - apply (f_equal snd) in H. exact H.
Qed.

Lemma weekly_wage_figures (s : session_state) :
  weekly_trainee_salary_cost (fst (calculate_core_values s))
  = py_sum (map wage (trainees s))
  /\ weekly_receptionist_salary_cost (fst (calculate_core_values s))
     = py_sum (map wage (receptionists s)).
Proof.
  split; apply wage_loop_sum.
Qed.

(** ** The zero-sales boundary *)

Lemma stylist_share_without_sales (r scp rcp : Qc) (st : stylist) :
  stylist_retail_sales_weekly (stylist_payroll 0 r scp rcp st) = 0.
Proof. reflexivity. Qed.

(** C5, as the code has it.  When every stylist's weekly sales are 0, weekly
    service and retail sales are 0, every stylist's retail share is 0 and
    total monthly sales are the total additional income; when the total
    additional income is 0 as well, profit margin and total wage cost
    percentage are 0. *)
Theorem zero_sales_boundary (s : session_state)
    (Hzero : Forall (fun st => sales st = 0) (stylists s)) :
  let m := fst (calculate_core_values s) in
  weekly_service_sales m = 0
  /\ weekly_retail_sales m = 0
  /\ Forall (fun p => stylist_retail_sales_weekly p = 0) (stylist_pays s)
  /\ total_sales m = total_additional_income m
  /\ (total_additional_income m = 0 ->
      profit_margin m = 0 /\ total_wage_cost_percentage m = 0).
Proof.
  cbv zeta.
  assert (Hws : weekly_service_sales (fst (calculate_core_values s)) = 0).
  { rewrite weekly_service_sales_eq. apply py_sum_zero.
    apply Forall_map. exact Hzero. }
  assert (Hwr : weekly_retail_sales (fst (calculate_core_values s)) = 0).
  { rewrite weekly_retail_sales_eq, Hws. ring. }
  assert (Hts : total_sales (fst (calculate_core_values s))
                = total_additional_income (fst (calculate_core_values s))).
  { rewrite total_sales_eq, weekly_total_sales_eq, Hws, Hwr. ring. }
  split; [ exact Hws | ]. split; [ exact Hwr | ].
  split; [ | split; [ exact Hts | ] ].
  - unfold stylist_pays. rewrite Hws. apply Forall_map.
    apply Forall_forall. intros st _. apply stylist_share_without_sales.
  - intro Hai.
    rewrite profit_margin_eq, total_wage_cost_percentage_eq, Hts, Hai.
    rewrite Qcgtb_irrefl. split; reflexivity.
Qed.

(** C5 at a salon without sales and without additional income, with a
    trainee on a wage of 100 and a rent of 1000. *)
Lemma zero_sales_boundary_witness :
  let s :=
    mkSession [mkStylist "Stylist 1" 0 (qc 300); mkStylist "Stylist 2" 0 0]
              (qc 20) [("Rent"%string, qc 1000)]
              [(WAGES, 0); (RETAIL_COMMISSION, 0); (PROFESSIONAL_STOCK, qc 8);
               (RETAIL_STOCK, qc 50); (ROYALTIES, 0)]
              (mkSalarySettings (qc 40) (qc 10) (qc 12) (qc 3))
              [mkWageEarner "Trainee 1" (qc 100)] []
              [("Rental Income"%string, 0)] in
  let m := fst (calculate_core_values s) in
  Forall (fun st => sales st = 0) (stylists s)
  /\ total_additional_income m = 0
  /\ weekly_retail_sales m = 0
  /\ profit_margin m = 0
  /\ total_wage_cost_percentage m = 0.
Proof.
  intros s m.
  assert (Hzero : Forall (fun st => sales st = 0) (stylists s))
    by (repeat constructor).
  assert (Hai : total_additional_income m = 0) by qc_eval.
  destruct (zero_sales_boundary s Hzero) as (_ & Hwr & _ & _ & Hratio).
  destruct (Hratio Hai) as (Hpm & Hwp).
  repeat split; assumption.
Defined.

(** C5 as stated fails: without sales but with a rental income of 1000 and
    a trainee on a wage of 100, total monthly sales are 1000, the total wage
    cost percentage is 130/3 and the profit margin 170/3. *)
Lemma zero_sales_counterexample :
  ~ (forall s : session_state,
        Forall (fun st => sales st = 0) (stylists s) ->
        let m := fst (calculate_core_values s) in
        weekly_retail_sales m = 0
        /\ Forall (fun p => stylist_retail_sales_weekly p = 0) (stylist_pays s)
        /\ profit_margin m = 0
        /\ total_wage_cost_percentage m = 0).
Proof.
  intro H.
  specialize
    (H (mkSession [mkStylist "Stylist 1" 0 0] 0 []
          [(WAGES, 0); (RETAIL_COMMISSION, 0); (PROFESSIONAL_STOCK, 0);
           (RETAIL_STOCK, 0); (ROYALTIES, 0)]
          (mkSalarySettings 0 0 0 0)
          [mkWageEarner "Trainee 1" (qc 100)]
          [mkWageEarner "Reception 1" 0]
          [("Rental Income"%string, qc 1000)])).
  cbv zeta in H.
  destruct H as (_ & _ & Hpm & _); [ repeat constructor | ].
  revert Hpm. qc_neq.
Qed.

(** The figures of that input. *)
Example zero_sales_with_income_figures :
  let m :=
    fst (calculate_core_values
           (mkSession [mkStylist "Stylist 1" 0 0] 0 []
              [(WAGES, 0); (RETAIL_COMMISSION, 0); (PROFESSIONAL_STOCK, 0);
               (RETAIL_STOCK, 0); (ROYALTIES, 0)]
              (mkSalarySettings 0 0 0 0)
              [mkWageEarner "Trainee 1" (qc 100)]
              [mkWageEarner "Reception 1" 0]
              [("Rental Income"%string, qc 1000)])) in
  total_sales m = qc 1000
  /\ total_wage_cost_percentage m = qc 130 / qc 3
  /\ profit_margin m = qc 170 / qc 3.
Proof.
  cbv zeta. repeat split; qc_eval.
Qed.

(** ** The undo buffer *)

Open Scope nat_scope.

Lemma list_pop_app {A : Type} (l : list A) (x : A) :
  list_pop (l ++ [x]) = Some (l, x).
Proof.
  unfold list_pop. rewrite rev_unit, rev_involutive. reflexivity.
Qed.

Lemma list_pop_nil {A : Type} : list_pop (@nil A) = None.
Proof. reflexivity. Qed.

Lemma list_pop_length {A : Type} (l rest : list A) (x : A) :
  list_pop l = Some (rest, x) -> List.length l = S (List.length rest).
Proof.
  unfold list_pop. intro H.
  destruct (rev l) as [ | y r ] eqn:E; [ discriminate H | ].
  injection H as <- <-.
  rewrite <- (rev_involutive l), E. cbn [rev].
  rewrite length_app. cbn [List.length]. lia.
Qed.

Lemma tl_length {A : Type} (l : list A) :
  List.length (tl l) = List.length l - 1.
Proof. destruct l; simpl; lia. Qed.

Lemma tl_skipn {A : Type} (k : nat) (l : list A) :
  tl (skipn k l) = skipn (S k) l.
Proof.
  revert l. induction k as [ | k IH ]; intro l.
  - destruct l; reflexivity.
  - destruct l as [ | x l ]; [ reflexivity | ].
    rewrite !skipn_cons. rewrite IH. destruct l; reflexivity.
Qed.

Lemma save_state_for_undo_stack (a : app_state) :
  undo_stack (save_state_for_undo a)
  = (if 10 <=? List.length (undo_stack a) then tl (undo_stack a)
     else undo_stack a) ++ [snapshot (session a)].
Proof. reflexivity. Qed.

(** A push keeps the bound. *)
Lemma save_state_for_undo_bounded (a : app_state) :
  List.length (undo_stack a) <= 10 ->
  List.length (undo_stack (save_state_for_undo a)) <= 10.
Proof.
  intro H. rewrite save_state_for_undo_stack, length_app. cbn [List.length].
  destruct (10 <=? List.length (undo_stack a)) eqn:E.
  - rewrite tl_length. apply Nat.leb_le in E. lia.
  - apply Nat.leb_gt in E. lia.
Qed.

(** An undo never lengthens the stack. *)
Lemma undo_last_change_shrinks (a : app_state) :
  List.length (undo_stack (snd (undo_last_change a)))
  <= List.length (undo_stack a).
Proof.
  unfold undo_last_change.
  destruct (list_pop (undo_stack a)) as [ [rest previous_state] | ] eqn:E.
  - apply list_pop_length in E. cbn [snd undo_stack]. lia.
  - cbn [snd]. lia.
Qed.

Lemma history_step_bounded (a : app_state) (e : history_event) :
  List.length (undo_stack a) <= 10 ->
  List.length (undo_stack (history_step a e)) <= 10.
Proof.
  intro H. destruct e as [ s | | ]; cbn [history_step].
  - exact H.
  - apply save_state_for_undo_bounded. exact H.
  - pose proof (undo_last_change_shrinks a). lia.
Qed.

Lemma history_run_bounded (es : list history_event) (a : app_state) :
  List.length (undo_stack a) <= 10 ->
  List.length (undo_stack (history_run a es)) <= 10.
Proof.
  revert a. induction es as [ | e es IH ]; intros a H.
  - exact H.
  - cbn [history_run fold_left]. apply IH. apply history_step_bounded.
    exact H.
Qed.

Lemma push_each_snoc (a : app_state) (l : list session_state)
    (s : session_state) :
  push_each a (l ++ [s])
  = save_state_for_undo (mkApp s (undo_stack (push_each a l))).
Proof.
  unfold push_each. rewrite fold_left_app. reflexivity.
Qed.

(** After any number of pushes onto the empty stack, the stack holds the
    last ten of the pushed states, oldest first. *)
Lemma push_each_last_ten (s0 : session_state) (l : list session_state) :
  undo_stack (push_each (initial_app s0) l)
  = skipn (List.length l - 10) (map snapshot l).
Proof.
  induction l as [ | s l IH ] using rev_ind.
  - reflexivity.
  - rewrite push_each_snoc, save_state_for_undo_stack.
    cbn [undo_stack session]. rewrite IH.
    rewrite length_skipn, length_map, map_app, length_app.
    cbn [List.length map].
    destruct (10 <=? List.length l - (List.length l - 10)) eqn:E.
    + apply Nat.leb_le in E.
      rewrite tl_skipn, skipn_app, length_map.
      replace (List.length l + 1 - 10) with (S (List.length l - 10)) by lia.
      replace (S (List.length l - 10) - List.length l) with 0 by lia.
      reflexivity.
    + apply Nat.leb_gt in E.
      replace (List.length l - 10) with 0 by lia.
      replace (List.length l + 1 - 10) with 0 by lia.
      reflexivity.
Qed.

(** C8.  The undo stack never holds more than 10 entries, whatever the
    session does from start-up; a push onto a stack of 10 drops the oldest
    entry and appends the new one; after 11 pushes the stack holds the last
    10 pushed states and not the first; an undo on the empty stack returns
    False and changes nothing. *)
Theorem undo_stack_bounded :
  (forall (s : session_state) (es : list history_event),
      List.length (undo_stack (history_run (initial_app s) es)) <= 10)
  /\ (forall a : app_state,
         List.length (undo_stack a) = 10 ->
         undo_stack (save_state_for_undo a)
         = tl (undo_stack a) ++ [snapshot (session a)]
         /\ List.length (undo_stack (save_state_for_undo a)) = 10)
  /\ (forall (s0 : session_state) (l : list session_state),
         undo_stack (push_each (initial_app s0) l)
         = skipn (List.length l - 10) (map snapshot l))
  /\ (forall s0 s1 s2 s3 s4 s5 s6 s7 s8 s9 s10 s11 : session_state,
         undo_stack
           (push_each (initial_app s0)
              [s1; s2; s3; s4; s5; s6; s7; s8; s9; s10; s11])
         = map snapshot [s2; s3; s4; s5; s6; s7; s8; s9; s10; s11])
  /\ (forall a : app_state,
         undo_stack a = [] -> undo_last_change a = (false, a)).
Proof.
  split; [ | split; [ | split; [ | split ] ] ].
  - intros s es. apply history_run_bounded. cbn. lia.
  - intros a H. rewrite save_state_for_undo_stack, H. cbn [Nat.leb].
    split; [ reflexivity | ].
    rewrite length_app, tl_length, H. reflexivity.
  - apply push_each_last_ten.
  - intros. rewrite push_each_last_ten. reflexivity.
  - intros a H. unfold undo_last_change. rewrite H. reflexivity.
Qed.

(** C8 at a stack filled by ten pushes, and at the empty stack. *)
Lemma undo_stack_bounded_witness :
  let mk := fun n : Z =>
    mkSession [] (qc n) [] [] (mkSalarySettings (qc 0) (qc 0) (qc 0) (qc 0))
              [] [] [] in
  let a :=
    push_each (initial_app (mk 0%Z))
      [mk 1%Z; mk 2%Z; mk 3%Z; mk 4%Z; mk 5%Z; mk 6%Z; mk 7%Z; mk 8%Z;
       mk 9%Z; mk 10%Z] in
  List.length (undo_stack a) = 10
  /\ undo_stack (save_state_for_undo a)
     = tl (undo_stack a) ++ [snapshot (session a)]
  /\ List.length (undo_stack (save_state_for_undo a)) = 10
  /\ undo_stack (initial_app (mk 0%Z)) = []
  /\ undo_last_change (initial_app (mk 0%Z)) = (false, initial_app (mk 0%Z)).
Proof.
  intros mk a.
  destruct undo_stack_bounded as (_ & Hfull & _ & _ & Hempty).
  assert (H10 : List.length (undo_stack a) = 10) by reflexivity.
  assert (H0 : undo_stack (initial_app (mk 0%Z)) = []) by reflexivity.
  destruct (Hfull a H10) as (Hpush & Hlen).
  pose proof (Hempty (initial_app (mk 0%Z)) H0) as Hpop.
  repeat split; assumption.
Defined.

Open Scope Qc_scope.

(** A push followed, after any edits, by an undo. *)
Lemma undo_after_push (a : app_state) (s1 : session_state) :
  undo_last_change (mkApp s1 (undo_stack (save_state_for_undo a)))
  = (true,
     mkApp (set_additional_income (session a) (additional_income s1))
           (if 10 <=? List.length (undo_stack a) then tl (undo_stack a)
            else undo_stack a)).
Proof.
  unfold undo_last_change. cbn [undo_stack session].
  rewrite save_state_for_undo_stack, list_pop_app. reflexivity.
Qed.

(** C9 fails on the code.  The retail percentage is changed from 20 to 25,
    which pushes the state of that moment, with a rental income of 0; then a
    rental income of 500 is entered, which pushes nothing; then the change
    is undone.  The undo returns True and puts the retail percentage back to
    20, but the rental income stays 500: the pushed state holds seven
    fields and the additional income is not one of them. *)
Theorem undo_leaves_additional_income :
  let s0 :=
    mkSession [mkStylist "Stylist 1" (qc 1000) 0] (qc 20) [] []
              (mkSalarySettings 0 0 0 0) [] []
              [("Rental Income"%string, 0)] in
  let a1 := update_retail_percentage (qc 25) (initial_app s0) in
  let a2 := update_additional_income "Rental Income" (qc 500) a1 in
  let r := undo_last_change a2 in
  undo_stack a1 = [snapshot s0]
  /\ retail_percentage (session a2) = qc 25
  /\ fst r = true
  /\ undo_stack (snd r) = []
  /\ stylists (session (snd r)) = stylists s0
  /\ retail_percentage (session (snd r)) = retail_percentage s0
  /\ fixed_costs (session (snd r)) = fixed_costs s0
  /\ variable_costs_percentages (session (snd r))
     = variable_costs_percentages s0
  /\ salary_settings (session (snd r)) = salary_settings s0
  /\ trainees (session (snd r)) = trainees s0
  /\ receptionists (session (snd r)) = receptionists s0
  /\ additional_income s0 = [("Rental Income"%string, 0)]
  /\ additional_income (session (snd r))
     = [("Rental Income"%string, qc 500)]
  /\ session (snd r) <> s0.
Proof.
  cbv zeta.
  repeat match goal with
         | |- _ /\ _ => split
         end;
    try reflexivity.
  intro E.
  apply (f_equal
           (fun s => option_map this
                       (dict_get "Rental Income" (additional_income s))))
    in E.
  vm_compute in E. discriminate E.
Qed.

(** ** The scenario table *)

Open Scope nat_scope.

Section ScenarioTableFacts.

Context {data : Type}.
Implicit Types (db : table data) (r : scenario_row data).

Lemma row_matches_of_user user_id name r :
  row_matches user_id name r = true -> row_of_user user_id r = true.
Proof.
  unfold row_matches, row_of_user. intro H.
  apply andb_true_iff in H. tauto.
Qed.

Lemma row_matches_inj user_id name user_id' name' r :
  row_matches user_id name r = true ->
  row_matches user_id' name' r = true ->
  user_id' = user_id /\ name' = name.
Proof.
  unfold row_matches. intros H H'.
  apply andb_true_iff in H. apply andb_true_iff in H'.
  destruct H as [Hu Hn], H' as [Hu' Hn'].
  apply Z.eqb_eq in Hu. apply Z.eqb_eq in Hu'.
  apply String.eqb_eq in Hn. apply String.eqb_eq in Hn'.
  split; congruence.
Qed.

(** A name is found exactly when the owner has a row of that name. *)
Lemma query_first_None user_id name db :
  query_first user_id name db = None
  <-> ~ In name (scenario_names user_id db).
Proof.
  unfold query_first, scenario_names, row_matches, row_of_user.
  induction db as [ | r db IH ]; cbn [find filter map].
  - split; [ intros _ [] | reflexivity ].
  - destruct (Z.eqb (row_user_id r) user_id) eqn:Eu; cbn [andb map].
    + destruct (String.eqb (row_name r) name) eqn:En.
      * apply String.eqb_eq in En. split; [ discriminate | ].
        intro H. exfalso. apply H. left. exact En.
      * apply String.eqb_neq in En. rewrite IH. cbn [In]. tauto.
    + exact IH.
Qed.

Lemma update_first_users user_id name description (d : data) now db :
  map row_user_id (update_first user_id name description d now db)
  = map row_user_id db
  /\ map row_name (update_first user_id name description d now db)
     = map row_name db.
Proof.
  induction db as [ | r db [IHu IHn] ]; cbn [update_first map].
  - split; reflexivity.
  - destruct (row_matches user_id name r); cbn [map row_user_id row_name].
    + split; reflexivity.
    + rewrite IHu, IHn. split; reflexivity.
Qed.

Lemma update_first_filter user_id name description (d : data) now db u :
  map row_name
      (filter (row_of_user u)
              (update_first user_id name description d now db))
  = map row_name (filter (row_of_user u) db).
Proof.
  induction db as [ | r db IH ]; cbn [update_first]; [ reflexivity | ].
  destruct (row_matches user_id name r).
  - cbn [filter]. unfold row_of_user. cbn [row_user_id].
    destruct (Z.eqb (row_user_id r) u); reflexivity.
  - cbn [filter]. destruct (row_of_user u r); cbn [map]; now rewrite IH.
Qed.

Lemma update_first_count user_id name description (d : data) now db u :
  scenario_count u (update_first user_id name description d now db)
  = scenario_count u db.
Proof.
  unfold scenario_count.
  rewrite <- (length_map row_name), update_first_filter, length_map.
  reflexivity.
Qed.

Lemma update_first_length user_id name description (d : data) now db :
  List.length (update_first user_id name description d now db)
  = List.length db.
Proof.
  rewrite <- (length_map row_name),
    (proj2 (update_first_users _ _ _ _ _ _)), length_map.
  reflexivity.
Qed.

Lemma update_first_stored user_id name description (d : data) now db :
  query_first user_id name db <> None ->
  stored user_id name (update_first user_id name description d now db)
  = Some (description, d).
Proof.
  unfold stored, query_first.
  induction db as [ | r db IH ]; cbn [find update_first]; intro H.
  - contradiction.
  - destruct (row_matches user_id name r) eqn:E.
    + cbn [find]. unfold row_matches in E |- *. cbn [row_user_id row_name].
      rewrite E. reflexivity.
    + cbn [find]. rewrite E. apply IH. exact H.
Qed.

Lemma update_first_other user_id name description (d : data) now db
    user_id' name' :
  user_id' <> user_id \/ name' <> name ->
  stored user_id' name' (update_first user_id name description d now db)
  = stored user_id' name' db.
Proof.
  intro Hne. unfold stored, query_first.
  induction db as [ | r db IH ]; cbn [find update_first]; [ reflexivity | ].
  destruct (row_matches user_id name r) eqn:E.
  - cbn [find].
    assert (E' : row_matches user_id' name' r = false).
    { destruct (row_matches user_id' name' r) eqn:E'; [ | reflexivity ].
      destruct (row_matches_inj _ _ _ _ _ E E'). tauto. }
    unfold row_matches in E' |- *. cbn [row_user_id row_name].
    rewrite E'. reflexivity.
  - cbn [find]. destruct (row_matches user_id' name' r); [ reflexivity | ].
    exact IH.
Qed.

Lemma find_app_None {A : Type} (f : A -> bool) (l1 l2 : list A) :
  find f l1 = None -> find f (l1 ++ l2) = find f l2.
Proof.
  induction l1 as [ | x l1 IH ]; cbn [find app]; [ reflexivity | ].
  destruct (f x); [ discriminate | exact IH ].
Qed.

Lemma find_app_Some {A : Type} (f : A -> bool) (l1 l2 : list A) (x : A) :
  find f l1 = Some x -> find f (l1 ++ l2) = Some x.
Proof.
  induction l1 as [ | y l1 IH ]; cbn [find app]; [ discriminate | ].
  destruct (f y); [ trivial | exact IH ].
Qed.

Lemma insert_other user_id name description (d : data) now db
    user_id' name' :
  user_id' <> user_id \/ name' <> name ->
  stored user_id' name'
         (db ++ [mkRow user_id name description d now now])
  = stored user_id' name' db.
Proof.
  intro Hne. unfold stored, query_first.
  destruct (find (row_matches user_id' name') db) as [ r | ] eqn:E.
  - rewrite (find_app_Some _ _ _ _ E). reflexivity.
  - rewrite (find_app_None _ _ _ E). cbn [find].
    destruct (row_matches user_id' name'
                (mkRow user_id name description d now now)) eqn:E';
      [ | reflexivity ].
    unfold row_matches in E'. cbn [row_user_id row_name] in E'.
    apply andb_true_iff in E'. destruct E' as [Hu Hn].
    apply Z.eqb_eq in Hu. apply String.eqb_eq in Hn.
    exfalso. destruct Hne as [Hne | Hne]; congruence.
Qed.

(** C7.  [save_scenario] is an upsert keyed by (owner, name).  Saving a
    name the owner does not have yet when the owner has 3 (or more)
    scenarios returns (False, "Maximum 3 scenarios allowed") and leaves the
    table as it is.  Saving a name the owner has returns True whatever the
    count, replaces description and payload of that scenario and keeps the
    number and the names of the owner's scenarios and the size of the
    table.  Saving a new name below the limit returns True and adds one
    scenario.  No other (owner, name) is touched. *)
Theorem save_scenario_upsert (user_id : Z) (name description : string)
    (d : data) (now : nat) db :
  let r := save_scenario user_id name description d now db in
  (~ In name (scenario_names user_id db) ->
   3 <= scenario_count user_id db ->
   r = ((false, "Maximum 3 scenarios allowed"%string), db))
  /\ (In name (scenario_names user_id db) ->
      fst r = (true, "Scenario saved successfully"%string)
      /\ stored user_id name (snd r) = Some (description, d)
      /\ scenario_count user_id (snd r) = scenario_count user_id db
      /\ scenario_names user_id (snd r) = scenario_names user_id db
      /\ List.length (snd r) = List.length db)
  /\ (~ In name (scenario_names user_id db) ->
      scenario_count user_id db < 3 ->
      fst r = (true, "Scenario saved successfully"%string)
      /\ stored user_id name (snd r) = Some (description, d)
      /\ scenario_count user_id (snd r) = S (scenario_count user_id db)
      /\ scenario_names user_id (snd r)
         = scenario_names user_id db ++ [name])
  /\ (forall user_id' name',
         user_id' <> user_id \/ name' <> name ->
         stored user_id' name' (snd r) = stored user_id' name' db).
Proof.
  cbv zeta. unfold save_scenario.
  split; [ | split; [ | split ] ].
  - intros Hnew Hfull. apply query_first_None in Hnew. rewrite Hnew.
    apply Nat.leb_le in Hfull. rewrite Hfull. reflexivity.
  - intro Hold.
    assert (Hq : query_first user_id name db <> None).
    { intro Hq. apply query_first_None in Hq. contradiction. }
    destruct (query_first user_id name db) as [ existing | ] eqn:E;
      [ | contradiction ].
    cbn [fst snd]. split; [ reflexivity | ].
    split; [ apply update_first_stored; rewrite E; discriminate | ].
    split; [ apply update_first_count | ].
    split; [ apply update_first_filter | apply update_first_length ].
  - intros Hnew Hroom. apply query_first_None in Hnew. rewrite Hnew.
    apply Nat.leb_gt in Hroom. rewrite Hroom. cbn [fst snd].
    split; [ reflexivity | ].
    assert (Hmine : row_of_user user_id
                      (mkRow user_id name description d now now) = true).
    { unfold row_of_user. cbn [row_user_id]. apply Z.eqb_refl. }
    split; [ | split ].
    + unfold stored, query_first.
      rewrite (find_app_None _ _ _ Hnew). cbn [find].
      unfold row_matches. cbn [row_user_id row_name].
      rewrite Z.eqb_refl, String.eqb_refl. reflexivity.
    + unfold scenario_count. rewrite filter_app, length_app.
      cbn [filter]. rewrite Hmine. cbn [List.length]. lia.
    + unfold scenario_names. rewrite filter_app, map_app.
      cbn [filter]. rewrite Hmine. reflexivity.
  - intros user_id' name' Hne.
    destruct (query_first user_id name db) as [ existing | ] eqn:E.
    + cbn [snd]. apply update_first_other. exact Hne.
    + destruct (3 <=? scenario_count user_id db); cbn [snd].
      * reflexivity.
      * apply insert_other. exact Hne.
Qed.

End ScenarioTableFacts.

(** C7 at an owner with three scenarios: a fourth name is refused, a name
    that exists is overwritten. *)
Lemma save_scenario_upsert_witness :
  let db :=
    [mkRow 1%Z "Plan A" "first" 10 0 0; mkRow 2%Z "Plan D" "other owner" 20 1 1;
     mkRow 1%Z "Plan B" "second" 30 2 2; mkRow 1%Z "Plan C" "third" 40 3 3] in
  ~ In "Plan D"%string (scenario_names 1%Z db)
  /\ 3 <= scenario_count 1%Z db
  /\ save_scenario 1%Z "Plan D" "fourth" 50 4 db
     = ((false, "Maximum 3 scenarios allowed"%string), db)
  /\ In "Plan B"%string (scenario_names 1%Z db)
  /\ fst (save_scenario 1%Z "Plan B" "again" 60 5 db)
     = (true, "Scenario saved successfully"%string)
  /\ scenario_count 1%Z (snd (save_scenario 1%Z "Plan B" "again" 60 5 db))
     = scenario_count 1%Z db
  /\ stored 2%Z "Plan D" (snd (save_scenario 1%Z "Plan B" "again" 60 5 db))
     = stored 2%Z "Plan D" db.
Proof.
  intro db.
  assert (Hnew : ~ In "Plan D"%string (scenario_names 1%Z db)).
  { cbn. intros [H | [H | [H | H]]]; try discriminate H; exact H. }
  assert (Hfull : 3 <= scenario_count 1%Z db) by (cbn; lia).
  assert (Hold : In "Plan B"%string (scenario_names 1%Z db))
    by (cbn; auto).
  destruct (save_scenario_upsert 1%Z "Plan D" "fourth" 50 4 db)
    as (Hcap & _).
  destruct (save_scenario_upsert 1%Z "Plan B" "again" 60 5 db)
    as (_ & Hover & _ & Hother).
  destruct (Hover Hold) as (Hok & _ & Hcount & _).
  split; [ exact Hnew | ].
  split; [ exact Hfull | ].
  split; [ exact (Hcap Hnew Hfull) | ].
  split; [ exact Hold | ].
  split; [ exact Hok | ].
  split; [ exact Hcount | ].
  apply Hother. left. discriminate.
Defined.

Open Scope Qc_scope.

(** ** [utils.calculate_profit] against the engine *)

Lemma fold_left_snd {A B C : Type} (f : A -> B -> C -> A) (g : B -> C -> B)
    (l : list C) (a : A) (b : B) :
  snd (fold_left (fun acc x => (f (fst acc) (snd acc) x, g (snd acc) x))
                 l (a, b))
  = fold_left g l b.
Proof.
  revert a b. induction l as [ | x l IH ]; intros a b; cbn [fold_left].
  - reflexivity.
  - cbn [fst snd]. apply IH.
Qed.

Lemma fold_left_plus_map {C : Type} (h : C -> Qc) (l : list C) (a : Qc) :
  fold_left (fun acc x => acc + h x) l a = a + py_sum (map h l).
Proof.
  revert a. induction l as [ | x l IH ]; intro a; cbn [fold_left map].
  - rewrite py_sum_nil. ring.
  - rewrite IH, py_sum_cons. ring.
Qed.

(** The total of the engine's loop, whatever the keys. *)
Lemma total_variable_costs_eq (s : session_state) :
  total_variable_costs (fst (calculate_core_values s))
  = py_sum
      (map (fun item =>
              base_value (retail_sales (fst (calculate_core_values s)))
                (total_service_sales (fst (calculate_core_values s)))
                (total_sales (fst (calculate_core_values s))) (fst item)
              * (snd item / qc 100))
           (variable_costs_percentages (snd (calculate_core_values s)))).
Proof.
  pose proof (variable_costs_eq s) as H. apply (f_equal snd) in H.
  cbn [snd] in H. rewrite H. unfold variable_cost_loop.
  rewrite (fold_left_snd
             (fun d (_ : Qc) item =>
                dict_set (fst item)
                  (base_value _ _ _ (fst item) * (snd item / qc 100)) d)
             (fun t item =>
                t + base_value _ _ _ (fst item) * (snd item / qc 100))).
  rewrite fold_left_plus_map. ring.
Qed.

Lemma py_sum_map_plus {C : Type} (f g h : C -> Qc) (l : list C) :
  (forall x, f x = g x + h x) ->
  py_sum (map f l) = py_sum (map g l) + py_sum (map h l).
Proof.
  intro H. induction l as [ | x l IH ]; cbn [map].
  - rewrite py_sum_nil. ring.
  - rewrite !py_sum_cons, IH, H. ring.
Qed.

(** One entry: the helper's cost is the engine's cost plus, for
    'Professional Stock', the percentage of retail sales. *)
Lemma base_value_gap (r sv p : Qc) (k : string) :
  (if (String.eqb k RETAIL_COMMISSION || String.eqb k RETAIL_STOCK)%bool
   then r else sv + r) * (p / qc 100)
  = base_value r sv (sv + r) k * (p / qc 100)
    + (if String.eqb k PROFESSIONAL_STOCK then r * (p / qc 100) else 0).
Proof.
  unfold base_value.
  destruct (String.eqb_spec k PROFESSIONAL_STOCK) as [ -> | Hk ].
  - replace (String.eqb PROFESSIONAL_STOCK RETAIL_COMMISSION
             || String.eqb PROFESSIONAL_STOCK RETAIL_STOCK)%bool
      with false by reflexivity.
    ring.
  - destruct (String.eqb k RETAIL_COMMISSION
              || String.eqb k RETAIL_STOCK)%bool; ring.
Qed.

(** With no additional income, [calculate_profit] on the engine's monthly
    service sales and updated percentages is the engine's profit less
    monthly retail sales * percentage / 100 for 'Professional Stock': the
    helper charges that percentage on total sales, the engine on service
    sales.  (An equation of exact arithmetic; binary64 follows it up to
    rounding.) *)
Lemma calculate_profit_gap (s : session_state) :
  let m := fst (calculate_core_values s) in
  let s' := snd (calculate_core_values s) in
  total_additional_income m = 0 ->
  calculate_profit (total_service_sales m) (retail_percentage s)
                   (fixed_costs s) (variable_costs_percentages s')
  = profit m
    - py_sum
        (map (fun item =>
                if String.eqb (fst item) PROFESSIONAL_STOCK
                then retail_sales m * (snd item / qc 100)
                else 0)
             (variable_costs_percentages s')).
Proof.
  cbv zeta. intro Hai.
  rewrite profit_eq, total_variable_costs_eq, total_fixed_costs_eq.
  unfold calculate_profit. cbv zeta.
  rewrite fold_left_plus_map.
  rewrite total_sales_eq, Hai, weekly_total_sales_eq, retail_sales_eq,
    total_service_sales_eq, weekly_retail_sales_eq.
  set (w := weekly_service_sales (fst (calculate_core_values s))).
  set (items := variable_costs_percentages (snd (calculate_core_values s))).
  clearbody w items.
  replace (w * (retail_percentage s / qc 100) * weekly_to_monthly)
    with (w * weekly_to_monthly * (retail_percentage s / qc 100)) by ring.
  replace ((w + w * (retail_percentage s / qc 100)) * weekly_to_monthly + 0)
    with (w * weekly_to_monthly
          + w * weekly_to_monthly * (retail_percentage s / qc 100)) by ring.
  set (sv := w * weekly_to_monthly).
  set (r := sv * (retail_percentage s / qc 100)).
  rewrite (py_sum_map_plus
             (fun x =>
                (if (String.eqb (fst x) RETAIL_COMMISSION
                     || String.eqb (fst x) RETAIL_STOCK)%bool
                 then r else sv + r) * (snd x / qc 100))
             (fun item => base_value r sv (sv + r) (fst item)
                          * (snd item / qc 100))
             (fun item => if String.eqb (fst item) PROFESSIONAL_STOCK
                          then r * (snd item / qc 100) else 0)).
  - ring.
  - intros [k p]. cbn [fst snd]. apply base_value_gap.
Qed.

(** C10 fails on the code.  One stylist with weekly sales 1200, retail
    percentage 20, a rent of 1000, 'Professional Stock' at 10 per cent, no
    commissions, wages or additional income: the engine's monthly service
    sales are 5200 and its profit is 4720; [calculate_profit] on these
    service sales and the same tables returns 4616, the 10 per cent being
    taken from total sales 6240 where the engine takes them from 5200. *)
Theorem calculate_profit_differs_on_professional_stock :
  let s :=
    mkSession [mkStylist "Stylist 1" (qc 1200) 0] (qc 20)
              [("Rent"%string, qc 1000)]
              [(WAGES, 0); (RETAIL_COMMISSION, 0);
               (PROFESSIONAL_STOCK, qc 10); (RETAIL_STOCK, 0); (ROYALTIES, 0)]
              (mkSalarySettings 0 0 0 0) [] [] [] in
  let m := fst (calculate_core_values s) in
  let s' := snd (calculate_core_values s) in
  total_additional_income m = 0
  /\ total_service_sales m = qc 5200
  /\ total_sales m = qc 6240
  /\ dict_get PROFESSIONAL_STOCK (variable_costs m) = Some (qc 520)
  /\ profit m = qc 4720
  /\ calculate_profit (total_service_sales m) (retail_percentage s)
       (fixed_costs s) (variable_costs_percentages s') = qc 4616
  /\ calculate_profit (total_service_sales m) (retail_percentage s)
       (fixed_costs s) (variable_costs_percentages s) = qc 4616
  /\ calculate_profit (total_service_sales m) (retail_percentage s)
       (fixed_costs s) (variable_costs_percentages s') <> profit m.
Proof.
  cbv zeta.
  repeat match goal with
         | |- _ /\ _ => split
         end;
    try qc_eval.
  - match goal with
    | |- ?x = Some ?v =>
        assert (H : option_map this x = Some (this v))
          by (vm_compute; reflexivity);
        destruct x as [ c | ]; [ | discriminate H ];
        f_equal; apply Qc_is_canon; injection H as H; rewrite H;
        reflexivity
    end.
  - qc_neq.
Qed.

(** ** Saving and loading a scenario *)

(** A call of the engine on a page state writes the table of percentages
    and nothing else. *)
Lemma calculate_core_values_on_frame (p : page_state) :
  let p' := snd (calculate_core_values_on p) in
  stylist_objects p' = stylist_objects p
  /\ wage_objects p' = wage_objects p
  /\ p_stylists p' = p_stylists p
  /\ p_trainees p' = p_trainees p
  /\ p_receptionists p' = p_receptionists p
  /\ p_retail_percentage p' = p_retail_percentage p
  /\ p_fixed_costs p' = p_fixed_costs p
  /\ p_salary_settings p' = p_salary_settings p
  /\ p_additional_income p' = p_additional_income p
  /\ scenarios p' = scenarios p
  /\ current_scenario_name p' = current_scenario_name p
  /\ inputs_of p' = snd (calculate_core_values (inputs_of p)).
Proof.
  cbv zeta. repeat split.
Qed.

(** Saving leaves the inputs of the session as they are, up to the feedback
    step of the engine on the table of percentages. *)
Lemma save_current_plan_inputs (n d t : string) (p : page_state) :
  let p1 := snd (save_current_plan n d t p) in
  stylist_objects p1 = stylist_objects p
  /\ wage_objects p1 = wage_objects p
  /\ p_stylists p1 = p_stylists p
  /\ p_trainees p1 = p_trainees p
  /\ p_receptionists p1 = p_receptionists p
  /\ p_retail_percentage p1 = p_retail_percentage p
  /\ p_fixed_costs p1 = p_fixed_costs p
  /\ p_salary_settings p1 = p_salary_settings p
  /\ p_additional_income p1 = p_additional_income p.
Proof.
  cbv zeta. unfold save_current_plan.
  destruct (negb (String.eqb n EmptyString)); [ | repeat split ].
  destruct ((3 <=? List.length (scenarios p))
            && negb (dict_mem n (scenarios p)))%bool; repeat split.
Qed.

Lemma dict_set_length_present {V : Type} (k : string) (v : V) (d : dict V) :
  dict_mem k d = true -> List.length (dict_set k v d) = List.length d.
Proof.
  unfold dict_mem.
  induction d as [ | [k' v'] d IH ]; cbn [dict_get dict_set].
  - discriminate.
  - destruct (String.eqb k k'); cbn [List.length]; [ reflexivity | ].
    intro H. now rewrite IH.
Qed.

(** The limit of three in the save handler: a new name is refused when three
    scenarios are held, and the session stays as it is; a name that is held
    is saved again without a new entry. *)
Lemma save_current_plan_limit (n d t : string) (p : page_state) :
  n <> EmptyString ->
  (dict_mem n (scenarios p) = false ->
   (3 <= List.length (scenarios p))%nat ->
   save_current_plan n d t p = (MaximumReached, p))
  /\ (dict_mem n (scenarios p) = true ->
      fst (save_current_plan n d t p) = Saved
      /\ List.length (scenarios (snd (save_current_plan n d t p)))
         = List.length (scenarios p)).
Proof.
  intro Hn. apply String.eqb_neq in Hn.
  unfold save_current_plan. rewrite Hn. cbn [negb].
  split.
  - intros Hnew Hfull. apply Nat.leb_le in Hfull.
    rewrite Hfull, Hnew. reflexivity.
  - intro Hold. rewrite Hold, andb_false_r. cbv zeta. cbn [fst snd scenarios].
    split; [ reflexivity | ].
    apply dict_set_length_present. exact Hold.
Qed.

(** C6 fails on the code, in two ways.  A plan with one stylist (weekly
    sales 1000) and a rental income of 200 is saved as 'Plan A'.
    - The rental income is then set to 0 and 'Plan A' is loaded: the rental
      income stays 0, a scenario does not hold the additional income, and
      the engine returns total monthly sales of 5200 where it returned 5400
      at the save.
    - Instead, the sales of the stylist are set to 500 and 'Plan A' is
      loaded: the roster of the scenario is a shallow copy that shares the
      stylist with the session, so the load brings back sales of 500, not
      the 1000 of the save. *)
Theorem scenario_load_does_not_restore :
  let p :=
    mkPage (fun _ => mkStylist "Stylist 1" (qc 1000) 0)
           (fun _ => mkWageEarner "Trainee 1" 0)
           [0%nat] (qc 20) []
           [(WAGES, 0); (RETAIL_COMMISSION, 0); (PROFESSIONAL_STOCK, 0);
            (RETAIL_STOCK, 0); (ROYALTIES, 0)]
           (mkSalarySettings (qc 40) (qc 10) 0 0)
           [0%nat] [] [("Rental Income"%string, qc 200)]
           [] "Current Plan" in
  let saved := save_current_plan "Plan A" "" "2025-01-01 10:00" p in
  let p1 := snd saved in
  let p3 :=
    load_selected_scenario "Plan A"
      (edit_additional_income "Rental Income" 0 p1) in
  let q3 :=
    load_selected_scenario "Plan A" (edit_stylist_sales 0 (qc 500) p1) in
  fst saved = Saved
  /\ additional_income (inputs_of p) = [("Rental Income"%string, qc 200)]
  /\ additional_income (inputs_of p3) = [("Rental Income"%string, 0)]
  /\ total_sales (fst (calculate_core_values (inputs_of p))) = qc 5400
  /\ total_sales (fst (calculate_core_values (inputs_of p3))) = qc 5200
  /\ map sales (stylists (inputs_of p)) = [qc 1000]
  /\ map sales (stylists (inputs_of q3)) = [qc 500]
  /\ additional_income (inputs_of q3) = additional_income (inputs_of p)
  /\ weekly_service_sales (fst (calculate_core_values (inputs_of p)))
     = qc 1000
  /\ weekly_service_sales (fst (calculate_core_values (inputs_of q3)))
     = qc 500
  /\ inputs_of p3 <> inputs_of p
  /\ inputs_of q3 <> inputs_of p.
Proof.
  cbv zeta.
  repeat match goal with
         | |- _ /\ _ => split
         end;
    try reflexivity; try qc_eval.
  - intro E.
    apply (f_equal
             (fun s => option_map this
                         (dict_get "Rental Income" (additional_income s))))
      in E.
    vm_compute in E. discriminate E.
  - intro E.
    apply (f_equal (fun s => map (fun st => this (sales st)) (stylists s)))
      in E.
    vm_compute in E. discriminate E.
Qed.

(** ** Further properties of the engine *)

Lemma dict_set_same_value {V : Type} (k : string) (v : V) (d : dict V) :
  dict_get k d = Some v -> dict_set k v d = d.
Proof.
  induction d as [ | [k' v'] d IH ]; cbn [dict_get dict_set].
  - discriminate.
  - destruct (String.eqb_spec k k') as [ <- | Hne ].
    + intro H. injection H as ->. reflexivity.
    + intro H. now rewrite IH.
Qed.

(** The entry the feedback step leaves under any key [k]: a derived rate
    where it was written, the entry that was there otherwise. *)
Lemma updated_percentages_get (s : session_state) (k : string) :
  let m := fst (calculate_core_values s) in
  let s' := snd (calculate_core_values s) in
  dict_get k (variable_costs_percentages s')
  = (if (String.eqb k RETAIL_COMMISSION && Qcgtb (retail_sales m) 0)%bool
     then Some (monthly_retail_commission m / retail_sales m * qc 100)
     else if (String.eqb k WAGES && Qcgtb (total_sales m) 0)%bool
     then Some ((total_salary_cost m - monthly_retail_commission m)
                / total_sales m * qc 100)
     else dict_get k (variable_costs_percentages s)).
Proof.
  cbv zeta. rewrite updated_percentages_eq. cbv zeta.
  set (m := fst (calculate_core_values s)).
  destruct (String.eqb_spec k RETAIL_COMMISSION) as [ -> | Hrc ].
  - change (String.eqb RETAIL_COMMISSION WAGES) with false.
    destruct (Qcgtb (retail_sales m) 0), (Qcgtb (total_sales m) 0);
      cbn [andb];
      repeat first
        [ reflexivity
        | apply dict_get_set_same
        | rewrite dict_get_set_other by reflexivity ].
  - apply String.eqb_neq in Hrc.
    destruct (String.eqb_spec k WAGES) as [ -> | Hwg ].
    + destruct (Qcgtb (retail_sales m) 0), (Qcgtb (total_sales m) 0);
        cbn [andb];
        repeat first
          [ reflexivity
          | apply dict_get_set_same
          | rewrite dict_get_set_other by reflexivity ].
    + apply String.eqb_neq in Hwg.
      destruct (Qcgtb (retail_sales m) 0), (Qcgtb (total_sales m) 0);
        cbn [andb];
        repeat first
          [ reflexivity
          | rewrite dict_get_set_other by assumption ].
Qed.

(** The two derived entries after a call. *)
Lemma derived_percentages_get (s : session_state) :
  let m := fst (calculate_core_values s) in
  let s' := snd (calculate_core_values s) in
  dict_get WAGES (variable_costs_percentages s')
  = (if Qcgtb (total_sales m) 0
     then Some ((total_salary_cost m - monthly_retail_commission m)
                / total_sales m * qc 100)
     else dict_get WAGES (variable_costs_percentages s))
  /\ dict_get RETAIL_COMMISSION (variable_costs_percentages s')
     = (if Qcgtb (retail_sales m) 0
        then Some (monthly_retail_commission m / retail_sales m * qc 100)
        else dict_get RETAIL_COMMISSION (variable_costs_percentages s)).
Proof.
  cbv zeta. split.
  - rewrite (updated_percentages_get s WAGES).
    change (String.eqb WAGES RETAIL_COMMISSION) with false.
    rewrite String.eqb_refl. cbn [andb]. reflexivity.
  - rewrite (updated_percentages_get s RETAIL_COMMISSION).
    rewrite String.eqb_refl. cbn [andb].
    destruct (Qcgtb (retail_sales (fst (calculate_core_values s))) 0);
      [ reflexivity | ].
    change (String.eqb RETAIL_COMMISSION WAGES) with false.
    cbn [andb]. reflexivity.
Qed.

(** The metrics depend on the table of percentages only through the table
    the feedback step leaves. *)
Lemma calculate_core_values_congr (s1 s2 : session_state) :
  stylists s1 = stylists s2 ->
  retail_percentage s1 = retail_percentage s2 ->
  fixed_costs s1 = fixed_costs s2 ->
  salary_settings s1 = salary_settings s2 ->
  trainees s1 = trainees s2 ->
  receptionists s1 = receptionists s2 ->
  additional_income s1 = additional_income s2 ->
  variable_costs_percentages (snd (calculate_core_values s1))
  = variable_costs_percentages (snd (calculate_core_values s2)) ->
  fst (calculate_core_values s1) = fst (calculate_core_values s2).
Proof.
  destruct s1 as [st1 rp1 fc1 v1 ss1 tr1 re1 ai1].
  destruct s2 as [st2 rp2 fc2 v2 ss2 tr2 re2 ai2].
  cbn [stylists retail_percentage fixed_costs salary_settings trainees
       receptionists additional_income].
  intros -> -> -> -> -> -> -> H.
  unfold calculate_core_values in *.
  cbn [fst snd stylists retail_percentage fixed_costs salary_settings trainees
       receptionists additional_income variable_costs_percentages
       set_variable_costs_percentages] in *.
  rewrite H. reflexivity.
Qed.

(** The session a call returns is the given one with the new table. *)
Lemma calculate_core_values_snd (s : session_state) :
  snd (calculate_core_values s)
  = set_variable_costs_percentages s
      (variable_costs_percentages (snd (calculate_core_values s))).
Proof. reflexivity. Qed.

(** The figures the feedback step reads do not depend on the table. *)
Lemma feedback_figures_table_free (s : session_state) (v : dict Qc) :
  total_sales (fst (calculate_core_values
                      (set_variable_costs_percentages s v)))
  = total_sales (fst (calculate_core_values s))
  /\ retail_sales (fst (calculate_core_values
                          (set_variable_costs_percentages s v)))
     = retail_sales (fst (calculate_core_values s))
  /\ total_salary_cost (fst (calculate_core_values
                               (set_variable_costs_percentages s v)))
     = total_salary_cost (fst (calculate_core_values s))
  /\ monthly_retail_commission
       (fst (calculate_core_values (set_variable_costs_percentages s v)))
     = monthly_retail_commission (fst (calculate_core_values s)).
Proof.
  cbv delta [calculate_core_values fst total_sales retail_sales
             total_salary_cost monthly_retail_commission] beta iota zeta.
  repeat split.
Qed.

(** The two components of a second call are those of the first. *)
Lemma calculate_core_values_again (s : session_state) :
  calculate_core_values (snd (calculate_core_values s))
  = (fst (calculate_core_values s), snd (calculate_core_values s)).
Proof.
  pose proof (derived_percentages_get s) as [Hw Hr]. cbv zeta in Hw, Hr.
  pose proof (updated_percentages_eq s) as HVdef. cbv zeta in HVdef.
  rewrite (calculate_core_values_snd s) at 1 2.
  revert Hw Hr HVdef.
  generalize (variable_costs_percentages (snd (calculate_core_values s))).
  intros V Hw Hr HVdef.
  assert (Hv : variable_costs_percentages
                 (snd (calculate_core_values
                         (set_variable_costs_percentages s V))) = V).
  { rewrite updated_percentages_eq. cbv zeta.
    destruct (feedback_figures_table_free s V) as (-> & -> & -> & ->).
    change (variable_costs_percentages (set_variable_costs_percentages s V))
      with V.
    destruct (Qcgtb (retail_sales (fst (calculate_core_values s))) 0),
      (Qcgtb (total_sales (fst (calculate_core_values s))) 0).
    - rewrite (dict_set_same_value _ _ _ Hw).
      apply dict_set_same_value. exact Hr.
    - apply dict_set_same_value. exact Hr.
    - apply dict_set_same_value. exact Hw.
    - reflexivity. }
  rewrite (surjective_pairing
             (calculate_core_values (set_variable_costs_percentages s V))).
  apply f_equal2.
  - apply calculate_core_values_congr; try reflexivity.
    rewrite Hv. rewrite HVdef. symmetry. apply updated_percentages_eq.
  - rewrite calculate_core_values_snd, Hv. reflexivity.
Qed.

(** A second call of [calculate_core_values] on the session the first call
    leaves returns the same metrics and leaves the session as it is: the
    feedback step reaches its fixed point in one call. *)
Theorem calculate_core_values_idempotent (s : session_state) :
  calculate_core_values (snd (calculate_core_values s))
  = calculate_core_values s.
Proof.
  rewrite calculate_core_values_again. symmetry. apply surjective_pairing.
Qed.

Lemma qc100_nonzero : qc 100 <> 0.
Proof. qc_neq. Qed.

(** ** The allocation of retail sales to the stylists *)

Lemma retail_commission_of_share (w r scp rcp : Qc) (st : stylist) :
  retail_commission_amount (stylist_payroll w r scp rcp st)
  = stylist_retail_sales_weekly (stylist_payroll w r scp rcp st)
    * (rcp / qc 100).
Proof. reflexivity. Qed.

Lemma retail_sales_per_week (s : session_state) :
  retail_sales (fst (calculate_core_values s)) / weekly_to_monthly
  = weekly_retail_sales (fst (calculate_core_values s)).
Proof.
  rewrite retail_sales_eq. field. exact weekly_to_monthly_nonzero.
Qed.

(** ** The guarantee *)

Lemma py_max_ge_l (a b : Qc) : a <= py_max a b.
Proof.
  unfold py_max. destruct (Qcgtb b a) eqn:E.
  - apply Qcgtb_spec in E. apply Qclt_le_weak. exact E.
  - apply Qcle_refl.
Qed.

Lemma py_max_ge_r (a b : Qc) : b <= py_max a b.
Proof.
  unfold py_max. destruct (Qcgtb b a) eqn:E.
  - apply Qcle_refl.
  - apply Qcnot_lt_le. intro H. apply Qcgtb_spec in H. congruence.
Qed.

Lemma py_max_cases (a b : Qc) : py_max a b = a \/ py_max a b = b.
Proof. unfold py_max. destruct (Qcgtb b a); auto. Qed.

Lemma py_max_l (a b : Qc) : b <= a -> py_max a b = a.
Proof.
  intro H. unfold py_max. destruct (Qcgtb b a) eqn:E; [ | reflexivity ].
  apply Qcgtb_spec in E. exfalso. exact (Qclt_not_le _ _ E H).
Qed.

Lemma total_earnings_split (w r scp rcp : Qc) (st : stylist) :
  total_earnings (stylist_payroll w r scp rcp st)
  = service_earnings (stylist_payroll w r scp rcp st)
    + retail_commission_amount (stylist_payroll w r scp rcp st).
Proof. reflexivity. Qed.

Lemma service_earnings_floor (w r scp rcp : Qc) (st : stylist) :
  guarantee st <= service_earnings (stylist_payroll w r scp rcp st).
Proof. apply py_max_ge_l. Qed.

(** A stylist's service earnings are the larger of the guarantee and the
    service commission, the retail commission comes on top of them, and with
    a service commission rate of 0 a stylist with a guarantee of at least 0
    earns the guarantee plus the retail commission. *)
Theorem guarantee_floor (w r scp rcp : Qc) (st : stylist) :
  let p := stylist_payroll w r scp rcp st in
  guarantee st <= service_earnings p
  /\ service_commission_amount p <= service_earnings p
  /\ (service_earnings p = guarantee st
      \/ service_earnings p = service_commission_amount p)
  /\ total_earnings p = service_earnings p + retail_commission_amount p
  /\ (scp = 0 -> 0 <= guarantee st ->
      service_earnings p = guarantee st
      /\ total_earnings p = guarantee st + retail_commission_amount p).
Proof.
  cbv zeta. unfold stylist_payroll.
  cbn [service_earnings service_commission_amount total_earnings
       retail_commission_amount stylist_retail_sales_weekly].
  split; [ apply py_max_ge_l | ]. split; [ apply py_max_ge_r | ].
  split; [ apply py_max_cases | ]. split; [ reflexivity | ].
  intros -> Hg.
  assert (H0 : sales st * (0 / qc 100) = 0) by (field; exact qc100_nonzero).
  rewrite H0, (py_max_l _ _ Hg). split; reflexivity.
Qed.

(** ** Signs *)

Lemma Qc_nonneg_plus (a b : Qc) : 0 <= a -> 0 <= b -> 0 <= a + b.
Proof.
  intros Ha Hb. pose proof (Qcplus_le_compat _ _ _ _ Ha Hb) as H.
  replace (0 + 0) with 0 in H by ring. exact H.
Qed.

Lemma Qc_nonneg_mult (a b : Qc) : 0 <= a -> 0 <= b -> 0 <= a * b.
Proof.
  intros Ha Hb. pose proof (Qcmult_le_compat_r _ _ _ Ha Hb) as H.
  replace (0 * b) with 0 in H by ring. exact H.
Qed.

Lemma Qc_nonneg_inv (a : Qc) : 0 <= a -> 0 <= / a.
Proof.
  unfold Qcle. intro H.
  change (this 0) with 0%Q in *.
  change (this (/ a)) with (Qred (/ this a)).
  rewrite Qred_correct. apply Qinv_le_0_compat. exact H.
Qed.

Lemma Qc_nonneg_div (a b : Qc) : 0 <= a -> 0 <= b -> 0 <= a / b.
Proof.
  intros Ha Hb. unfold Qcdiv. apply Qc_nonneg_mult; [ exact Ha | ].
  apply Qc_nonneg_inv. exact Hb.
Qed.

Lemma qc100_nonneg : 0 <= qc 100.
Proof. apply Qcle_alt. vm_compute. discriminate. Qed.

Lemma weekly_to_monthly_nonneg : 0 <= weekly_to_monthly.
Proof. apply Qcle_alt. vm_compute. discriminate. Qed.

Lemma Qc_nonneg_percent (a p : Qc) : 0 <= a -> 0 <= p -> 0 <= a * (p / qc 100).
Proof.
  intros Ha Hp. apply Qc_nonneg_mult; [ exact Ha | ].
  apply Qc_nonneg_div; [ exact Hp | exact qc100_nonneg ].
Qed.

Lemma py_sum_nonneg (l : list Qc) : Forall (fun x => 0 <= x) l -> 0 <= py_sum l.
Proof.
  induction 1 as [ | x l Hx _ IH ].
  - rewrite py_sum_nil. apply Qcle_refl.
  - rewrite py_sum_cons. apply Qc_nonneg_plus; assumption.
Qed.

Lemma py_sum_le {C : Type} (f g : C -> Qc) (l : list C) :
  (forall x, In x l -> f x <= g x) ->
  py_sum (map f l) <= py_sum (map g l).
Proof.
  intro H. induction l as [ | x l IH ]; cbn [map].
  - apply Qcle_refl.
  - rewrite !py_sum_cons. apply Qcplus_le_compat.
    + apply H. now left.
    + apply IH. intros y Hy. apply H. now right.
Qed.

Lemma Qc_le_plus_nonneg (a b : Qc) : 0 <= b -> a <= a + b.
Proof.
  intro H. pose proof (Qcplus_le_compat _ _ _ _ (Qcle_refl a) H) as H'.
  replace (a + 0) with a in H' by ring. exact H'.
Qed.

Lemma dict_set_values_Forall {V : Type} (P : V -> Prop) (k : string) (v : V)
    (d : dict V) :
  P v -> Forall P (dict_values d) -> Forall P (dict_values (dict_set k v d)).
Proof.
  intros Hv. induction d as [ | [k' v'] d IH ]; cbn [dict_set]; intro H.
  - repeat constructor. exact Hv.
  - inversion H as [ | ? ? Hv' Hd ]; subst.
    destruct (String.eqb k k'); cbn [dict_values map snd].
    + constructor; assumption.
    + constructor; [ exact Hv' | apply IH; exact Hd ].
Qed.

Lemma base_value_nonneg (r sv t : Qc) (k : string) :
  0 <= r -> 0 <= sv -> 0 <= t -> 0 <= base_value r sv t k.
Proof.
  intros Hr Hsv Ht. unfold base_value.
  destruct (String.eqb k RETAIL_COMMISSION || String.eqb k RETAIL_STOCK)%bool;
    [ exact Hr | ].
  destruct (String.eqb k PROFESSIONAL_STOCK); assumption.
Qed.

Lemma stylist_payroll_nonneg (w r scp rcp : Qc) (st : stylist) :
  0 <= w -> 0 <= r -> 0 <= rcp ->
  0 <= sales st -> 0 <= guarantee st ->
  let p := stylist_payroll w r scp rcp st in
  0 <= stylist_retail_sales_weekly p
  /\ 0 <= retail_commission_amount p
  /\ retail_commission_amount p <= total_earnings p.
Proof.
  intros Hw Hr Hrcp Hs Hg. cbv zeta.
  assert (Hshare : 0 <= stylist_retail_sales_weekly
                          (stylist_payroll w r scp rcp st)).
  { unfold stylist_payroll. cbn [stylist_retail_sales_weekly].
    destruct (Qcgtb w 0); [ | apply Qcle_refl ].
    apply Qc_nonneg_mult; [ exact Hr | ].
    apply Qc_nonneg_div; assumption. }
  assert (Hrc : 0 <= retail_commission_amount
                       (stylist_payroll w r scp rcp st)).
  { rewrite retail_commission_of_share.
    apply Qc_nonneg_percent; assumption. }
  split; [ exact Hshare | ]. split; [ exact Hrc | ].
  rewrite total_earnings_split.
  rewrite (Qcplus_comm (service_earnings _)).
  apply Qc_le_plus_nonneg.
  exact (Qcle_trans _ _ _ Hg (service_earnings_floor w r scp rcp st)).
Qed.

(** For inputs that are not negative, no sales figure and no cost figure the
    engine returns is negative, the retail commission is within the salary
    cost, the percentages the feedback step leaves are not negative, and the
    profit does not exceed total sales. *)
Theorem nonnegative_figures (s : session_state)
    (Hst : Forall (fun st => 0 <= sales st /\ 0 <= guarantee st) (stylists s))
    (Hrp : 0 <= retail_percentage s)
    (Hfc : Forall (fun x => 0 <= x) (dict_values (fixed_costs s)))
    (Hvc : Forall (fun x => 0 <= x)
                  (dict_values (variable_costs_percentages s)))
    (Hrcp : 0 <= retail_commission_percentage (salary_settings s))
    (Hni : 0 <= national_insurance_percentage (salary_settings s))
    (Hpe : 0 <= pension_contribution_percentage (salary_settings s))
    (Htr : Forall (fun w => 0 <= wage w) (trainees s))
    (Hre : Forall (fun w => 0 <= wage w) (receptionists s))
    (Hai : Forall (fun x => 0 <= x) (dict_values (additional_income s))) :
  let m := fst (calculate_core_values s) in
  let s' := snd (calculate_core_values s) in
  0 <= weekly_service_sales m
  /\ 0 <= weekly_retail_sales m
  /\ 0 <= total_service_sales m
  /\ 0 <= retail_sales m
  /\ 0 <= total_sales m
  /\ 0 <= total_fixed_costs m
  /\ 0 <= monthly_retail_commission m
  /\ monthly_retail_commission m <= total_salary_cost m
  /\ Forall (fun x => 0 <= x) (dict_values (variable_costs_percentages s'))
  /\ 0 <= total_variable_costs m
  /\ profit m <= total_sales m.
Proof.
  cbv zeta.
  assert (Hws : 0 <= weekly_service_sales (fst (calculate_core_values s))).
  { rewrite weekly_service_sales_eq. apply py_sum_nonneg.
    apply Forall_map. revert Hst. apply Forall_impl. tauto. }
  assert (Hwr : 0 <= weekly_retail_sales (fst (calculate_core_values s))).
  { rewrite weekly_retail_sales_eq. apply Qc_nonneg_percent; assumption. }
  assert (Hsv : 0 <= total_service_sales (fst (calculate_core_values s))).
  { rewrite total_service_sales_eq.
    apply Qc_nonneg_mult; [ exact Hws | exact weekly_to_monthly_nonneg ]. }
  assert (Hrs : 0 <= retail_sales (fst (calculate_core_values s))).
  { rewrite retail_sales_eq.
    apply Qc_nonneg_mult; [ exact Hwr | exact weekly_to_monthly_nonneg ]. }
  assert (Hts : 0 <= total_sales (fst (calculate_core_values s))).
  { rewrite total_sales_eq, weekly_total_sales_eq.
    apply Qc_nonneg_plus.
    - apply Qc_nonneg_mult; [ | exact weekly_to_monthly_nonneg ].
      apply Qc_nonneg_plus; assumption.
    - rewrite total_additional_income_eq. apply py_sum_nonneg. exact Hai. }
  assert (Hfix : 0 <= total_fixed_costs (fst (calculate_core_values s))).
  { rewrite total_fixed_costs_eq. apply py_sum_nonneg. exact Hfc. }
  assert (Hpays :
            forall st, In st (stylists s) ->
              let p :=
                stylist_payroll
                  (weekly_service_sales (fst (calculate_core_values s)))
                  (retail_sales (fst (calculate_core_values s))
                   / weekly_to_monthly)
                  (service_commission_percentage (salary_settings s))
                  (retail_commission_percentage (salary_settings s)) st in
              0 <= stylist_retail_sales_weekly p
              /\ 0 <= retail_commission_amount p
              /\ retail_commission_amount p <= total_earnings p).
  { intros st Hin. rewrite Forall_forall in Hst. destruct (Hst st Hin).
    apply stylist_payroll_nonneg; try assumption.
    rewrite retail_sales_per_week. exact Hwr. }
  assert (Hwrc : 0 <= weekly_retail_commission
                        (fst (calculate_core_values s))).
  { rewrite (proj2 (weekly_stylist_figures s)). apply py_sum_nonneg.
    unfold stylist_pays. rewrite map_map. apply Forall_map.
    apply Forall_forall. intros st Hin. apply (Hpays st Hin). }
  assert (Hwrc_le :
            weekly_retail_commission (fst (calculate_core_values s))
            <= weekly_total_salary_cost (fst (calculate_core_values s))).
  { assert (H1 : weekly_retail_commission (fst (calculate_core_values s))
                 <= weekly_stylist_salary_cost
                      (fst (calculate_core_values s))).
    { rewrite (proj1 (weekly_stylist_figures s)),
        (proj2 (weekly_stylist_figures s)).
      unfold stylist_pays. rewrite !map_map. apply py_sum_le.
      intros st Hin. apply (Hpays st Hin). }
    assert (Htr0 : 0 <= weekly_trainee_salary_cost
                          (fst (calculate_core_values s))).
    { rewrite (proj1 (weekly_wage_figures s)). apply py_sum_nonneg.
      apply Forall_map. exact Htr. }
    assert (Hre0 : 0 <= weekly_receptionist_salary_cost
                          (fst (calculate_core_values s))).
    { rewrite (proj2 (weekly_wage_figures s)). apply py_sum_nonneg.
      apply Forall_map. exact Hre. }
    assert (H2 : weekly_retail_commission (fst (calculate_core_values s))
                 <= weekly_salary_cost (fst (calculate_core_values s))).
    { rewrite weekly_salary_cost_eq.
      apply (Qcle_trans _ _ _ H1).
      rewrite <- Qcplus_assoc. apply Qc_le_plus_nonneg.
      apply Qc_nonneg_plus; assumption. }
    assert (Hbase : 0 <= weekly_salary_cost (fst (calculate_core_values s)))
      by exact (Qcle_trans _ _ _ Hwrc H2).
    rewrite weekly_total_salary_cost_eq.
    apply (Qcle_trans _ _ _ H2). apply Qc_le_plus_nonneg.
    destruct (feedback_step_inputs s) as (_ & _ & -> & ->).
    apply Qc_nonneg_plus; apply Qc_nonneg_percent; assumption. }
  assert (Hmrc : 0 <= monthly_retail_commission
                        (fst (calculate_core_values s))).
  { rewrite monthly_retail_commission_eq.
    apply Qc_nonneg_mult; [ exact Hwrc | exact weekly_to_monthly_nonneg ]. }
  assert (Hmrc_le :
            monthly_retail_commission (fst (calculate_core_values s))
            <= total_salary_cost (fst (calculate_core_values s))).
  { rewrite monthly_retail_commission_eq, total_salary_cost_eq.
    apply Qcmult_le_compat_r;
      [ exact Hwrc_le | exact weekly_to_monthly_nonneg ]. }
  assert (Hvc' :
            Forall (fun x => 0 <= x)
                   (dict_values (variable_costs_percentages
                                   (snd (calculate_core_values s))))).
  { rewrite updated_percentages_eq. cbv zeta.
    assert (Hwages :
              0 <= (total_salary_cost (fst (calculate_core_values s))
                    - monthly_retail_commission
                        (fst (calculate_core_values s)))
                   / total_sales (fst (calculate_core_values s)) * qc 100).
    { apply Qc_nonneg_mult; [ | exact qc100_nonneg ].
      apply Qc_nonneg_div; [ | exact Hts ].
      apply (proj1 (Qcle_minus_iff _ _)). exact Hmrc_le. }
    assert (Hrate :
              0 <= monthly_retail_commission (fst (calculate_core_values s))
                   / retail_sales (fst (calculate_core_values s)) * qc 100).
    { apply Qc_nonneg_mult; [ | exact qc100_nonneg ].
      apply Qc_nonneg_div; assumption. }
    destruct (Qcgtb (retail_sales (fst (calculate_core_values s))) 0),
      (Qcgtb (total_sales (fst (calculate_core_values s))) 0);
      repeat (apply dict_set_values_Forall; [ assumption | ]);
      exact Hvc. }
  assert (Hvar : 0 <= total_variable_costs (fst (calculate_core_values s))).
  { rewrite total_variable_costs_eq. apply py_sum_nonneg.
    apply Forall_map. apply Forall_forall. intros [k p] Hin. cbn [fst snd].
    apply Qc_nonneg_percent.
    - apply base_value_nonneg; assumption.
    - rewrite Forall_forall in Hvc'. apply Hvc'.
      unfold dict_values. apply (in_map snd _ _ Hin). }
  repeat (split; [ assumption | ]).
  rewrite profit_eq. apply (proj2 (Qcle_minus_iff _ _)).
  replace (total_sales (fst (calculate_core_values s))
           + - (total_sales (fst (calculate_core_values s))
                - total_fixed_costs (fst (calculate_core_values s))
                - total_variable_costs (fst (calculate_core_values s))))
    with (total_fixed_costs (fst (calculate_core_values s))
          + total_variable_costs (fst (calculate_core_values s))) by ring.
  apply Qc_nonneg_plus; assumption.
Qed.

(** ** The roster of stylists *)

(** The engine reads the roster through two sums only. *)
Lemma calculate_core_values_roster (s : session_state) (l : list stylist) :
  py_sum (map sales l) = py_sum (map sales (stylists s)) ->
  (forall w r scp rcp,
      stylist_loop w r scp rcp l = stylist_loop w r scp rcp (stylists s)) ->
  fst (calculate_core_values (set_stylists s l))
  = fst (calculate_core_values s)
  /\ variable_costs_percentages
       (snd (calculate_core_values (set_stylists s l)))
     = variable_costs_percentages (snd (calculate_core_values s)).
Proof.
  intros Hsum Hloop.
  destruct s as [st rp fc v ss tr re ai].
  cbn [stylists] in Hsum, Hloop.
  unfold calculate_core_values, set_stylists.
  cbn [fst snd stylists retail_percentage fixed_costs salary_settings
       trainees receptionists additional_income variable_costs_percentages
       set_variable_costs_percentages].
  rewrite Hsum, Hloop. split; reflexivity.
Qed.

Lemma idle_stylist_pay (w r scp rcp : Qc) (n : string) :
  total_earnings (stylist_payroll w r scp rcp (mkStylist n 0 0)) = 0
  /\ retail_commission_amount (stylist_payroll w r scp rcp (mkStylist n 0 0))
     = 0.
Proof.
  unfold stylist_payroll.
  cbn [total_earnings retail_commission_amount sales guarantee].
  assert (H0 : 0 * (scp / qc 100) = 0) by ring.
  assert (Hshare : (if Qcgtb w 0 then r * (0 / w) else 0) = 0).
  { destruct (Qcgtb w 0); [ | reflexivity ]. unfold Qcdiv. ring. }
  rewrite H0, Hshare. unfold py_max. rewrite Qcgtb_irrefl.
  split; ring.
Qed.

(** A stylist without sales and without guarantee changes no figure. *)
Lemma idle_stylist_changes_nothing (s : session_state) (n : string) :
  fst (calculate_core_values
         (set_stylists s (stylists s ++ [mkStylist n 0 0])))
  = fst (calculate_core_values s).
Proof.
  apply calculate_core_values_roster.
  - rewrite map_app, py_sum_app. cbn [map sales].
    rewrite py_sum_cons, py_sum_nil. ring.
  - intros w r scp rcp. rewrite !stylist_loop_sum.
    rewrite !map_app, !py_sum_app. cbn [map].
    rewrite !py_sum_cons, !py_sum_nil.
    destruct (idle_stylist_pay w r scp rcp n) as [-> ->].
    apply f_equal2; ring.
Qed.

(** ** Edits and the undo buffer *)

Open Scope nat_scope.

Lemma set_additional_income_same (s : session_state) :
  set_additional_income s (additional_income s) = s.
Proof. destruct s. reflexivity. Qed.

Lemma list_pop_Some {A : Type} (l rest : list A) (x : A) :
  list_pop l = Some (rest, x) -> l = rest ++ [x].
Proof.
  unfold list_pop. intro H.
  destruct (rev l) as [ | y r ] eqn:E; [ discriminate H | ].
  injection H as <- <-.
  rewrite <- (rev_involutive l), E. reflexivity.
Qed.

(** An edit followed by an undo: the session is the one before the edit, and
    the stack is the one before the edit, less its oldest entry if it was
    full. *)
Theorem undo_reverts_edit (a : app_state) (e : edit_event) :
  pushes a e = true ->
  undo_last_change (edit_step a e)
  = (true,
     mkApp (session a)
           (if 10 <=? List.length (undo_stack a) then tl (undo_stack a)
            else undo_stack a)).
Proof.
  intro Hp.
  assert (Hgen :
            forall s1, additional_income s1 = additional_income (session a) ->
              undo_last_change (mkApp s1 (undo_stack (save_state_for_undo a)))
              = (true,
                 mkApp (session a)
                       (if 10 <=? List.length (undo_stack a)
                        then tl (undo_stack a) else undo_stack a))).
  { intros s1 Hai. rewrite undo_after_push, Hai, set_additional_income_same.
    reflexivity. }
  destruct e as [ | i | i v | v | k v | ]; cbn [edit_step pushes] in *.
  - apply Hgen. reflexivity.
  - unfold delete_stylist. rewrite Hp. cbv zeta.
    destruct (nth_error (stylists (session (save_state_for_undo a))) i);
      cbn [snd]; [ apply Hgen; reflexivity | ].
    exact (Hgen (session a) eq_refl).
  - unfold update_stylist_sales. cbv zeta.
    destruct (nth_error (stylists (session (save_state_for_undo a))) i);
      cbn [snd]; [ apply Hgen; reflexivity | ].
    exact (Hgen (session a) eq_refl).
  - apply Hgen. reflexivity.
  - apply Hgen. reflexivity.
  - discriminate Hp.
Qed.

Lemma list_update_length {A : Type} (i : nat) (f : A -> A) (l : list A) :
  List.length (list_update i f l) = List.length l.
Proof.
  revert i. induction l as [ | x l IH ]; intros [ | i ]; cbn; auto.
Qed.

Lemma list_remove_at_length {A : Type} (i : nat) (l : list A) :
  i < List.length l ->
  List.length (list_remove_at i l) = List.length l - 1.
Proof.
  revert i. induction l as [ | x l IH ]; intros [ | i ] H; cbn in *;
    try lia.
  rewrite IH by lia. lia.
Qed.

Lemma save_state_for_undo_entries (P : undo_state -> Prop) (a : app_state) :
  Forall P (undo_stack a) -> P (snapshot (session a)) ->
  Forall P (undo_stack (save_state_for_undo a)).
Proof.
  intros Hst Hcur. rewrite save_state_for_undo_stack.
  apply Forall_app. split; [ | repeat constructor; exact Hcur ].
  destruct (10 <=? List.length (undo_stack a)); [ | exact Hst ].
  destruct (undo_stack a); [ constructor | ].
  inversion Hst; assumption.
Qed.

(** The roster is never empty: of a session that starts with a stylist, no
    sequence of edits and undos leaves a roster without one. *)
Theorem roster_never_empty (s : session_state) (es : list edit_event) :
  stylists s <> [] ->
  stylists (session (edit_run (initial_app s) es)) <> [].
Proof.
  intro Hs.
  assert (Hinv :
            forall es a,
              0 < List.length (stylists (session a)) ->
              Forall (fun u => 0 < List.length (u_stylists u))
                     (undo_stack a) ->
              0 < List.length (stylists (session (edit_run a es)))).
  { clear. induction es as [ | e es IH ]; intros a Hcur Hst;
      [ exact Hcur | ].
    cbn [edit_run fold_left].
    pose proof (save_state_for_undo_entries _ a Hst Hcur) as Hpush.
    destruct e as [ | i | i v | v | k v | ]; cbn [edit_step].
    - apply IH; [ | exact Hpush ].
      cbn [add_stylist session set_stylists stylists].
      rewrite length_app. cbn. lia.
    - unfold delete_stylist.
      destruct (1 <? List.length (stylists (session a))) eqn:Eg;
        [ | apply IH; assumption ].
      apply Nat.ltb_lt in Eg. cbv zeta.
      destruct (nth_error (stylists (session (save_state_for_undo a))) i)
        eqn:En; cbn [snd].
      + apply IH; [ | exact Hpush ].
        cbn [session set_stylists stylists].
        rewrite list_remove_at_length.
        * change (stylists (session (save_state_for_undo a)))
            with (stylists (session a)). lia.
        * apply nth_error_Some. rewrite En. discriminate.
      + apply IH; [ exact Hcur | exact Hpush ].
    - unfold update_stylist_sales. cbv zeta.
      destruct (nth_error (stylists (session (save_state_for_undo a))) i);
        cbn [snd].
      + apply IH; [ | exact Hpush ].
        cbn [session set_stylists stylists]. rewrite list_update_length.
        exact Hcur.
      + apply IH; [ exact Hcur | exact Hpush ].
    - apply IH; [ exact Hcur | exact Hpush ].
    - apply IH; [ exact Hcur | exact Hpush ].
    - unfold undo_last_change.
      destruct (list_pop (undo_stack a)) as [ [rest previous_state] | ]
        eqn:Ep; cbn [snd]; [ | apply IH; assumption ].
      apply list_pop_Some in Ep. rewrite Ep in Hst.
      apply Forall_app in Hst. destruct Hst as [Hrest Hlast].
      inversion Hlast; subst.
      apply IH; [ cbn [session stylists]; assumption | exact Hrest ]. }
  assert (H0 : 0 < List.length
                     (stylists (session (edit_run (initial_app s) es)))).
  { apply Hinv; [ | constructor ].
    cbn [initial_app session]. destruct (stylists s); [ congruence | cbn; lia ]. }
  intro E. rewrite E in H0. cbn in H0. lia.
Qed.

Open Scope Qc_scope.

(** The button "Add Stylist" changes no figure of the engine: the new
    stylist has no sales and no guarantee. *)
Theorem add_stylist_keeps_figures (a : app_state) :
  fst (calculate_core_values (session (add_stylist a)))
  = fst (calculate_core_values (session a))
  /\ List.length (stylists (session (add_stylist a)))
     = S (List.length (stylists (session a))).
Proof.
  split.
  - apply idle_stylist_changes_nothing.
  - cbn [add_stylist session set_stylists stylists].
    change (stylists (session (save_state_for_undo a)))
      with (stylists (session a)).
    rewrite length_app. cbn [List.length]. apply Nat.add_1_r.
Qed.

Lemma py_sum_list_update (i : nat) (v : Qc) (l : list stylist) (st : stylist) :
  nth_error l i = Some st ->
  py_sum (map sales
            (list_update i (fun x => mkStylist (name x) v (guarantee x)) l))
  = py_sum (map sales l) - sales st + v.
Proof.
  revert i. induction l as [ | x l IH ]; intros [ | i ] H; cbn in H;
    try discriminate.
  - injection H as ->. cbn [list_update map sales].
    rewrite !py_sum_cons. ring.
  - cbn [list_update map]. rewrite !py_sum_cons, (IH i H). ring.
Qed.

Lemma py_sum_list_remove_at (i : nat) (l : list stylist) (st : stylist) :
  nth_error l i = Some st ->
  py_sum (map sales (list_remove_at i l)) = py_sum (map sales l) - sales st.
Proof.
  revert i. induction l as [ | x l IH ]; intros [ | i ] H; cbn in H;
    try discriminate.
  - injection H as ->. cbn [list_remove_at map]. rewrite !py_sum_cons. ring.
  - cbn [list_remove_at map]. rewrite !py_sum_cons, (IH i H). ring.
Qed.

(** Editing the sales of stylist [i] moves the weekly service sales by the
    difference; deleting stylist [i] of a roster of two or more takes the
    stylist's sales off them; an index beyond the roster raises IndexError and
    leaves the inputs as they were. *)
Theorem roster_edits_service_sales (a : app_state) (i : nat) (v : Qc) :
  let w := fun x : app_state =>
    weekly_service_sales (fst (calculate_core_values (session x))) in
  (forall st, nth_error (stylists (session a)) i = Some st ->
      fst (update_stylist_sales i v a) = Returned
      /\ w (snd (update_stylist_sales i v a)) = w a - sales st + v
      /\ ((1 < List.length (stylists (session a)))%nat ->
          fst (delete_stylist i a) = Returned
          /\ w (snd (delete_stylist i a)) = w a - sales st))
  /\ (nth_error (stylists (session a)) i = None ->
      fst (update_stylist_sales i v a) = IndexError
      /\ session (snd (update_stylist_sales i v a)) = session a
      /\ session (snd (delete_stylist i a)) = session a).
Proof.
  cbv zeta. split.
  - intros st Hi.
    unfold update_stylist_sales, delete_stylist. cbv zeta.
    change (stylists (session (save_state_for_undo a)))
      with (stylists (session a)).
    rewrite Hi. cbn [fst snd session].
    split; [ reflexivity | ]. split.
    + rewrite !weekly_service_sales_eq. cbn [set_stylists stylists].
      change (stylists (session (save_state_for_undo a)))
        with (stylists (session a)).
      apply py_sum_list_update. exact Hi.
    + intro Hlen. apply Nat.ltb_lt in Hlen. rewrite Hlen.
      cbn [fst snd session]. split; [ reflexivity | ].
      rewrite !weekly_service_sales_eq. cbn [set_stylists stylists].
      change (stylists (session (save_state_for_undo a)))
        with (stylists (session a)).
      apply py_sum_list_remove_at. exact Hi.
  - intro Hi.
    unfold update_stylist_sales, delete_stylist. cbv zeta.
    change (stylists (session (save_state_for_undo a)))
      with (stylists (session a)).
    rewrite Hi. cbn [fst snd].
    split; [ reflexivity | ]. split; [ reflexivity | ].
    destruct (1 <? List.length (stylists (session a))); reflexivity.
Qed.

(** ** The scenario table: deleting, loading, and what every table obeys *)

Open Scope nat_scope.

Section ScenarioTableOpsFacts.

Context {data : Type}.
Implicit Types (db : table data) (r : scenario_row data).

Lemma scenario_names_cons user_id r db :
  scenario_names user_id (r :: db)
  = if row_of_user user_id r then row_name r :: scenario_names user_id db
    else scenario_names user_id db.
Proof.
  unfold scenario_names. cbn [filter].
  destruct (row_of_user user_id r); reflexivity.
Qed.

Lemma row_matches_split user_id name r :
  row_matches user_id name r
  = (row_of_user user_id r && String.eqb (row_name r) name)%bool.
Proof. reflexivity. Qed.

(** Deleting takes at most one name away, and no name of the owner is left
    twice if none was there twice. *)
Lemma delete_first_names user_id name db u :
  (forall x, In x (scenario_names u (delete_first user_id name db)) ->
             In x (scenario_names u db))
  /\ (NoDup (scenario_names u db) ->
      NoDup (scenario_names u (delete_first user_id name db)))
  /\ List.length (scenario_names u (delete_first user_id name db))
     <= List.length (scenario_names u db).
Proof.
  induction db as [ | r db (IHin & IHnd & IHlen) ]; cbn [delete_first].
  - repeat split; auto.
  - destruct (row_matches user_id name r).
    + rewrite scenario_names_cons.
      destruct (row_of_user u r); repeat split; cbn; auto.
      intro H. inversion H; assumption.
    + rewrite !scenario_names_cons.
      destruct (row_of_user u r); [ | repeat split; assumption ].
      repeat split.
      * intros x [Hx | Hx]; [ now left | right; apply IHin; exact Hx ].
      * intro H. inversion H as [ | ? ? Hnotin Hnd ]; subst.
        constructor; [ | apply IHnd; exact Hnd ].
        intro Hin. apply Hnotin. apply IHin. exact Hin.
      * cbn [List.length]. lia.
Qed.

Lemma delete_first_gone user_id name db :
  NoDup (scenario_names user_id db) ->
  ~ In name (scenario_names user_id (delete_first user_id name db)).
Proof.
  induction db as [ | r db IH ]; cbn [delete_first]; [ intros _ [] | ].
  rewrite scenario_names_cons, row_matches_split.
  destruct (row_of_user user_id r) eqn:Eu; cbn [andb].
  - destruct (String.eqb_spec (row_name r) name) as [ <- | Hne ].
    + intro H. inversion H; assumption.
    + intro H. inversion H; subst.
      rewrite scenario_names_cons, Eu. intros [Hx | Hx]; [ contradiction | ].
      now apply IH.
  - intro H. rewrite scenario_names_cons, Eu. now apply IH.
Qed.

Lemma delete_first_count user_id name db :
  In name (scenario_names user_id db) ->
  S (scenario_count user_id (delete_first user_id name db))
  = scenario_count user_id db.
Proof.
  unfold scenario_count.
  induction db as [ | r db IH ]; cbn [delete_first]; [ intros [] | ].
  rewrite scenario_names_cons, row_matches_split. cbn [filter].
  destruct (row_of_user user_id r) eqn:Eu; cbn [andb].
  - destruct (String.eqb_spec (row_name r) name) as [ <- | Hne ].
    + intros _. reflexivity.
    + intros [Hx | Hx]; [ contradiction | ].
      cbn [filter]. rewrite Eu. cbn [List.length]. now rewrite IH.
  - intro Hx. cbn [filter]. rewrite Eu. now apply IH.
Qed.

Lemma delete_first_other user_id name db user_id' name' :
  user_id' <> user_id \/ name' <> name ->
  stored user_id' name' (delete_first user_id name db)
  = stored user_id' name' db.
Proof.
  intro Hne. unfold stored, query_first.
  induction db as [ | r db IH ]; cbn [find delete_first]; [ reflexivity | ].
  destruct (row_matches user_id name r) eqn:E.
  - destruct (row_matches user_id' name' r) eqn:E'; [ | reflexivity ].
    destruct (row_matches_inj _ _ _ _ _ E E'). tauto.
  - cbn [find]. destruct (row_matches user_id' name' r); [ reflexivity | ].
    exact IH.
Qed.

(** [delete_scenario] returns whether the owner had the name.  If so, the
    owner has one scenario less and, when the owner's names were distinct,
    the name is gone; if not, the table is as it was.  No other (owner, name)
    is touched. *)
Theorem delete_scenario_spec (user_id : Z) (name : string) db :
  let r := delete_scenario user_id name db in
  (In name (scenario_names user_id db) ->
   fst r = true
   /\ S (scenario_count user_id (snd r)) = scenario_count user_id db
   /\ (NoDup (scenario_names user_id db) ->
       stored user_id name (snd r) = None))
  /\ (~ In name (scenario_names user_id db) -> r = (false, db))
  /\ (forall user_id' name',
         user_id' <> user_id \/ name' <> name ->
         stored user_id' name' (snd r) = stored user_id' name' db).
Proof.
  cbv zeta. unfold delete_scenario.
  split; [ | split ].
  - intro Hin.
    destruct (query_first user_id name db) eqn:E.
    + cbn [fst snd]. split; [ reflexivity | ].
      split; [ apply delete_first_count; exact Hin | ].
      intro Hnd. unfold stored.
      rewrite (proj2 (query_first_None user_id name _)); [ reflexivity | ].
      apply delete_first_gone. exact Hnd.
    + apply query_first_None in E. contradiction.
  - intro Hout. apply query_first_None in Hout. rewrite Hout. reflexivity.
  - intros user_id' name' Hne.
    destruct (query_first user_id name db); cbn [snd]; [ | reflexivity ].
    apply delete_first_other. exact Hne.
Qed.

Lemma delete_first_insert user_id name description (d : data) now db :
  ~ In name (scenario_names user_id db) ->
  delete_first user_id name
    (db ++ [mkRow user_id name description d now now]) = db.
Proof.
  intro Hout. apply query_first_None in Hout. unfold query_first in Hout.
  induction db as [ | r db IH ]; cbn [app delete_first].
  - unfold row_matches. cbn [row_user_id row_name].
    rewrite Z.eqb_refl, String.eqb_refl. reflexivity.
  - cbn [find] in Hout.
    destruct (row_matches user_id name r); [ discriminate | ].
    now rewrite IH.
Qed.

(** Saving a new scenario and deleting it again gives back the table. *)
Theorem save_then_delete (user_id : Z) (name description : string)
    (d : data) (now : nat) db :
  ~ In name (scenario_names user_id db) ->
  scenario_count user_id db < 3 ->
  delete_scenario user_id name
    (snd (save_scenario user_id name description d now db))
  = (true, db).
Proof.
  intros Hnew Hroom.
  pose proof (proj2 (query_first_None user_id name db) Hnew) as Hq.
  unfold save_scenario. rewrite Hq.
  apply Nat.leb_gt in Hroom. rewrite Hroom. cbn [snd].
  unfold delete_scenario, query_first in *.
  rewrite (find_app_None _ _ _ Hq). cbn [find].
  unfold row_matches at 1. cbn [row_user_id row_name].
  rewrite Z.eqb_refl, String.eqb_refl. cbn [andb].
  f_equal. apply delete_first_insert. exact Hnew.
Qed.

(** What holds of the table of one owner. *)
Lemma save_scenario_keeps (user_id : Z) (name description : string)
    (d : data) (now : nat) db u :
  NoDup (scenario_names u db) /\ scenario_count u db <= 3 ->
  NoDup (scenario_names u
           (snd (save_scenario user_id name description d now db)))
  /\ scenario_count u
       (snd (save_scenario user_id name description d now db)) <= 3.
Proof.
  intros [Hnd Hc]. unfold save_scenario.
  destruct (query_first user_id name db) as [ existing | ] eqn:E; cbn [snd].
  - unfold scenario_names. rewrite update_first_filter, update_first_count.
    split; assumption.
  - destruct (3 <=? scenario_count user_id db) eqn:Ecap; cbn [snd];
      [ split; assumption | ].
    apply Nat.leb_gt in Ecap.
    unfold scenario_names, scenario_count in *.
    rewrite filter_app, map_app, length_app. cbn [filter].
    unfold row_of_user at 2 4. cbn [row_user_id].
    destruct (Z.eqb_spec user_id u) as [ -> | Hne ]; cbn [map List.length].
    + split; [ | lia ].
      apply NoDup_app; [ exact Hnd | repeat constructor; intros [] | ].
      intros x Hx [<- | []].
      apply query_first_None in E. apply E. exact Hx.
    + rewrite !app_nil_r. split; [ exact Hnd | lia ].
Qed.

Lemma delete_scenario_keeps (user_id : Z) (name : string) db u :
  NoDup (scenario_names u db) /\ scenario_count u db <= 3 ->
  NoDup (scenario_names u (snd (delete_scenario user_id name db)))
  /\ scenario_count u (snd (delete_scenario user_id name db)) <= 3.
Proof.
  intros [Hnd Hc]. unfold delete_scenario.
  destruct (query_first user_id name db); cbn [snd]; [ | split; assumption ].
  destruct (delete_first_names user_id name db u) as (_ & Hnd' & Hlen).
  split; [ apply Hnd'; exact Hnd | ].
  unfold scenario_count, scenario_names in *.
  rewrite !length_map in Hlen. lia.
Qed.

(** Saves and deletes keep a table in which an owner has at most 3
    scenarios, all of different names, such a table. *)
Lemma table_run_keeps (u : Z) (ops : list (table_op data)) db :
  NoDup (scenario_names u db) /\ scenario_count u db <= 3 ->
  NoDup (scenario_names u (table_run db ops))
  /\ scenario_count u (table_run db ops) <= 3.
Proof.
  revert db. induction ops as [ | op ops IH ]; intros db H; [ exact H | ].
  cbn [table_run fold_left]. apply IH.
  destruct op as [ user_id name description d now | user_id name ];
    cbn [table_step].
  - apply save_scenario_keeps. exact H.
  - apply delete_scenario_keeps. exact H.
Qed.

(** Whatever saves and deletes are made on an empty table, no owner ever has
    more than 3 scenarios or two scenarios of one name. *)
Theorem table_invariant (ops : list (table_op data)) (u : Z) :
  scenario_count u (table_run [] ops) <= 3
  /\ NoDup (scenario_names u (table_run [] ops)).
Proof.
  destruct (table_run_keeps u ops []) as [Hnd Hc].
  - split; [ constructor | cbn; lia ].
  - split; assumption.
Qed.

Variable strftime : nat -> string.

Lemma load_scenarios_from (rows : list (scenario_row data))
    (acc : dict (loaded_scenario data)) :
  NoDup (dict_keys acc ++ map row_name rows) ->
  fold_left
    (fun result scenario =>
       dict_set (row_name scenario)
         (mkLoaded (row_description scenario)
                   (strftime (row_updated_at scenario))
                   (row_data_json scenario))
         result)
    rows acc
  = acc
    ++ map (fun scenario =>
              (row_name scenario,
               mkLoaded (row_description scenario)
                        (strftime (row_updated_at scenario))
                        (row_data_json scenario)))
           rows.
Proof.
  revert acc. induction rows as [ | r rows IH ]; intros acc Hnd.
  - cbn. now rewrite app_nil_r.
  - cbn [fold_left map].
    assert (Hk : ~ In (row_name r) (dict_keys acc)).
    { intro Hin. cbn [map] in Hnd. apply NoDup_remove_2 in Hnd. apply Hnd.
      apply in_or_app. now left. }
    rewrite (dict_set_fresh _ _ acc Hk), IH.
    + rewrite <- app_assoc. reflexivity.
    + rewrite dict_keys_app. cbn [dict_keys map fst app].
      rewrite <- app_assoc. exact Hnd.
Qed.

Lemma load_scenarios_rows (user_id : Z) db :
  NoDup (scenario_names user_id db) ->
  load_scenarios strftime user_id db
  = map (fun scenario =>
           (row_name scenario,
            mkLoaded (row_description scenario)
                     (strftime (row_updated_at scenario))
                     (row_data_json scenario)))
        (filter (row_of_user user_id) db).
Proof.
  intro Hnd. unfold load_scenarios. cbv zeta.
  exact (load_scenarios_from (filter (row_of_user user_id) db) [] Hnd).
Qed.

Lemma load_scenarios_keys (user_id : Z) db :
  NoDup (scenario_names user_id db) ->
  dict_keys (load_scenarios strftime user_id db) = scenario_names user_id db.
Proof.
  intro Hnd. rewrite (load_scenarios_rows user_id db Hnd).
  unfold dict_keys, scenario_names. rewrite map_map. reflexivity.
Qed.

Lemma load_scenarios_get (user_id : Z) db (name : string) :
  NoDup (scenario_names user_id db) ->
  dict_get name (load_scenarios strftime user_id db)
  = option_map
      (fun r => mkLoaded (row_description r)
                         (strftime (row_updated_at r))
                         (row_data_json r))
      (query_first user_id name db).
Proof.
  intro Hnd. rewrite (load_scenarios_rows user_id db Hnd).
  unfold query_first, row_matches.
  clear Hnd. induction db as [ | r db IH ]; [ reflexivity | ].
  cbn [filter find]. unfold row_of_user at 1.
  destruct (Z.eqb (row_user_id r) user_id); cbn [andb map dict_get];
    [ | exact IH ].
  rewrite (String.eqb_sym name (row_name r)).
  destruct (String.eqb (row_name r) name); [ reflexivity | exact IH ].
Qed.

(** For an owner whose names are distinct, [load_scenarios] returns one
    entry per scenario, in table order, and the entry under a name holds
    the stored description, the formatted time of the last save and the
    stored payload. *)
Theorem load_scenarios_spec (user_id : Z) db :
  NoDup (scenario_names user_id db) ->
  dict_keys (load_scenarios strftime user_id db) = scenario_names user_id db
  /\ (forall name,
         dict_get name (load_scenarios strftime user_id db)
         = option_map
             (fun r => mkLoaded (row_description r)
                                (strftime (row_updated_at r))
                                (row_data_json r))
             (query_first user_id name db)).
Proof.
  intro Hnd. split.
  - exact (load_scenarios_keys user_id db Hnd).
  - intro name. exact (load_scenarios_get user_id db name Hnd).
Qed.

(** On a table made by saves and deletes, a save that succeeds is what
    [load_scenarios] then returns under the name, and the owner's dictionary
    never has more than 3 entries. *)
Theorem save_then_load (ops : list (table_op data)) (user_id : Z)
    (name description : string) (d : data) (now : nat) :
  let db := table_run [] ops in
  let r := save_scenario user_id name description d now db in
  List.length (load_scenarios strftime user_id (snd r)) <= 3
  /\ (fst (fst r) = true ->
      dict_get name (load_scenarios strftime user_id (snd r))
      = Some (mkLoaded description (strftime now) d)).
Proof.
  cbv zeta.
  assert (Hinv :
            NoDup (scenario_names user_id
                     (table_run [] (ops
                                    ++ [OpSave user_id name description d
                                               now])))
            /\ scenario_count user_id
                 (table_run [] (ops
                                ++ [OpSave user_id name description d now]))
               <= 3).
  { apply table_run_keeps. split; [ constructor | cbn; lia ]. }
  destruct Hinv as [Hnd Hc].
  unfold table_run in Hc, Hnd. rewrite fold_left_app in Hc, Hnd.
  cbn [fold_left table_step] in Hc, Hnd. fold (table_run [] ops) in Hc, Hnd.
  pose proof (load_scenarios_keys user_id _ Hnd) as Hkeys.
  pose proof (fun name => load_scenarios_get user_id _ name Hnd) as Hget.
  split.
  - rewrite <- (length_map fst). fold (dict_keys (load_scenarios strftime
      user_id (snd (save_scenario user_id name description d now
                      (table_run [] ops))))).
    rewrite Hkeys. unfold scenario_names. rewrite length_map. exact Hc.
  - intro Hok. rewrite Hget. clear Hget Hkeys Hc Hnd.
    unfold save_scenario in *.
    destruct (query_first user_id name (table_run [] ops)) as [ ex | ] eqn:E.
    + cbn [snd]. clear Hok.
      unfold query_first in *.
      induction (table_run [] ops) as [ | r db IH ]; [ discriminate E | ].
      cbn [find update_first] in *.
      destruct (row_matches user_id name r) eqn:Er.
      * cbn [find]. unfold row_matches in Er |- *.
        cbn [row_user_id row_name]. rewrite Er. reflexivity.
      * cbn [find]. rewrite Er. apply IH. exact E.
    + destruct (3 <=? scenario_count user_id (table_run [] ops));
        [ discriminate Hok | ].
      cbn [snd]. unfold query_first in *.
      rewrite (find_app_None _ _ _ E). cbn [find].
      unfold row_matches. cbn [row_user_id row_name].
      rewrite Z.eqb_refl, String.eqb_refl. reflexivity.
Qed.

End ScenarioTableOpsFacts.

Open Scope Qc_scope.

(** ** Stored user data *)

Lemma ud_matches_inj (u u' : Z) (t t' : string) (r : user_data_row) :
  ud_matches u t r = true -> ud_matches u' t' r = true -> u' = u /\ t' = t.
Proof.
  unfold ud_matches. intros H H'.
  apply andb_true_iff in H. apply andb_true_iff in H'.
  destruct H as [Hu Ht], H' as [Hu' Ht'].
  apply Z.eqb_eq in Hu. apply Z.eqb_eq in Hu'.
  apply String.eqb_eq in Ht. apply String.eqb_eq in Ht'.
  split; congruence.
Qed.

Lemma ud_update_first_found (u : Z) (t : string) (v : pyval) (now : nat)
    (db : user_data_table) :
  find (ud_matches u t) db <> None ->
  load_user_data u t (ud_update_first u t v now db) = Some v.
Proof.
  unfold load_user_data.
  induction db as [ | r db IH ]; cbn [find ud_update_first]; intro H.
  - contradiction.
  - destruct (ud_matches u t r) eqn:E; cbn [find].
    + unfold ud_matches in E |- *. cbn [ud_user_id ud_data_type].
      rewrite E. reflexivity.
    + rewrite E. apply IH. exact H.
Qed.

Lemma ud_update_first_other (u u' : Z) (t t' : string) (v : pyval)
    (now : nat) (db : user_data_table) :
  u' <> u \/ t' <> t ->
  load_user_data u' t' (ud_update_first u t v now db)
  = load_user_data u' t' db.
Proof.
  intro Hne. unfold load_user_data.
  induction db as [ | r db IH ]; cbn [find ud_update_first]; [ reflexivity | ].
  destruct (ud_matches u t r) eqn:E; cbn [find].
  - assert (E' : ud_matches u' t' r = false).
    { destruct (ud_matches u' t' r) eqn:E'; [ | reflexivity ].
      destruct (ud_matches_inj _ _ _ _ _ E E'). tauto. }
    unfold ud_matches in E' |- *. cbn [ud_user_id ud_data_type].
    rewrite E'. reflexivity.
  - destruct (ud_matches u' t' r); [ reflexivity | exact IH ].
Qed.

Lemma ud_update_first_length (u : Z) (t : string) (v : pyval) (now : nat)
    (db : user_data_table) :
  List.length (ud_update_first u t v now db) = List.length db.
Proof.
  induction db as [ | r db IH ]; cbn [ud_update_first]; [ reflexivity | ].
  destruct (ud_matches u t r); cbn [List.length]; congruence.
Qed.

Lemma find_app_not_found {A : Type} (f : A -> bool) (l1 l2 : list A) :
  find f l1 = None -> find f (l1 ++ l2) = find f l2.
Proof.
  induction l1 as [ | x l1 IH ]; cbn [find app]; [ reflexivity | ].
  destruct (f x); [ discriminate | exact IH ].
Qed.

Lemma find_app_found {A : Type} (f : A -> bool) (l1 l2 : list A) (x : A) :
  find f l1 = Some x -> find f (l1 ++ l2) = Some x.
Proof.
  induction l1 as [ | y l1 IH ]; cbn [find app]; [ discriminate | ].
  destruct (f y); [ trivial | exact IH ].
Qed.

Lemma load_after_save (u : Z) (t : string) (v : pyval) (now : nat)
    (db : user_data_table) :
  load_user_data u t (save_user_data u t v now db) = Some v.
Proof.
  unfold save_user_data.
  destruct (find (ud_matches u t) db) as [ existing | ] eqn:E.
  - apply ud_update_first_found. rewrite E. discriminate.
  - unfold load_user_data. rewrite (find_app_not_found _ _ _ E). cbn [find].
    unfold ud_matches. cbn [ud_user_id ud_data_type].
    rewrite Z.eqb_refl, String.eqb_refl. reflexivity.
Qed.

Lemma load_after_save_other (u : Z) (t : string) (v : pyval) (now : nat)
    (db : user_data_table) (u' : Z) (t' : string) :
  u' <> u \/ t' <> t ->
  load_user_data u' t' (save_user_data u t v now db)
  = load_user_data u' t' db.
Proof.
  intro Hne. unfold save_user_data.
  destruct (find (ud_matches u t) db) as [ existing | ] eqn:E.
  - apply ud_update_first_other. exact Hne.
  - unfold load_user_data.
    destruct (find (ud_matches u' t') db) as [ r | ] eqn:E'.
    + rewrite (find_app_found _ _ _ _ E'). reflexivity.
    + rewrite (find_app_not_found _ _ _ E'). cbn [find].
      destruct (ud_matches u' t' (mkUserData u t v now)) eqn:Em;
        [ | reflexivity ].
      unfold ud_matches in Em. cbn [ud_user_id ud_data_type] in Em.
      apply andb_true_iff in Em. destruct Em as [Hu Ht].
      apply Z.eqb_eq in Hu. apply String.eqb_eq in Ht.
      exfalso. destruct Hne as [Hne | Hne]; congruence.
Qed.

Lemma save_user_data_length (u : Z) (t : string) (v : pyval) (now : nat)
    (db : user_data_table) :
  List.length (save_user_data u t v now db)
  = (match load_user_data u t db with
     | Some _ => List.length db
     | None => S (List.length db)
     end).
Proof.
  unfold save_user_data, load_user_data.
  destruct (find (ud_matches u t) db) as [ existing | ] eqn:E.
  - apply ud_update_first_length.
  - rewrite length_app. cbn [List.length]. apply Nat.add_1_r.
Qed.

(** [save_user_data] then [load_user_data]: the value saved under
    (user, data type) is the value loaded; a value saved over an existing
    one takes its row; no other (user, data type) is touched. *)
Theorem user_data_round_trip (u : Z) (t : string) (v : pyval) (now : nat)
    (db : user_data_table) :
  load_user_data u t (save_user_data u t v now db) = Some v
  /\ (forall u' t', u' <> u \/ t' <> t ->
        load_user_data u' t' (save_user_data u t v now db)
        = load_user_data u' t' db)
  /\ List.length (save_user_data u t v now db)
     = (match load_user_data u t db with
        | Some _ => List.length db
        | None => S (List.length db)
        end).
Proof.
  split; [ apply load_after_save | ].
  split; [ intros u' t'; apply load_after_save_other
         | apply save_user_data_length ].
Qed.

Lemma initialize_user_data_rows (u : Z) (now : nat) (db : user_data_table) :
  initialize_user_data u now db
  = db ++ map (fun item => mkUserData u (fst item) (snd item) now)
              default_data.
Proof.
  unfold initialize_user_data. generalize default_data. intro l.
  revert db. induction l as [ | x l IH ]; intro db; cbn [fold_left map].
  - now rewrite app_nil_r.
  - rewrite IH, <- app_assoc. reflexivity.
Qed.

Lemma find_default_rows (u u' : Z) (t : string) (now : nat)
    (l : dict pyval) :
  find (ud_matches u' t)
       (map (fun item => mkUserData u (fst item) (snd item) now) l)
  = if Z.eqb u u'
    then option_map (fun v => mkUserData u t v now) (dict_get t l)
    else None.
Proof.
  induction l as [ | [k v] l IH ]; cbn [map find dict_get fst snd].
  - destruct (Z.eqb u u'); reflexivity.
  - unfold ud_matches at 1. cbn [ud_user_id ud_data_type].
    destruct (Z.eqb u u') eqn:Eu; cbn [andb]; [ | exact IH ].
    rewrite (String.eqb_sym t k).
    destruct (String.eqb_spec k t) as [ -> | Hne ]; [ reflexivity | ].
    exact IH.
Qed.

(** [initialize_user_data] for a user who has no rows yet: afterwards each
    of the eight data types loads as its default, any other data type loads
    as None, and the rows of the other users are as before. *)
Theorem initialize_user_data_defaults (u : Z) (now : nat)
    (db : user_data_table) :
  (forall t, load_user_data u t db = None) ->
  (forall t, load_user_data u t (initialize_user_data u now db)
             = dict_get t default_data)
  /\ (forall u' t, u' <> u ->
        load_user_data u' t (initialize_user_data u now db)
        = load_user_data u' t db).
Proof.
  intro Hnone. rewrite initialize_user_data_rows. split.
  - intro t. pose proof (Hnone t) as Ht. unfold load_user_data in *.
    destruct (find (ud_matches u t) db) eqn:E; [ discriminate Ht | ].
    rewrite (find_app_not_found _ _ _ E), find_default_rows, Z.eqb_refl.
    destruct (dict_get t default_data); reflexivity.
  - intros u' t Hne. unfold load_user_data.
    destruct (find (ud_matches u' t) db) as [ r | ] eqn:E.
    + rewrite (find_app_found _ _ _ _ E). reflexivity.
    + rewrite (find_app_not_found _ _ _ E), find_default_rows.
      destruct (Z.eqb_spec u u') as [ <- | _ ]; [ congruence | reflexivity ].
Qed.

(** ** The session functions of [auth.py] *)

Lemma dict_mem_false {V : Type} (k : string) (d : dict V) :
  dict_mem k d = false <-> dict_get k d = None.
Proof.
  unfold dict_mem. destruct (dict_get k d); split; congruence.
Qed.

Lemma dict_del_absent {V : Type} (k : string) (d : dict V) :
  dict_get k d = None -> dict_del k d = d.
Proof.
  induction d as [ | [k' v'] d IH ]; cbn [dict_get dict_del];
    [ reflexivity | ].
  destruct (String.eqb k k'); [ discriminate | ].
  intro H. now rewrite IH.
Qed.

Lemma dict_get_del_other {V : Type} (k k0 : string) (d : dict V) :
  String.eqb k0 k = false -> dict_get k0 (dict_del k d) = dict_get k0 d.
Proof.
  intro Hne. induction d as [ | [k' v'] d IH ]; cbn [dict_get dict_del];
    [ reflexivity | ].
  destruct (String.eqb_spec k k') as [ <- | Hk ].
  - now rewrite Hne.
  - cbn [dict_get]. now rewrite IH.
Qed.

Lemma dict_get_In {V : Type} (k : string) (d : dict V) :
  In k (dict_keys d) <-> dict_get k d <> None.
Proof.
  induction d as [ | [k' v'] d IH ]; cbn [dict_keys map fst In dict_get].
  - tauto.
  - destruct (String.eqb_spec k k') as [ -> | Hk ].
    + split; [ discriminate | auto ].
    + rewrite <- IH. unfold dict_keys. split; [ | tauto ].
      intros [H | H]; [ congruence | exact H ].
Qed.

Lemma dict_del_keys {V : Type} (k : string) (d : dict V) :
  NoDup (dict_keys d) ->
  NoDup (dict_keys (dict_del k d)) /\ dict_get k (dict_del k d) = None.
Proof.
  induction d as [ | [k' v'] d IH ]; cbn [dict_del dict_keys map fst].
  - intros _. split; [ constructor | reflexivity ].
  - intro H. inversion H as [ | ? ? Hout Hnd ]; subst.
    destruct (String.eqb_spec k k') as [ -> | Hk ].
    + split; [ exact Hnd | ].
      destruct (dict_get k' d) eqn:E; [ | reflexivity ].
      exfalso. apply Hout. apply dict_get_In. fold (dict_keys d) in *.
      congruence.
    + destruct (IH Hnd) as [IHnd IHget]. cbn [dict_keys map fst dict_get].
      split.
      * constructor; [ | exact IHnd ].
        intro Hin. apply Hout. apply dict_get_In in Hin.
        apply dict_get_In. rewrite dict_get_del_other in Hin; [ exact Hin | ].
        apply String.eqb_neq. congruence.
      * apply String.eqb_neq in Hk. rewrite Hk. exact IHget.
Qed.

Lemma logout_step_del {V : Type} (k : string) (d : dict V) :
  (if dict_mem k d then dict_del k d else d) = dict_del k d.
Proof.
  destruct (dict_mem k d) eqn:E; [ reflexivity | ].
  symmetry. apply dict_del_absent. apply dict_mem_false. exact E.
Qed.

Lemma logout_values (keys : list string) (d : dict pyval) :
  NoDup (dict_keys d) ->
  let d' :=
    fold_left (fun d key => if dict_mem key d then dict_del key d else d)
              keys d in
  NoDup (dict_keys d')
  /\ (forall k, In k keys -> dict_get k d' = None)
  /\ (forall k, ~ In k keys -> dict_get k d' = dict_get k d).
Proof.
  cbv zeta. revert d.
  induction keys as [ | key keys IH ]; intros d Hnd; cbn [fold_left].
  - repeat split; [ exact Hnd | intros k [] ].
  - rewrite logout_step_del.
    destruct (dict_del_keys key d Hnd) as [Hnd' Hgone].
    destruct (IH (dict_del key d) Hnd') as (IHnd & IHin & IHout).
    split; [ exact IHnd | ]. split.
    + intros k [<- | Hk].
      * destruct (in_dec string_dec key keys) as [Hin | Hout];
          [ apply IHin; exact Hin | ].
        rewrite (IHout key Hout). exact Hgone.
      * apply IHin. exact Hk.
    + intros k Hk. rewrite IHout by (intro; apply Hk; now right).
      apply dict_get_del_other. apply String.eqb_neq.
      intro E. apply Hk. left. congruence.
Qed.

Lemma logout_data_gone (ws : web_session) (k : string) :
  NoDup (dict_keys (ws_values ws)) ->
  In k logout_data_keys ->
  dict_get k (ws_values (logout ws)) = None.
Proof.
  intros Hnd Hin.
  destruct (logout_values logout_data_keys (ws_values ws) Hnd)
    as (_ & Hgone & _).
  exact (Hgone k Hin).
Qed.

(** [logout] removes the four keys of the login and the nine data keys, and
    leaves every other key of the session with its value. *)
Theorem logout_clears (ws : web_session) :
  NoDup (dict_keys (ws_values ws)) ->
  ws_user_id (logout ws) = None
  /\ ws_username (logout ws) = None
  /\ ws_salon_name (logout ws) = None
  /\ ws_authenticated (logout ws) = None
  /\ (forall k, In k logout_data_keys ->
        dict_get k (ws_values (logout ws)) = None)
  /\ (forall k, ~ In k logout_data_keys ->
        dict_get k (ws_values (logout ws)) = dict_get k (ws_values ws)).
Proof.
  intro Hnd.
  destruct (logout_values logout_data_keys (ws_values ws) Hnd)
    as (_ & Hin & Hout).
  repeat split; assumption.
Qed.

Lemma save_session_other (u : Z) (now : nat) (V : dict pyval)
    (ts : list string) (db : user_data_table) (u' : Z) (t : string) :
  u' <> u \/ ~ In t ts ->
  load_user_data u' t
    (fold_left
       (fun db data_type =>
          match dict_get data_type V with
          | Some v => save_user_data u data_type v now db
          | None => db
          end)
       ts db)
  = load_user_data u' t db.
Proof.
  revert db. induction ts as [ | t0 ts IH ]; intros db Hne; cbn [fold_left].
  - reflexivity.
  - rewrite IH by (destruct Hne as [H | H]; [ now left | right; cbn in H; tauto ]).
    destruct (dict_get t0 V) as [ v | ]; [ | reflexivity ].
    apply load_after_save_other.
    destruct Hne as [H | H]; [ now left | right ].
    intro E. apply H. left. congruence.
Qed.

Lemma save_session_saved (u : Z) (now : nat) (V : dict pyval)
    (ts : list string) (db : user_data_table) (t : string) (v : pyval) :
  NoDup ts -> In t ts -> dict_get t V = Some v ->
  load_user_data u t
    (fold_left
       (fun db data_type =>
          match dict_get data_type V with
          | Some v => save_user_data u data_type v now db
          | None => db
          end)
       ts db)
  = Some v.
Proof.
  revert db. induction ts as [ | t0 ts IH ]; intros db Hnd Hin Hv;
    [ contradiction | ].
  inversion Hnd as [ | ? ? Hout Hnd' ]; subst. cbn [fold_left].
  destruct Hin as [ -> | Hin ].
  - rewrite save_session_other by (right; exact Hout).
    rewrite Hv. apply load_after_save.
  - apply IH; assumption.
Qed.

Lemma load_session_values (u : Z) (db : user_data_table) (l d : dict pyval)
    (t : string) :
  dict_get t
    (fold_left
       (fun d item =>
          if dict_mem (fst item) d then d
          else dict_set (fst item)
                 (match load_user_data u (fst item) db with
                  | Some v => v
                  | None => snd item
                  end) d)
       l d)
  = match dict_get t d with
    | Some x => Some x
    | None =>
        option_map
          (fun default_value =>
             match load_user_data u t db with
             | Some v => v
             | None => default_value
             end)
          (dict_get t l)
    end.
Proof.
  revert d. induction l as [ | [k dflt] l IH ]; intro d;
    cbn [fold_left fst snd dict_get].
  - destruct (dict_get t d); reflexivity.
  - rewrite IH. unfold dict_mem.
    destruct (String.eqb_spec t k) as [ -> | Hne ].
    + destruct (dict_get k d) eqn:E.
      * rewrite E. reflexivity.
      * rewrite dict_get_set_same. reflexivity.
    + apply String.eqb_neq in Hne.
      destruct (dict_get k d); [ reflexivity | ].
      rewrite (dict_get_set_other _ _ _ _ Hne). reflexivity.
Qed.

Lemma saved_data_types_NoDup : NoDup saved_data_types.
Proof.
  unfold saved_data_types.
  repeat (constructor;
          [ simpl; intro H;
            repeat (destruct H as [H | H]; [ discriminate H | ]); exact H | ]).
  constructor.
Qed.

(** What is saved at the end of a session is what the next login loads:
    after [save_user_session_data], [logout] and a new login of the same
    user, [load_user_session_data] puts every one of the eight data types
    the session held back with the value it had. *)
Theorem session_data_round_trip (ws : web_session) (u : Z) (now : nat)
    (db : user_data_table) (username salon_name : string) :
  ws_user_id ws = Some u ->
  NoDup (dict_keys (ws_values ws)) ->
  let db' := save_user_session_data ws now db in
  let ws' :=
    load_user_session_data
      (login_session (logout ws) u username salon_name) db' in
  forall t v,
    In t saved_data_types ->
    dict_get t (ws_values ws) = Some v ->
    dict_get t (ws_values ws') = Some v.
Proof.
  intros Hu Hnd. cbv zeta. intros t v Hin Hv.
  unfold load_user_session_data, login_session.
  cbn [ws_user_id ws_values].
  rewrite (load_session_values u _ default_data).
  rewrite (logout_data_gone ws t Hnd).
  - unfold save_user_session_data. rewrite Hu.
    rewrite (save_session_saved u now (ws_values ws) saved_data_types db t v
               saved_data_types_NoDup Hin Hv).
    assert (Hd : In t (dict_keys default_data)) by exact Hin.
    apply dict_get_In in Hd.
    destruct (dict_get t default_data); [ reflexivity | contradiction ].
  - unfold logout_data_keys. unfold saved_data_types in Hin.
    cbn [In] in *. tauto.
Qed.

(** A data type the session does not hold at login is loaded from the
    table, or set to its default when the table has no row for it; a data
    type already in the session is left alone, and without a user id nothing
    is loaded. *)
Theorem load_user_session_data_spec (ws : web_session)
    (db : user_data_table) :
  (ws_user_id ws = None -> load_user_session_data ws db = ws)
  /\ (forall u t,
         ws_user_id ws = Some u ->
         dict_get t (ws_values (load_user_session_data ws db))
         = match dict_get t (ws_values ws) with
           | Some x => Some x
           | None =>
               option_map
                 (fun default_value =>
                    match load_user_data u t db with
                    | Some v => v
                    | None => default_value
                    end)
                 (dict_get t default_data)
           end).
Proof.
  unfold load_user_session_data. split.
  - intros ->. reflexivity.
  - intros u t ->. cbn [ws_values].
    apply (load_session_values u db default_data).
Qed.

(** ** The session cache of scenarios *)

Lemma append_inj_l (a b c : string) :
  String.append a b = String.append a c -> b = c.
Proof.
  induction a as [ | ch a IH ]; cbn [String.append]; intro H;
    [ exact H | ].
  injection H as H. apply IH. exact H.
Qed.

Lemma replace_spaces_id (s : string) :
  (forall c, In c (list_ascii_of_string s) -> c <> " "%char) ->
  replace_spaces s = s.
Proof.
  induction s as [ | c s IH ]; cbn [replace_spaces list_ascii_of_string];
    intro H; [ reflexivity | ].
  destruct (Ascii.eqb_spec c " "%char) as [ -> | Hc ].
  - exfalso. apply (H " "%char); [ now left | reflexivity ].
  - rewrite IH; [ reflexivity | ]. intros c' Hc'. apply H. now right.
Qed.

(** The cache returns under a name what was last saved under any name with
    the same key, and two names have the same key exactly when they are the
    same after their spaces are replaced by underscores; names without
    spaces keep apart. *)
Theorem session_cache_round_trip {V : Type} (n : string) (d : V)
    (c : option (dict V)) :
  let c' := save_scenario_to_session_cache n d c in
  fst (load_scenario_from_session_cache n c') = Some d
  /\ (forall n',
         replace_spaces n' = replace_spaces n ->
         fst (load_scenario_from_session_cache n' c') = Some d)
  /\ (forall n',
         replace_spaces n' <> replace_spaces n ->
         fst (load_scenario_from_session_cache n' c')
         = fst (load_scenario_from_session_cache n' c))
  /\ (forall n',
         (forall ch, In ch (list_ascii_of_string n) -> ch <> " "%char) ->
         (forall ch, In ch (list_ascii_of_string n') -> ch <> " "%char) ->
         n' <> n ->
         fst (load_scenario_from_session_cache n' c')
         = fst (load_scenario_from_session_cache n' c)).
Proof.
  cbv zeta.
  assert (Hsame : forall n', replace_spaces n' = replace_spaces n ->
            fst (load_scenario_from_session_cache n'
                   (save_scenario_to_session_cache n d c)) = Some d).
  { intros n' E.
    unfold load_scenario_from_session_cache, save_scenario_to_session_cache,
      get_embedded_storage_key.
    cbn [fst]. rewrite E. apply dict_get_set_same. }
  assert (Hother : forall n', replace_spaces n' <> replace_spaces n ->
            fst (load_scenario_from_session_cache n'
                   (save_scenario_to_session_cache n d c))
            = fst (load_scenario_from_session_cache n' c)).
  { intros n' Hne.
    unfold load_scenario_from_session_cache, save_scenario_to_session_cache,
      get_embedded_storage_key.
    cbn [fst]. apply dict_get_set_other. apply String.eqb_neq.
    intro E. apply Hne. exact (append_inj_l _ _ _ E). }
  split; [ apply Hsame; reflexivity | ].
  split; [ exact Hsame | ]. split; [ exact Hother | ].
  intros n' Hn Hn' Hne. apply Hother.
  rewrite (replace_spaces_id n Hn), (replace_spaces_id n' Hn'). exact Hne.
Qed.

(** ** The scenario tab *)

Lemma inputs_of_after_call (p : page_state) :
  inputs_of (snd (calculate_core_values_on p))
  = snd (calculate_core_values (inputs_of p)).
Proof. reflexivity. Qed.

(** A second call of the engine on a page state returns what the first
    returned and changes nothing. *)
Lemma calculate_core_values_on_idempotent (p : page_state) :
  calculate_core_values_on (snd (calculate_core_values_on p))
  = (fst (calculate_core_values_on p), snd (calculate_core_values_on p)).
Proof.
  unfold calculate_core_values_on at 1.
  rewrite inputs_of_after_call, calculate_core_values_again.
  reflexivity.
Qed.

(** The metrics a saved scenario carries are the engine's figures for the
    plan at the moment of the save, all seven from the same call, and after
    the save the session holds the inputs as one call of the engine leaves
    them. *)
Theorem saved_scenario_metrics (n d t : string) (p : page_state) :
  fst (save_current_plan n d t p) = Saved ->
  let m := fst (calculate_core_values (inputs_of p)) in
  let p1 := snd (save_current_plan n d t p) in
  option_map sc_metrics (dict_get n (scenarios p1))
  = Some (mkScenarioMetrics
            (total_service_sales m) (retail_sales m) (total_sales m)
            (total_fixed_costs m) (total_variable_costs m) (profit m)
            (profit_margin m))
  /\ inputs_of p1 = snd (calculate_core_values (inputs_of p))
  /\ current_scenario_name p1 = n.
Proof.
  unfold save_current_plan.
  destruct (negb (String.eqb n EmptyString)); [ | discriminate ].
  destruct ((3 <=? List.length (scenarios p))
            && negb (dict_mem n (scenarios p)))%bool; [ discriminate | ].
  intros _. cbv zeta.
  repeat (rewrite !calculate_core_values_on_idempotent; cbn [fst snd]).
  cbn [scenarios current_scenario_name].
  rewrite dict_get_set_same. cbn [option_map sc_metrics].
  repeat split.
Qed.

Lemma dict_set_length {V : Type} (k : string) (v : V) (d : dict V) :
  List.length (dict_set k v d)
  = if dict_mem k d then List.length d else S (List.length d).
Proof.
  unfold dict_mem.
  induction d as [ | [k' v'] d IH ]; cbn [dict_get dict_set List.length].
  - reflexivity.
  - destruct (String.eqb k k'); cbn [List.length]; [ reflexivity | ].
    rewrite IH. destruct (dict_get k d); reflexivity.
Qed.

Lemma dict_del_length {V : Type} (k : string) (d : dict V) :
  (List.length (dict_del k d) <= List.length d)%nat.
Proof.
  induction d as [ | [k' v'] d IH ]; cbn [dict_del List.length]; [ lia | ].
  destruct (String.eqb k k'); cbn [List.length]; lia.
Qed.

Lemma dict_mem_set {V : Type} (k k0 : string) (v : V) (d : dict V) :
  dict_mem k0 (dict_set k v d)
  = (String.eqb k0 k || dict_mem k0 d)%bool.
Proof.
  unfold dict_mem. destruct (String.eqb_spec k0 k) as [ -> | Hne ].
  - now rewrite dict_get_set_same.
  - rewrite dict_get_set_other by (apply String.eqb_neq; exact Hne).
    reflexivity.
Qed.

(** What the three buttons keep: the session never holds more than 3
    scenarios, and a scenario that is the active one and stored stays
    stored: the delete button refuses it. *)
Theorem scenario_tab_invariant (p : page_state) (es : list scenario_event) :
  (List.length (scenarios p) <= 3)%nat ->
  (List.length (scenarios (scenario_run p es)) <= 3)%nat
  /\ (dict_mem (current_scenario_name p) (scenarios p) = true ->
      dict_mem (current_scenario_name (scenario_run p es))
               (scenarios (scenario_run p es)) = true).
Proof.
  revert p. induction es as [ | e es IH ]; intros p Hlen.
  - split; [ exact Hlen | trivial ].
  - cbn [scenario_run fold_left].
    assert (Hstep :
              (List.length (scenarios (scenario_step p e)) <= 3)%nat
              /\ (dict_mem (current_scenario_name p) (scenarios p) = true ->
                  dict_mem (current_scenario_name (scenario_step p e))
                           (scenarios (scenario_step p e)) = true)).
    { destruct e as [ n d t | n | n ]; cbn [scenario_step].
      - unfold save_current_plan.
        destruct (negb (String.eqb n EmptyString));
          [ | split; [ exact Hlen | trivial ] ].
        destruct (3 <=? List.length (scenarios p)) eqn:Ecap;
          destruct (dict_mem n (scenarios p)) eqn:Emem; cbn [andb negb snd];
          try (split; [ exact Hlen | trivial ]).
        + cbv zeta. cbn [scenarios current_scenario_name].
          change (scenarios (snd (calculate_core_values_on _)))
            with (scenarios p).
          rewrite dict_set_length, dict_mem_set, Emem, String.eqb_refl.
          split; [ exact Hlen | reflexivity ].
        + cbv zeta. cbn [scenarios current_scenario_name].
          change (scenarios (snd (calculate_core_values_on _)))
            with (scenarios p).
          rewrite dict_set_length, dict_mem_set, Emem, String.eqb_refl.
          split; [ exact Hlen | reflexivity ].
        + cbv zeta. cbn [scenarios current_scenario_name].
          change (scenarios (snd (calculate_core_values_on _)))
            with (scenarios p).
          rewrite dict_set_length, dict_mem_set, Emem, String.eqb_refl.
          apply Nat.leb_gt in Ecap. split; [ lia | reflexivity ].
      - unfold load_selected_scenario.
        destruct (dict_get n (scenarios p)) eqn:E;
          [ | split; [ exact Hlen | trivial ] ].
        cbn [scenarios current_scenario_name].
        split; [ exact Hlen | ]. intros _. unfold dict_mem. now rewrite E.
      - unfold delete_selected_scenario.
        destruct (dict_mem n (scenarios p));
          [ | split; [ exact Hlen | trivial ] ].
        destruct (String.eqb n (current_scenario_name p)) eqn:En;
          cbn [snd]; [ split; [ exact Hlen | trivial ] | ].
        cbn [scenarios current_scenario_name]. split.
        + pose proof (dict_del_length n (scenarios p)). lia.
        + unfold dict_mem. rewrite dict_get_del_other; [ trivial | ].
          rewrite String.eqb_sym. exact En. }
    destruct Hstep as [Hlen' Hact'].
    destruct (IH (scenario_step p e) Hlen') as [IHlen IHact].
    split; [ exact IHlen | ]. intro Hact. apply IHact. apply Hact'.
    exact Hact.
Qed.

(** The delete button: a stored scenario that is not the active one is
    removed and the other scenarios and every input stay; the active one is
    refused; a name that is not stored does nothing. *)
Theorem delete_selected_scenario_spec (n : string) (p : page_state) :
  NoDup (dict_keys (scenarios p)) ->
  let r := delete_selected_scenario n p in
  inputs_of (snd r) = inputs_of p
  /\ current_scenario_name (snd r) = current_scenario_name p
  /\ (forall n', n' <> n ->
        dict_get n' (scenarios (snd r)) = dict_get n' (scenarios p))
  /\ (fst r = Deleted ->
      n <> current_scenario_name p /\ dict_get n (scenarios (snd r)) = None)
  /\ (n = current_scenario_name p -> snd r = p).
Proof.
  intro Hnd. cbv zeta. unfold delete_selected_scenario.
  destruct (dict_mem n (scenarios p)) eqn:Emem.
  - destruct (String.eqb_spec n (current_scenario_name p)) as [ En | En ];
      cbn [fst snd].
    + repeat split; try discriminate; trivial.
    + split; [ reflexivity | ]. split; [ reflexivity | ].
      split; [ | split; [ | contradiction ] ].
      * intros n' Hne. cbn [scenarios]. apply dict_get_del_other.
        apply String.eqb_neq. exact Hne.
      * intros _. split; [ exact En | ]. cbn [scenarios].
        apply dict_del_keys. exact Hnd.
  - cbn [fst snd]. repeat split; try discriminate; trivial.
Qed.

(** ** The properties above at sample values *)

(** A stylist with a guarantee of 300 and a service commission rate of 0. *)
Lemma guarantee_floor_witness :
  let st := mkStylist "Stylist 1" (qc 1000) (qc 300) in
  let p := stylist_payroll (qc 1600) (qc 320) 0 (qc 10) st in
  0 <= guarantee st
  /\ service_earnings p = qc 300
  /\ total_earnings p = qc 300 + retail_commission_amount p.
Proof.
  cbv zeta.
  assert (Hg : 0 <= guarantee (mkStylist "Stylist 1" (qc 1000) (qc 300)))
    by qc_le.
  destruct (guarantee_floor (qc 1600) (qc 320) 0 (qc 10)
              (mkStylist "Stylist 1" (qc 1000) (qc 300)))
    as (_ & _ & _ & _ & Hzero).
  destruct (Hzero eq_refl Hg) as [He Ht].
  split; [ exact Hg | ]. split; [ exact He | exact Ht ].
Defined.

(** The signs of the figures at the sample salon. *)
Lemma nonnegative_figures_witness :
  let m := fst (calculate_core_values sample_session) in
  0 <= retail_percentage sample_session
  /\ 0 <= total_sales m
  /\ 0 <= total_variable_costs m
  /\ monthly_retail_commission m <= total_salary_cost m
  /\ profit m <= total_sales m.
Proof.
  cbv zeta.
  assert (Hrp : 0 <= retail_percentage sample_session) by qc_le.
  assert (H : let m := fst (calculate_core_values sample_session) in
              let s' := snd (calculate_core_values sample_session) in
              0 <= weekly_service_sales m
              /\ 0 <= weekly_retail_sales m
              /\ 0 <= total_service_sales m
              /\ 0 <= retail_sales m
              /\ 0 <= total_sales m
              /\ 0 <= total_fixed_costs m
              /\ 0 <= monthly_retail_commission m
              /\ monthly_retail_commission m <= total_salary_cost m
              /\ Forall (fun x => 0 <= x)
                        (dict_values (variable_costs_percentages s'))
              /\ 0 <= total_variable_costs m
              /\ profit m <= total_sales m).
  { apply nonnegative_figures;
      first [ exact Hrp
            | qc_le
            | repeat (constructor; [ first [ qc_le | split; qc_le ] | ]);
              constructor ]. }
  cbv zeta in H.
  destruct H as (_ & _ & _ & _ & Hts & _ & _ & Hle & _ & Hvar & Hprofit).
  split; [ exact Hrp | ]. split; [ exact Hts | ]. split; [ exact Hvar | ].
  split; [ exact Hle | exact Hprofit ].
Defined.

(** Deleting the second stylist of the sample salon, then undoing. *)
Lemma undo_reverts_edit_witness :
  let a := initial_app sample_session in
  pushes a (DeleteStylist 1) = true
  /\ undo_last_change (edit_step a (DeleteStylist 1))
     = (true,
        mkApp (session a)
              (if (10 <=? List.length (undo_stack a))%nat
               then tl (undo_stack a) else undo_stack a)).
Proof.
  cbv zeta.
  assert (Hp : pushes (initial_app sample_session) (DeleteStylist 1) = true)
    by reflexivity.
  split; [ exact Hp | ].
  exact (undo_reverts_edit (initial_app sample_session) (DeleteStylist 1) Hp).
Defined.

(** Deletes, an add and an undo on the sample salon. *)
Lemma roster_never_empty_witness :
  let es := [DeleteStylist 0; DeleteStylist 0; AddStylist; UndoLast;
             DeleteStylist 0] in
  stylists sample_session <> []
  /\ stylists (session (edit_run (initial_app sample_session) es)) <> [].
Proof.
  cbv zeta.
  assert (H : stylists sample_session <> []) by (vm_compute; discriminate).
  split; [ exact H | ].
  exact (roster_never_empty sample_session _ H).
Defined.

(** The second stylist of the sample salon: new sales of 700, a delete, and
    an index out of range. *)
Lemma roster_edits_service_sales_witness :
  let a := initial_app sample_session in
  let st := mkStylist "Stylist 2" (qc 600) 0 in
  let w := fun x : app_state =>
    weekly_service_sales (fst (calculate_core_values (session x))) in
  nth_error (stylists (session a)) 1 = Some st
  /\ (1 < List.length (stylists (session a)))%nat
  /\ nth_error (stylists (session a)) 5 = None
  /\ w (snd (update_stylist_sales 1 (qc 700) a)) = w a - sales st + qc 700
  /\ w (snd (delete_stylist 1 a)) = w a - sales st
  /\ fst (update_stylist_sales 5 (qc 700) a) = IndexError.
Proof.
  intros a st w.
  assert (Hn : nth_error (stylists (session a)) 1 = Some st) by reflexivity.
  assert (Hlen : (1 < List.length (stylists (session a)))%nat)
    by (vm_compute; lia).
  assert (Hout : nth_error (stylists (session a)) 5 = None) by reflexivity.
  destruct (roster_edits_service_sales a 1 (qc 700)) as [Hsome _].
  destruct (Hsome st Hn) as (_ & Hupd & Hdel).
  destruct (Hdel Hlen) as [_ Hd].
  destruct (roster_edits_service_sales a 5 (qc 700)) as [_ Hnone].
  destruct (Hnone Hout) as (Hie & _).
  split; [ exact Hn | ]. split; [ exact Hlen | ]. split; [ exact Hout | ].
  split; [ exact Hupd | ]. split; [ exact Hd | exact Hie ].
Defined.

(** Deletes on the sample table: a name the owner has, a name the owner does
    not have, and the other owner's row. *)
Lemma delete_scenario_spec_witness :
  In "Plan A"%string (scenario_names 1%Z sample_table)
  /\ NoDup (scenario_names 1%Z sample_table)
  /\ ~ In "Plan C"%string (scenario_names 1%Z sample_table)
  /\ (2%Z <> 1%Z \/ "Plan A"%string <> "Plan A"%string)
  /\ fst (delete_scenario 1%Z "Plan A" sample_table) = true
  /\ stored 1%Z "Plan A" (snd (delete_scenario 1%Z "Plan A" sample_table))
     = None
  /\ delete_scenario 1%Z "Plan C" sample_table = (false, sample_table)
  /\ stored 2%Z "Plan A" (snd (delete_scenario 1%Z "Plan A" sample_table))
     = stored 2%Z "Plan A" sample_table.
Proof.
  assert (Hin : In "Plan A"%string (scenario_names 1%Z sample_table))
    by (vm_compute; auto).
  assert (Hnd : NoDup (scenario_names 1%Z sample_table)) by nodup_strings.
  assert (Hout : ~ In "Plan C"%string (scenario_names 1%Z sample_table))
    by (vm_compute; intuition discriminate).
  assert (Hne : 2%Z <> 1%Z \/ "Plan A"%string <> "Plan A"%string)
    by (left; discriminate).
  destruct (delete_scenario_spec 1%Z "Plan A" sample_table)
    as (Hhas & _ & Hother).
  destruct (Hhas Hin) as (Hret & _ & Hgone).
  destruct (delete_scenario_spec 1%Z "Plan C" sample_table)
    as (_ & Hnot & _).
  split; [ exact Hin | ]. split; [ exact Hnd | ]. split; [ exact Hout | ].
  split; [ exact Hne | ]. split; [ exact Hret | ].
  split; [ exact (Hgone Hnd) | ]. split; [ exact (Hnot Hout) | ].
  exact (Hother 2%Z "Plan A"%string Hne).
Defined.

(** A third scenario of owner 1 of the sample table, saved and deleted. *)
Lemma save_then_delete_witness :
  ~ In "Plan C"%string (scenario_names 1%Z sample_table)
  /\ (scenario_count 1%Z sample_table < 3)%nat
  /\ delete_scenario 1%Z "Plan C"
       (snd (save_scenario 1%Z "Plan C" "third" 40%nat 3%nat sample_table))
     = (true, sample_table).
Proof.
  assert (Hout : ~ In "Plan C"%string (scenario_names 1%Z sample_table))
    by (vm_compute; intuition discriminate).
  assert (Hroom : (scenario_count 1%Z sample_table < 3)%nat)
    by (vm_compute; lia).
  split; [ exact Hout | ]. split; [ exact Hroom | ].
  exact (save_then_delete 1%Z "Plan C" "third" 40%nat 3%nat sample_table
           Hout Hroom).
Defined.

(** The scenarios of owner 1 of the sample table. *)
Lemma load_scenarios_spec_witness :
  NoDup (scenario_names 1%Z sample_table)
  /\ dict_keys (load_scenarios py_str 1%Z sample_table)
     = scenario_names 1%Z sample_table
  /\ dict_get "Plan B" (load_scenarios py_str 1%Z sample_table)
     = option_map
         (fun r => mkLoaded (row_description r) (py_str (row_updated_at r))
                            (row_data_json r))
         (query_first 1%Z "Plan B" sample_table).
Proof.
  assert (Hnd : NoDup (scenario_names 1%Z sample_table)) by nodup_strings.
  destruct (load_scenarios_spec py_str 1%Z sample_table Hnd) as [Hk Hg].
  split; [ exact Hnd | ]. split; [ exact Hk | exact (Hg "Plan B"%string) ].
Defined.

(** A save after two saves and a delete on the empty table. *)
Lemma save_then_load_witness :
  let ops := [OpSave 1%Z "Plan A" "first" 10%nat 0%nat;
              OpSave 2%Z "Plan A" "other owner" 20%nat 1%nat;
              OpDelete 1%Z "Plan A"] in
  let r := save_scenario 1%Z "Plan B" "second" 30%nat 2%nat
             (table_run [] ops) in
  fst (fst r) = true
  /\ dict_get "Plan B" (load_scenarios py_str 1%Z (snd r))
     = Some (mkLoaded "second" (py_str 2) 30%nat).
Proof.
  intros ops r.
  assert (Hok : fst (fst r) = true) by reflexivity.
  split; [ exact Hok | ].
  destruct (save_then_load py_str ops 1%Z "Plan B" "second" 30%nat 2%nat)
    as [_ Hget].
  exact (Hget Hok).
Defined.

(** A retail percentage saved beside the stylists of user 7. *)
Lemma user_data_round_trip_witness :
  let db := save_user_data 7%Z "stylists" (PList []) 0%nat [] in
  (7%Z <> 7%Z \/ "stylists"%string <> "retail_percentage"%string)
  /\ load_user_data 7%Z "retail_percentage"
       (save_user_data 7%Z "retail_percentage" (PFloat (qc 20)) 1%nat db)
     = Some (PFloat (qc 20))
  /\ load_user_data 7%Z "stylists"
       (save_user_data 7%Z "retail_percentage" (PFloat (qc 20)) 1%nat db)
     = load_user_data 7%Z "stylists" db.
Proof.
  intro db.
  assert (Hne : 7%Z <> 7%Z \/ "stylists"%string <> "retail_percentage"%string)
    by (right; discriminate).
  destruct (user_data_round_trip 7%Z "retail_percentage" (PFloat (qc 20))
              1%nat db) as (Hsame & Hother & _).
  split; [ exact Hne | ]. split; [ exact Hsame | ].
  exact (Hother 7%Z "stylists"%string Hne).
Defined.

(** A new user 7 on the empty table. *)
Lemma initialize_user_data_defaults_witness :
  (forall t, load_user_data 7%Z t [] = None)
  /\ 8%Z <> 7%Z
  /\ load_user_data 7%Z "retail_percentage" (initialize_user_data 7%Z 0%nat [])
     = dict_get "retail_percentage" default_data
  /\ load_user_data 7%Z "scenarios" (initialize_user_data 7%Z 0%nat [])
     = dict_get "scenarios" default_data
  /\ load_user_data 8%Z "stylists" (initialize_user_data 7%Z 0%nat [])
     = load_user_data 8%Z "stylists" [].
Proof.
  assert (Hnew : forall t, load_user_data 7%Z t [] = None)
    by (intro t; reflexivity).
  assert (Hne : 8%Z <> 7%Z) by discriminate.
  destruct (initialize_user_data_defaults 7%Z 0%nat [] Hnew) as [Hd Ho].
  split; [ exact Hnew | ]. split; [ exact Hne | ].
  split; [ exact (Hd "retail_percentage"%string) | ].
  split; [ exact (Hd "scenarios"%string)
         | exact (Ho 8%Z "stylists"%string Hne) ].
Defined.

(** A logout from the sample session. *)
Lemma logout_clears_witness :
  NoDup (dict_keys (ws_values sample_web_session))
  /\ In "stylists"%string logout_data_keys
  /\ ~ In "show_login"%string logout_data_keys
  /\ ws_user_id (logout sample_web_session) = None
  /\ dict_get "stylists" (ws_values (logout sample_web_session)) = None
  /\ dict_get "show_login" (ws_values (logout sample_web_session))
     = dict_get "show_login" (ws_values sample_web_session).
Proof.
  assert (Hnd : NoDup (dict_keys (ws_values sample_web_session)))
    by nodup_strings.
  assert (Hin : In "stylists"%string logout_data_keys)
    by (vm_compute; auto).
  assert (Hout : ~ In "show_login"%string logout_data_keys)
    by (vm_compute; intuition discriminate).
  destruct (logout_clears sample_web_session Hnd)
    as (Hu & _ & _ & _ & Hgone & Hkept).
  split; [ exact Hnd | ]. split; [ exact Hin | ]. split; [ exact Hout | ].
  split; [ exact Hu | ].
  split; [ exact (Hgone _ Hin) | exact (Hkept _ Hout) ].
Defined.

(** The retail percentage of the sample session through save, logout, login
    and load. *)
Lemma session_data_round_trip_witness :
  let ws := sample_web_session in
  let db' := save_user_session_data ws 5%nat [] in
  let ws' :=
    load_user_session_data
      (login_session (logout ws) 7%Z "anna" "My Salon") db' in
  ws_user_id ws = Some 7%Z
  /\ NoDup (dict_keys (ws_values ws))
  /\ In "retail_percentage"%string saved_data_types
  /\ dict_get "retail_percentage" (ws_values ws) = Some (PFloat (qc 20))
  /\ dict_get "retail_percentage" (ws_values ws') = Some (PFloat (qc 20)).
Proof.
  intros ws db' ws'.
  assert (Hu : ws_user_id ws = Some 7%Z) by reflexivity.
  assert (Hnd : NoDup (dict_keys (ws_values ws))) by nodup_strings.
  assert (Hin : In "retail_percentage"%string saved_data_types)
    by (vm_compute; auto).
  assert (Hv : dict_get "retail_percentage" (ws_values ws)
               = Some (PFloat (qc 20))) by reflexivity.
  split; [ exact Hu | ]. split; [ exact Hnd | ]. split; [ exact Hin | ].
  split; [ exact Hv | ].
  exact (session_data_round_trip ws 7%Z 5%nat [] "anna" "My Salon" Hu Hnd
           "retail_percentage"%string (PFloat (qc 20)) Hin Hv).
Defined.

(** A session without a user, and the sample session with stored trainees. *)
Lemma load_user_session_data_spec_witness :
  let anonymous := mkWeb None None None None [] in
  let db := save_user_data 7%Z "trainees" (PList []) 0%nat [] in
  ws_user_id anonymous = None
  /\ ws_user_id sample_web_session = Some 7%Z
  /\ load_user_session_data anonymous db = anonymous
  /\ dict_get "trainees"
       (ws_values (load_user_session_data sample_web_session db))
     = match dict_get "trainees" (ws_values sample_web_session) with
       | Some x => Some x
       | None =>
           option_map
             (fun default_value =>
                match load_user_data 7%Z "trainees" db with
                | Some v => v
                | None => default_value
                end)
             (dict_get "trainees" default_data)
       end.
Proof.
  intros anonymous db.
  assert (Hnone : ws_user_id anonymous = None) by reflexivity.
  assert (Hsome : ws_user_id sample_web_session = Some 7%Z) by reflexivity.
  destruct (load_user_session_data_spec anonymous db) as [Hanon _].
  destruct (load_user_session_data_spec sample_web_session db) as [_ Hload].
  split; [ exact Hnone | ]. split; [ exact Hsome | ].
  split; [ exact (Hanon Hnone) | exact (Hload 7%Z "trainees"%string Hsome) ].
Defined.

(** The cache after saving 'Plan A': 'Plan_A' has the same key, 'Plan B' has
    not. *)
Lemma session_cache_round_trip_witness :
  let c' := save_scenario_to_session_cache "Plan A" 1%nat None in
  let c2 := save_scenario_to_session_cache "Autumn" 2%nat c' in
  replace_spaces "Plan_A" = replace_spaces "Plan A"
  /\ replace_spaces "Plan B" <> replace_spaces "Plan A"
  /\ (forall ch, In ch (list_ascii_of_string "Autumn") -> ch <> " "%char)
  /\ (forall ch, In ch (list_ascii_of_string "Plan_A") -> ch <> " "%char)
  /\ "Plan_A"%string <> "Autumn"%string
  /\ fst (load_scenario_from_session_cache "Plan_A" c') = Some 1%nat
  /\ fst (load_scenario_from_session_cache "Plan B" c')
     = fst (load_scenario_from_session_cache "Plan B" (@None (dict nat)))
  /\ fst (load_scenario_from_session_cache "Plan_A" c2)
     = fst (load_scenario_from_session_cache "Plan_A" c').
Proof.
  intros c' c2.
  assert (Hsame : replace_spaces "Plan_A" = replace_spaces "Plan A")
    by reflexivity.
  assert (Hdiff : replace_spaces "Plan B" <> replace_spaces "Plan A")
    by (vm_compute; discriminate).
  assert (Hn : forall ch, In ch (list_ascii_of_string "Autumn")
                          -> ch <> " "%char)
    by (intros ch Hin; cbn in Hin; intuition (subst; discriminate)).
  assert (Hn' : forall ch, In ch (list_ascii_of_string "Plan_A")
                           -> ch <> " "%char)
    by (intros ch Hin; cbn in Hin; intuition (subst; discriminate)).
  assert (Hne : "Plan_A"%string <> "Autumn"%string) by discriminate.
  destruct (session_cache_round_trip "Plan A" 1%nat None)
    as (_ & Hcollide & Hother & _).
  destruct (session_cache_round_trip "Autumn" 2%nat c')
    as (_ & _ & _ & Hplain).
  split; [ exact Hsame | ]. split; [ exact Hdiff | ].
  split; [ exact Hn | ]. split; [ exact Hn' | ]. split; [ exact Hne | ].
  split; [ exact (Hcollide "Plan_A"%string Hsame) | ].
  split; [ exact (Hother "Plan B"%string Hdiff)
         | exact (Hplain "Plan_A"%string Hn Hn' Hne) ].
Defined.

(** The sample page saved as 'Plan A'. *)
Lemma saved_scenario_metrics_witness :
  let p := sample_page in
  fst (save_current_plan "Plan A" "" "2025-01-01 10:00" p) = Saved
  /\ (let m := fst (calculate_core_values (inputs_of p)) in
      let p1 := snd (save_current_plan "Plan A" "" "2025-01-01 10:00" p) in
      option_map sc_metrics (dict_get "Plan A" (scenarios p1))
      = Some (mkScenarioMetrics
                (total_service_sales m) (retail_sales m) (total_sales m)
                (total_fixed_costs m) (total_variable_costs m) (profit m)
                (profit_margin m))
      /\ inputs_of p1 = snd (calculate_core_values (inputs_of p))
      /\ current_scenario_name p1 = "Plan A"%string).
Proof.
  intro p.
  assert (Hok : fst (save_current_plan "Plan A" "" "2025-01-01 10:00" p)
                = Saved) by reflexivity.
  split; [ exact Hok | ].
  exact (saved_scenario_metrics "Plan A" "" "2025-01-01 10:00" p Hok).
Defined.

(** Three more saves, a delete and a load on the sample page saved as
    'Plan A'. *)
Lemma scenario_tab_invariant_witness :
  let p := snd (save_current_plan "Plan A" "" "t1" sample_page) in
  let es := [PressSave "Plan B" "" "t2";
             PressSave "Plan C" "" "t3"; PressSave "Plan D" "" "t4";
             PressDelete "Plan A"; PressLoad "Plan B"] in
  (List.length (scenarios p) <= 3)%nat
  /\ dict_mem (current_scenario_name p) (scenarios p) = true
  /\ (List.length (scenarios (scenario_run p es)) <= 3)%nat
  /\ dict_mem (current_scenario_name (scenario_run p es))
              (scenarios (scenario_run p es)) = true.
Proof.
  intros p es.
  assert (H : (List.length (scenarios p) <= 3)%nat)
    by (vm_compute; lia).
  assert (Hcur : dict_mem (current_scenario_name p) (scenarios p) = true)
    by (vm_compute; reflexivity).
  destruct (scenario_tab_invariant p es H) as [Hlen Hmem].
  split; [ exact H | ]. split; [ exact Hcur | ].
  split; [ exact Hlen | exact (Hmem Hcur) ].
Defined.

(** The sample page after two saves: 'Plan A' is deleted, the active 'Plan
    B' is not. *)
Lemma delete_selected_scenario_spec_witness :
  let p :=
    scenario_run sample_page
      [PressSave "Plan A" "" "t1"; PressSave "Plan B" "" "t2"] in
  NoDup (dict_keys (scenarios p))
  /\ fst (delete_selected_scenario "Plan A" p) = Deleted
  /\ "Plan B"%string = current_scenario_name p
  /\ "Plan B"%string <> "Plan A"%string
  /\ dict_get "Plan A" (scenarios (snd (delete_selected_scenario "Plan A" p)))
     = None
  /\ dict_get "Plan B" (scenarios (snd (delete_selected_scenario "Plan A" p)))
     = dict_get "Plan B" (scenarios p)
  /\ inputs_of (snd (delete_selected_scenario "Plan A" p)) = inputs_of p
  /\ snd (delete_selected_scenario "Plan B" p) = p.
Proof.
  intro p.
  assert (Hnd : NoDup (dict_keys (scenarios p))) by nodup_strings.
  assert (Hdel : fst (delete_selected_scenario "Plan A" p) = Deleted)
    by (vm_compute; reflexivity).
  assert (Hcur : "Plan B"%string = current_scenario_name p)
    by (vm_compute; reflexivity).
  assert (Hne : "Plan B"%string <> "Plan A"%string) by discriminate.
  destruct (delete_selected_scenario_spec "Plan A" p Hnd)
    as (Hinputs & _ & Hkept & Hgone & _).
  destruct (delete_selected_scenario_spec "Plan B" p Hnd)
    as (_ & _ & _ & _ & Hrefused).
  split; [ exact Hnd | ]. split; [ exact Hdel | ]. split; [ exact Hcur | ].
  split; [ exact Hne | ].
  split; [ exact (proj2 (Hgone Hdel)) | ].
  split; [ exact (Hkept "Plan B"%string Hne) | ].
  split; [ exact Hinputs | exact (Hrefused Hcur) ].
Defined.
